(** * HPS command-line client: a shallow embedding of [src/index.py]

    The development follows the layout of the Python module: the Python
    built-ins the client relies on ([str.strip], [os.path.join], ...), the
    SHA-256 digest of [hashlib], the proof-of-work miner [CLIPowSolver], the
    controller-file bridge [ControllerFileMonitor] and the client core
    [HPSClientCore] (socket handlers and command handlers).  Definitions come
    first; the theorems about them follow at the end of the file. *)

From Stdlib Require Import ZArith NArith List String Ascii Bool Lia.
From Stdlib Require Import Strings.Byte.
From Stdlib Require Import DecimalString.
From stdpp Require Import base option list gmap strings.
Import ListNotations.

Local Open Scope string_scope.

(** Python [bytes] values. *)
Abbreviation bytes := (list byte).

(* ===================================================================== *)
(** ** Python built-ins used by the client *)
(* ===================================================================== *)

Module Py.

(** [s.encode('utf-8')]: a [str] is kept as its UTF-8 byte sequence. *)
Definition encode (s : string) : bytes := list_byte_of_string s.

(** [b.decode('utf-8')] on bytes that were produced by [encode] or by
    base64/hex encoders. *)
Definition decode (b : bytes) : string := string_of_list_byte b.

(** [str(n)] for a non-negative integer. *)
Definition str_of_N (n : N) : string := NilZero.string_of_uint (N.to_uint n).

(** [str(z)] for an integer. *)
Definition str_of_Z (z : Z) : string :=
  match z with
  | Zneg p => "-" ++ str_of_N (Npos p)
  | _ => str_of_N (Z.to_N z)
  end.

(** [s.startswith(p)]. *)
Fixpoint startswith (p s : string) : bool :=
  match p, s with
  | EmptyString, _ => true
  | String a p', String b s' => if Ascii.eqb a b then startswith p' s' else false
  | String _ _, EmptyString => false
  end.

(** [s.endswith("/")]. *)
Fixpoint ends_with_slash (s : string) : bool :=
  match s with
  | EmptyString => false
  | String a EmptyString => Ascii.eqb a "/"
  | String _ s' => ends_with_slash s'
  end.

(** [os.path.join(a, b)] of [posixpath]: an absolute second component
    discards the first one; otherwise exactly one separator is put
    between the two, unless [a] is empty or already ends with one. *)
Definition path_join (a b : string) : string :=
  if startswith "/" b then b
  else if String.eqb a "" || ends_with_slash a then a ++ b
  else a ++ "/" ++ b.

(** White space of the ASCII range, as removed by [str.strip] and
    [str.split]: space, tab to carriage return, and the four separator
    controls. *)
Definition is_space (c : ascii) : bool :=
  let n := N_of_ascii c in
  (N.eqb n 32 || (N.leb 9 n && N.leb n 13) || (N.leb 28 n && N.leb n 31))%N.

Fixpoint lstrip (s : string) : string :=
  match s with
  | String c s' => if is_space c then lstrip s' else s
  | EmptyString => EmptyString
  end.

Fixpoint rstrip (s : string) : string :=
  match s with
  | EmptyString => EmptyString
  | String c s' =>
      match rstrip s' with
      | EmptyString => if is_space c then EmptyString else String c EmptyString
      | r => String c r
      end
  end.

(** [s.strip()]. *)
Definition strip (s : string) : string := rstrip (lstrip s).

(** [f.readlines()] in text mode (universal newlines): the file is cut
    after every line feed, carriage return or carriage return and line
    feed pair, each of which reads as one line feed; a last line without
    terminator is kept as it is. *)
Fixpoint readlines_aux (cur : string) (s : string) : list string :=
  match s with
  | EmptyString => match cur with EmptyString => [] | _ => [cur] end
  | String c s' =>
      if Ascii.eqb c "010" then (cur ++ String "010" EmptyString) :: readlines_aux "" s'
      else if Ascii.eqb c "013" then
        match s' with
        | String c' s'' =>
            if Ascii.eqb c' "010"
            then (cur ++ String "010" EmptyString) :: readlines_aux "" s''
            else (cur ++ String "010" EmptyString) :: readlines_aux "" s'
        | EmptyString => [cur ++ String "010" EmptyString]
        end
      else readlines_aux (cur ++ String c EmptyString) s'
  end.

Definition readlines (s : string) : list string := readlines_aux "" s.

(** [s.split()]: maximal runs of non-space characters. *)
Fixpoint split_aux (cur : string) (s : string) : list string :=
  match s with
  | EmptyString => match cur with EmptyString => [] | _ => [cur] end
  | String c s' =>
      if is_space c
      then match cur with
           | EmptyString => split_aux "" s'
           | _ => cur :: split_aux "" s'
           end
      else split_aux (cur ++ String c EmptyString) s'
  end.

Definition split (s : string) : list string := split_aux "" s.

(** [" ".join(l)]. *)
Fixpoint join_space (l : list string) : string :=
  match l with
  | [] => ""
  | [x] => x
  | x :: rest => x ++ " " ++ join_space rest
  end.

(** [s.lower()] on ASCII letters. *)
Definition lower_ascii (c : ascii) : ascii :=
  let n := N_of_ascii c in
  if (N.leb 65 n && N.leb n 90)%N then ascii_of_N (n + 32) else c.

Fixpoint lower (s : string) : string :=
  match s with
  | EmptyString => EmptyString
  | String c s' => String (lower_ascii c) (lower s')
  end.

(** Truth value of an optional string attribute: [None] and [''] are
    both false. *)
Definition truthy (o : option string) : bool :=
  match o with
  | Some s => negb (String.eqb s "")
  | None => false
  end.

(** [str(x or '')]-free display of an optional attribute inside an
    f-string: [None] prints as the word None. *)
Definition fmt (o : option string) : string :=
  match o with Some s => s | None => "None" end.

End Py.

(* ===================================================================== *)
(** ** [hashlib.sha256] (FIPS 180-4) *)
(* ===================================================================== *)

Module SHA256.
Local Open Scope Z_scope.

Definition w32 (x : Z) : Z := x mod 2 ^ 32.
Definition add32 (x y : Z) : Z := w32 (x + y).
Definition rotr (n x : Z) : Z := Z.lor (Z.shiftr x n) (w32 (Z.shiftl x (32 - n))).
Definition not32 (x : Z) : Z := Z.lxor x 0xffffffff.

Definition Ch (x y z : Z) : Z := Z.lxor (Z.land x y) (Z.land (not32 x) z).
Definition Maj (x y z : Z) : Z :=
  Z.lxor (Z.lxor (Z.land x y) (Z.land x z)) (Z.land y z).
Definition Sigma0 (x : Z) : Z := Z.lxor (Z.lxor (rotr 2 x) (rotr 13 x)) (rotr 22 x).
Definition Sigma1 (x : Z) : Z := Z.lxor (Z.lxor (rotr 6 x) (rotr 11 x)) (rotr 25 x).
Definition sigma0 (x : Z) : Z := Z.lxor (Z.lxor (rotr 7 x) (rotr 18 x)) (Z.shiftr x 3).
Definition sigma1 (x : Z) : Z := Z.lxor (Z.lxor (rotr 17 x) (rotr 19 x)) (Z.shiftr x 10).

(** Integer root by bisection on the bits: the greatest [r] below
    [2 ^ k] with [r ^ deg <= n]. *)
Fixpoint iroot (deg : Z) (k : nat) (n acc : Z) : Z :=
  match k with
  | O => acc
  | S k' =>
      let candidate := acc + 2 ^ Z.of_nat k' in
      iroot deg k' n (if candidate ^ deg <=? n then candidate else acc)
  end.

Definition primes : list Z :=
  [ 2; 3; 5; 7; 11; 13; 17; 19; 23; 29; 31; 37; 41; 43; 47; 53;
    59; 61; 67; 71; 73; 79; 83; 89; 97; 101; 103; 107; 109; 113; 127; 131;
    137; 139; 149; 151; 157; 163; 167; 173; 179; 181; 191; 193; 197; 199; 211; 223;
    227; 229; 233; 239; 241; 251; 257; 263; 269; 271; 277; 281; 283; 293; 307; 311 ].

(** The round constants: the first 32 bits of the fractional parts of
    the cube roots of the first 64 primes. *)
Definition K : list Z :=
  List.map (fun p => w32 (iroot 3 35 (p * 2 ^ 96) 0)) primes.

(** The eight working words. *)
Record state := St { ha : Z; hb : Z; hc : Z; hd : Z; he : Z; hf : Z; hg : Z; hh : Z }.

(** The initial hash value: the first 32 bits of the fractional parts
    of the square roots of the first 8 primes. *)
Definition frac_sqrt (p : Z) : Z := w32 (iroot 2 35 (p * 2 ^ 64) 0).

Definition H0 : state :=
  St (frac_sqrt 2) (frac_sqrt 3) (frac_sqrt 5) (frac_sqrt 7)
     (frac_sqrt 11) (frac_sqrt 13) (frac_sqrt 17) (frac_sqrt 19).

Definition Z_of_byte (b : byte) : Z := Z.of_N (Byte.to_N b).

Definition byte_of_Z (z : Z) : byte :=
  match Byte.of_N (Z.to_N (z mod 256)) with
  | Some b => b
  | None => "000"%byte
  end.

(** Big-endian rendering of the low [n] bytes of [z]. *)
Fixpoint be_bytes (n : nat) (z : Z) : bytes :=
  match n with
  | O => []
  | S n' => byte_of_Z (Z.shiftr z (8 * Z.of_nat n')) :: be_bytes n' z
  end.

(** Message padding: a one bit, zeros up to 56 mod 64, the bit length on
    eight bytes. *)
Definition pad (msg : bytes) : bytes :=
  let len := Z.of_nat (List.length msg) in
  let zeros := Z.to_nat ((55 - len) mod 64) in
  msg ++ "128"%byte :: List.repeat "000"%byte zeros ++ be_bytes 8 (8 * len).

(** Big-endian words of a byte sequence (a trailing partial word is
    dropped; padded messages have none). *)
Fixpoint words (fuel : nat) (bs : bytes) : list Z :=
  match fuel, bs with
  | S fuel', b0 :: b1 :: b2 :: b3 :: rest =>
      (Z_of_byte b0 * 2 ^ 24 + Z_of_byte b1 * 2 ^ 16 + Z_of_byte b2 * 2 ^ 8 + Z_of_byte b3)
        :: words fuel' rest
  | _, _ => []
  end.

(** The message schedule, most recent word first. *)
Fixpoint schedule (n : nat) (rev_w : list Z) : list Z :=
  match n with
  | O => rev_w
  | S n' =>
      let wt := add32 (add32 (sigma1 (nth 1 rev_w 0)) (nth 6 rev_w 0))
                      (add32 (sigma0 (nth 14 rev_w 0)) (nth 15 rev_w 0)) in
      schedule n' (wt :: rev_w)
  end.

Definition round (s : state) (kw : Z * Z) : state :=
  let t1 := add32 (add32 (add32 (hh s) (Sigma1 (he s))) (Ch (he s) (hf s) (hg s)))
                  (add32 (fst kw) (snd kw)) in
  let t2 := add32 (Sigma0 (ha s)) (Maj (ha s) (hb s) (hc s)) in
  St (add32 t1 t2) (ha s) (hb s) (hc s) (add32 (hd s) t1) (he s) (hf s) (hg s).

Definition compress (s : state) (block : list Z) : state :=
  let w := List.rev (schedule 48 (List.rev block)) in
  let r := List.fold_left round (List.combine K w) s in
  St (add32 (ha s) (ha r)) (add32 (hb s) (hb r)) (add32 (hc s) (hc r)) (add32 (hd s) (hd r))
     (add32 (he s) (he r)) (add32 (hf s) (hf r)) (add32 (hg s) (hg r)) (add32 (hh s) (hh r)).

Fixpoint blocks (fuel : nat) (s : state) (ws : list Z) : state :=
  match fuel, ws with
  | S fuel', _ :: _ => blocks fuel' (compress s (List.firstn 16 ws)) (List.skipn 16 ws)
  | _, _ => s
  end.

Definition output (s : state) : bytes :=
  be_bytes 4 (ha s) ++ be_bytes 4 (hb s) ++ be_bytes 4 (hc s) ++ be_bytes 4 (hd s) ++
  be_bytes 4 (he s) ++ be_bytes 4 (hf s) ++ be_bytes 4 (hg s) ++ be_bytes 4 (hh s).

(** [hashlib.sha256(msg).digest()]. *)
Definition digest (msg : bytes) : bytes :=
  let p := pad msg in
  let ws := words (List.length p) p in
  output (blocks (List.length ws) H0 ws).

Definition hex_digit (n : N) : ascii :=
  match n with
  | 0 => "0" | 1 => "1" | 2 => "2" | 3 => "3" | 4 => "4" | 5 => "5" | 6 => "6" | 7 => "7"
  | 8 => "8" | 9 => "9" | 10 => "a" | 11 => "b" | 12 => "c" | 13 => "d" | 14 => "e" | _ => "f"
  end%N%char.

Fixpoint hex (bs : bytes) : string :=
  match bs with
  | [] => EmptyString
  | b :: rest =>
      String (hex_digit (Byte.to_N b / 16)) (String (hex_digit (Byte.to_N b mod 16)) (hex rest))
  end.

Arguments digest : simpl never.

(** [hashlib.sha256(msg).hexdigest()]. *)
Definition hexdigest (msg : bytes) : string := hex (digest msg).

End SHA256.


(* ===================================================================== *)
(** ** [base64] *)
(* ===================================================================== *)

Module Base64.
Local Open Scope N_scope.

Definition alphabet : string :=
  "ABCDEFGHIJKLMNOPQRSTUVWXYZabcdefghijklmnopqrstuvwxyz0123456789+/".

Definition sextet (n : N) : ascii :=
  match String.get (N.to_nat n) alphabet with
  | Some c => c
  | None => "="%char
  end.

Fixpoint encode_chars (bs : bytes) : string :=
  match bs with
  | [] => EmptyString
  | [a] =>
      let x := Byte.to_N a in
      String (sextet (x / 4)) (String (sextet (x mod 4 * 16)) "==")
  | [a; b] =>
      let x := Byte.to_N a in
      let y := Byte.to_N b in
      String (sextet (x / 4)) (String (sextet (x mod 4 * 16 + y / 16))
        (String (sextet (y mod 16 * 4)) "="))
  | a :: b :: c :: rest =>
      let x := Byte.to_N a in
      let y := Byte.to_N b in
      let z := Byte.to_N c in
      String (sextet (x / 4)) (String (sextet (x mod 4 * 16 + y / 16))
        (String (sextet (y mod 16 * 4 + z / 64)) (String (sextet (z mod 64))
          (encode_chars rest))))
  end.

(** [base64.b64encode(bs)]; the result is a [bytes] value of ASCII
    characters. *)
Definition b64encode (bs : bytes) : bytes := Py.encode (encode_chars bs).

Fixpoint value_in (c : ascii) (alpha : string) (i : N) : option N :=
  match alpha with
  | EmptyString => None
  | String a alpha' => if Ascii.eqb a c then Some i else value_in c alpha' (i + 1)
  end.

Definition value (c : ascii) : option N := value_in c alphabet 0.

Definition octet (n : N) : byte := SHA256.byte_of_Z (Z.of_N n).

(** A decoder for canonical RFC 4648 text (groups of four characters of
    the alphabet, padding only in the last group).  On such text it
    returns what [base64.b64decode] returns; [None] stands for the
    [binascii.Error] the library raises. *)
Fixpoint decode_canonical (s : string) : option bytes :=
  match s with
  | EmptyString => Some []
  | String a (String b (String c (String d rest))) =>
      match value a, value b with
      | Some x, Some y =>
          if Ascii.eqb c "=" then
            if Ascii.eqb d "=" && String.eqb rest "" then Some [octet (x * 4 + y / 16)]
            else None
          else
            match value c with
            | Some z =>
                if Ascii.eqb d "=" then
                  if String.eqb rest ""
                  then Some [octet (x * 4 + y / 16); octet (y mod 16 * 16 + z / 4)]
                  else None
                else
                  match value d, decode_canonical rest with
                  | Some w, Some tl =>
                      Some (octet (x * 4 + y / 16) :: octet (y mod 16 * 16 + z / 4)
                              :: octet (z mod 4 * 64 + w) :: tl)
                  | _, _ => None
                  end
            | None => None
            end
      | _, _ => None
      end
  | _ => None
  end.

End Base64.

(** Library operations that the repository calls but does not define.
    [b64decode] is [base64.b64decode] ([None]: the call raises);
    [rsa_pss_sign key salt msg] is
    [key.sign(msg, PSS(MGF1(SHA256), MAX_LENGTH), SHA256())], where [salt]
    is the randomness the padding draws for this call; [guess_type] and
    [guess_extension] are those of [mimetypes]; [splitext_ext p] is
    [os.path.splitext(p)[1]]; [basename] is [os.path.basename];
    [b64decode_error x] is the text of the exception that
    [base64.b64decode(x)] raises when it does. *)
Class Library := {
  b64decode : string -> option bytes;
  rsa_pss_sign : bytes -> bytes -> bytes -> bytes;
  guess_type : string -> option string;
  guess_extension : string -> option string;
  splitext_ext : string -> string;
  basename : string -> string;
  b64decode_error : option string -> string
}.

(** An instance to run the model on concrete inputs: the canonical
    decoder, a stand-in signer that keeps key, salt and message apart,
    and a file-name table that knows no type. *)
Definition toy_sign (key salt msg : bytes) : bytes :=
  (SHA256.digest (key ++ salt) ++ SHA256.digest msg)%list.

Definition concrete_library : Library :=
  {| b64decode := Base64.decode_canonical;
     rsa_pss_sign := toy_sign;
     guess_type := fun _ => None;
     guess_extension := fun _ => None;
     splitext_ext := fun _ => "";
     basename := fun p => p;
     b64decode_error := fun _ => "Incorrect padding" |}.

(* ===================================================================== *)
(** ** [CLIPowSolver] *)
(* ===================================================================== *)

Module PoW.

(** [bin(n)[2:]]: the binary digits of [n], most significant first. *)
Fixpoint bin_pos (p : positive) (acc : string) : string :=
  match p with
  | xH => String "1" acc
  | xO p' => bin_pos p' (String "0" acc)
  | xI p' => bin_pos p' (String "1" acc)
  end.

Definition bin (n : N) : string :=
  match n with
  | N0 => "0"
  | Npos p => bin_pos p ""
  end.

(** [s.zfill(width)] for a string without sign. *)
Definition zfill (width : nat) (s : string) : string :=
  string_of_list_ascii (List.repeat "0"%char (width - String.length s)) ++ s.

(** [s.index(c)]; [None] stands for the [ValueError] of a missing
    character. *)
Fixpoint index (c : ascii) (s : string) : option nat :=
  match s with
  | EmptyString => None
  | String a s' => if Ascii.eqb a c then Some O else option_map S (index c s')
  end.

(** The loop of [leading_zero_bits], with its counter. *)
Fixpoint leading_zero_bits_from (count : nat) (h : bytes) : option nat :=
  match h with
  | [] => Some count
  | byte :: rest =>
      if N.eqb (Byte.to_N byte) 0 then leading_zero_bits_from (count + 8) rest
      else option_map (fun i => count + i)%nat (index "1" (zfill 8 (bin (Byte.to_N byte))))
  end.

Definition leading_zero_bits (h : bytes) : option nat := leading_zero_bits_from 0 h.

(** [struct.pack(">Q", nonce)]: eight bytes, most significant first;
    [None] stands for [struct.error] when the nonce does not fit. *)
Definition pack_Q (nonce : N) : option bytes :=
  if (nonce <? 2 ^ 64)%N then Some (SHA256.be_bytes 8 (Z.of_N nonce)) else None.

(** The mining loop of [solve_thread] (its progress display and the
    calibration of the hash rate, which only feed the display, are left
    out).  [fuel] is the number of times the
    loop condition [self.is_solving and time.time() - self.start_time < 600]
    holds, i.e. the number of nonces the miner may try before it is
    cancelled or runs out of time.  The result pairs the nonce found (if
    any) with [self.total_hashes]. *)
Fixpoint mine (fuel : nat) (challenge_bytes : bytes) (target_bits : Z)
    (nonce total_hashes : N) : option N * N :=
  match fuel with
  | O => (None, total_hashes)
  | S fuel' =>
      match pack_Q nonce with
      | None => (None, total_hashes)
      | Some packed =>
          let hash_result := SHA256.digest (challenge_bytes ++ packed) in
          match leading_zero_bits hash_result with
          | None => (None, total_hashes + 1)%N
          | Some lzb =>
              if (target_bits <=? Z.of_nat lzb)%Z then (Some nonce, total_hashes + 1)%N
              else mine fuel' challenge_bytes target_bits (nonce + 1)%N (total_hashes + 1)%N
          end
      end
  end.

(** The fields of the solver that the mining thread and its caller share. *)
Record solver := Solver {
  is_solving : bool;
  solution_found : bool;           (* the threading.Event *)
  nonce_solution : option string;
  total_hashes : N
}.

(** [CLIPowSolver.__init__]. *)
Definition new_solver : solver := Solver false false None 0.

(** [solve_challenge], with the mining thread run to its end.  A call
    made while another search is in progress returns at once.  A missing
    challenge makes [b64decode] raise; a missing [target_bits] makes the
    first comparison raise, after one hash has been counted; the thread
    catches both and leaves no solution. *)
Definition solve_challenge `{lib : Library} (fuel : nat) (challenge : option string)
    (target_bits : option Z) (s : solver) : solver :=
  if is_solving s then s
  else
    match challenge ≫= b64decode with
    | None => Solver false false None 0
    | Some challenge_bytes =>
        match target_bits with
        | Some bits =>
            match mine fuel challenge_bytes bits 0 0 with
            | (Some nonce, hashes) => Solver false true (Some (Py.str_of_N nonce)) hashes
            | (None, hashes) => Solver false false None hashes
            end
        | None => Solver false false None (match fuel with O => 0 | S _ => 1 end)
        end
    end.

(** [wait_for_solution]: the state of the event once the thread is done. *)
Definition wait_for_solution (s : solver) : bool := solution_found s.

(** The property the miner searches for, in the words of the protocol:
    the digest of challenge and nonce starts with at least [target_bits]
    zero bits. *)
Definition bits_of_byte (b : byte) : list bool :=
  List.map (fun i => N.testbit (Byte.to_N b) (N.of_nat i)) [7; 6; 5; 4; 3; 2; 1; 0]%nat.

Definition bits_of_bytes (h : bytes) : list bool := List.flat_map bits_of_byte h.

Fixpoint count_leading_zeros (bits : list bool) : nat :=
  match bits with
  | false :: rest => S (count_leading_zeros rest)
  | _ => O
  end.

Definition pow_ok (challenge_bytes : bytes) (target_bits : Z) (nonce : N) : Prop :=
  exists packed, pack_Q nonce = Some packed /\
    (target_bits <= Z.of_nat (count_leading_zeros
       (bits_of_bytes (SHA256.digest (challenge_bytes ++ packed)))))%Z.

End PoW.

(* ===================================================================== *)
(** ** [ControllerFileMonitor] *)
(* ===================================================================== *)

Module Controller.

(** The line feed written by [f.write(f"...\n")]. *)
Definition nl : string := String "010" EmptyString.

(** Files under the controller directory: path to text content. *)
Abbreviation filesystem := (gmap string string).

Section Paths.
Variable home : string.   (* os.path.expanduser("~") *)

Definition controller_dir : string := Py.path_join home ".hps_cli".
Definition controller_file : string := Py.path_join controller_dir "controller_hpscli".
Definition logs_dir : string := Py.path_join controller_dir "logs".

(** [os.path.join(self.logs_dir, f"{command_id}.log")]. *)
Definition log_path (command_id : string) : string :=
  Py.path_join logs_dir (command_id ++ ".log").
End Paths.

(** [read_controller_file]: the stripped text, [""] when the file cannot
    be read. *)
Definition read_controller_file (home : string) (fs : filesystem) : string :=
  match fs !! controller_file home with
  | Some text => Py.strip text
  | None => ""
  end.

(** [write_controller_file]. *)
Definition write_controller_file (home : string) (content : string) (fs : filesystem)
    : filesystem :=
  <[controller_file home := content]> fs.

(** [_write_log_status]: the file is truncated; the message line is
    written only for a non-empty message. *)
Definition _write_log_status (log_file status message : string) (fs : filesystem)
    : filesystem :=
  <[log_file := status ++ nl ++ (if String.eqb message "" then "" else message ++ nl)]> fs.

(** [_append_log_result]: opening in append mode creates a missing file. *)
Definition _append_log_result (log_file result : string) (fs : filesystem) : filesystem :=
  <[log_file := default "" (fs !! log_file) ++ result ++ nl]> fs.

(** The dictionary returned by [_read_log_file]. *)
Record log_data := LogData { status : string; message : string; result : string }.

(** [_read_log_file]: the first three lines, stripped; [None] for a
    missing or empty file. *)
Definition _read_log_file (log_file : string) (fs : filesystem) : option log_data :=
  match fs !! log_file with
  | None => None
  | Some text =>
      match Py.readlines text with
      | [] => None
      | l0 :: rest =>
          Some (LogData (Py.strip l0)
                        (match rest with l1 :: _ => Py.strip l1 | [] => "" end)
                        (match rest with _ :: l2 :: _ => Py.strip l2 | _ => "" end))
      end
  end.

(** What a command handler does when it is run with [sys.stdout] and
    [sys.stderr] captured: it returns, or it raises [e] (kept as
    [str(e)]); either way some text has been captured. *)
Inductive handler_outcome :=
| Returned (stdout stderr : string)
| Raised (exc stdout stderr : string).

(** [self.client_core.command_handlers], as seen by the controller: the
    outcome of each registered verb on given arguments. *)
Abbreviation handler_table := (string -> option (list string -> handler_outcome)).

(** The dictionary returned by [_execute_controller_command]. *)
Record command_result := CommandResult { success : bool; output : string }.

(** A row of [cli_history]. *)
Record history_row := HistoryRow {
  hist_command : string; hist_success : bool; hist_result : string }.

(** [_execute_controller_command]: the result, and the history row it
    inserts. *)
Definition _execute_controller_command (handlers : handler_table) (command_content : string)
    : command_result * list history_row :=
  match Py.split (Py.strip command_content) with
  | [] => (CommandResult false "Empty command", [])
  | part0 :: args =>
      let command := Py.lower part0 in
      match handlers command with
      | Some handler =>
          match handler args with
          | Returned out err =>
              let output := if String.eqb err "" then out else out ++ nl ++ err in
              (CommandResult true (Py.strip output),
               [HistoryRow command_content true "Executed via controller"])
          | Raised e out err =>
              (CommandResult false (Py.strip (e ++ nl ++ err)),
               [HistoryRow command_content false e])
          end
      | None => (CommandResult false ("Unknown command: " ++ command), [])
      end
  end.

(** [_execute_command_with_log]: the log is first marked as running, the
    command is executed, then the final status, the output and the
    terminal indicator are written. *)
Definition _execute_command_with_log (handlers : handler_table)
    (log_file command_content : string) (fs : filesystem) : filesystem :=
  let fs1 := _write_log_status log_file "1" "Command execution started" fs in
  let r := fst (_execute_controller_command handlers command_content) in
  if success r
  then _append_log_result log_file "1" (_write_log_status log_file "1" (output r) fs1)
  else _append_log_result log_file "0" (_write_log_status log_file "0" (output r) fs1).

(** One round of [_monitor_loop] on a changed controller file: a fresh
    command is accepted by overwriting the controller file with the path
    of its log, and is then executed.  [command_id] is the fresh UUID. *)
Definition monitor_round (home : string) (handlers : handler_table) (command_id : string)
    (fs : filesystem) : filesystem :=
  let content := read_controller_file home fs in
  if negb (String.eqb content "") && negb (Py.startswith (logs_dir home) content)
  then
    let log_file := log_path home command_id in
    _execute_command_with_log handlers log_file content
      (write_controller_file home log_file fs)
  else fs.

(** [message if message else fallback]. *)
Definition or_else (message fallback : string) : string :=
  if String.eqb message "" then fallback else message.

(** The second loop of [send_command].  Each element of [observations]
    is the file system as one poll of the log sees it; the list ends when
    the 300 seconds are over. *)
Fixpoint poll_log (log_file : string) (observations : list filesystem) : bool * string :=
  match observations with
  | [] => (false, "Timeout waiting for command execution")
  | fs :: later =>
      match _read_log_file log_file fs with
      | Some log =>
          if String.eqb (status log) "1" && negb (String.eqb (result log) "")
          then
            if String.eqb (result log) "1"
            then (true, or_else (message log) "Command executed successfully")
            else (false, or_else (message log) "Command failed")
          else if String.eqb (status log) "0"
          then (false, or_else (message log) "Command failed immediately")
          else poll_log log_file later
      | None => poll_log log_file later
      end
  end.

(** The first loop of [send_command]: wait until the controller file
    holds a path under the logs directory. *)
Fixpoint poll_controller (home : string) (observations : list filesystem) : option string :=
  match observations with
  | [] => None
  | fs :: later =>
      match fs !! controller_file home with
      | None => poll_controller home later
      | Some _ =>
          let content := read_controller_file home fs in
          if Py.startswith (logs_dir home) content then Some content
          else poll_controller home later
      end
  end.

(** [send_command], after it has written the command: [accept_obs] are
    the polls of the controller file, [fs_check] is the file system when
    the existence of the log is tested, [log_obs] are the polls of the
    log. *)
Definition send_command (home : string) (accept_obs : list filesystem)
    (fs_check : filesystem) (log_obs : list filesystem) : bool * string :=
  match poll_controller home accept_obs with
  | None => (false, "Timeout waiting for log file creation")
  | Some log_file =>
      if String.eqb log_file "" then (false, "Timeout waiting for log file creation")
      else
        match fs_check !! log_file with
        | None => (false, "Log file not found: " ++ log_file)
        | Some _ => poll_log log_file log_obs
        end
  end.

(** The text [send_command] writes to the controller file. *)
Definition command_content (command : string) (args : list string) : string :=
  Py.strip (command ++ " " ++ Py.join_space args).

End Controller.

(* ===================================================================== *)
(** ** [HPSClientCore] *)
(* ===================================================================== *)

Module Core.

(** Scope of the model.  The client object is a record of the attributes
    that the handlers below read or write; time is read through an
    [oracle] and is an exact number; what the handlers print is kept as a
    list of lines, what they hand to [sio.emit] as a list of effects.  Left
    out: [save_session_state] and [calculate_disk_usage] (they write
    [cli_session], [cli_stats] and [used_disk_space], which no handler
    below reads), the login handshake, the progress display of the miner,
    and failures of the disk or of the database other than those named in
    the comments. *)

(** *** Payloads of the server events

    Every payload is a JSON object; a key that may be absent is an option
    ([None]: the key is missing, so [data.get] falls back on its
    default). *)

(** [pow_challenge]. *)
Record pow_data := PowData {
  pd_error : option string;
  pd_blocked_until : option Z;
  pd_challenge : option string;
  pd_target_bits : option Z;
  pd_action_type : option string
}.

(** [content_response]. *)
Record content_data := ContentData {
  cd_error : option string;
  cd_content : option string;
  cd_title : option string;
  cd_description : option string;
  cd_mime_type : option string;
  cd_username : option string;
  cd_signature : option string;
  cd_public_key : option string;
  cd_verified : option bool;
  cd_content_hash : option string;
  cd_reputation : option Z
}.

(** [publish_result], [dns_result], [report_result] and
    [dns_resolution]. *)
Record reply := Reply {
  r_success : option bool;
  r_error : option string;
  r_content_hash : option string;
  r_domain : option string;
  r_username : option string;
  r_verified : option bool
}.

(** One entry of [search_results]. *)
Record search_hit := SearchHit {
  sh_content_hash : option string;
  sh_title : option string;
  sh_username : option string;
  sh_mime_type : option string;
  sh_verified : option bool;
  sh_reputation : option Z
}.

(** [search_results]. *)
Record search_data := SearchData {
  sd_error : option string;
  sd_results : option (list search_hit)
}.

(** [network_state]. *)
Record network_data := NetworkData {
  nd_error : option string;
  nd_online_nodes : option Z;
  nd_total_content : option Z;
  nd_total_dns : option Z;
  nd_node_types : list (string * Z)
}.

(** *** What the handlers leave for the blocked caller *)

(** [content_info], the dictionary built by [content_response]. *)
Record content_info := ContentInfo {
  ci_title : string;
  ci_description : string;
  ci_mime_type : string;
  ci_username : string;
  ci_signature : string;
  ci_public_key : string;
  ci_verified : bool;
  ci_content : bytes;
  ci_content_hash : string;
  ci_reputation : Z;
  ci_integrity_ok : bool
}.

(** [self.content_result]. *)
Inductive content_result :=
| ContentError (error : string)
| ContentOk (info : content_info).

(** [self.search_result]. *)
Inductive search_result :=
| SearchError (error : string)
| SearchHits (results : list search_hit).

(** [self.network_result]. *)
Inductive network_result :=
| NetworkError (error : string)
| NetworkState (data : network_data).

(** A [threading.Event] together with the result attribute it guards. *)
Record mailbox (A : Type) := Mailbox { flag : bool; value : option A }.
Arguments Mailbox {A} _ _.
Arguments flag {A} _.
Arguments value {A} _.

(** [event.clear(); result = None]. *)
Definition cleared {A : Type} : mailbox A := Mailbox false None.

(** [result = v; event.set()]. *)
Definition delivered {A : Type} (v : A) : mailbox A := Mailbox true (Some v).

(** *** Local tables *)

(** A row of [cli_content_cache]; the key [content_hash] is the key of
    the map that holds the rows. *)
Record content_row := ContentRow {
  file_path : string;
  file_name : string;
  row_mime_type : string;
  size : nat;
  last_accessed : Z;
  row_title : option string;
  row_description : option string;
  row_username : option string;
  row_signature : option string;
  row_public_key : option string;
  row_verified : bool
}.

(** A row of [cli_reports]. *)
Record report_row := ReportRow {
  report_id : string;
  rep_content_hash : string;
  reported_user : string;
  reporter_user : string;
  rep_timestamp : Z;
  rep_status : string;
  reason : string
}.

(** A row of [cli_dns_records]; the key [domain] is the key of the map. *)
Record dns_row := DnsRow {
  dns_content_hash : option string;
  dns_username : option string;
  dns_verified : bool;
  dns_timestamp : Z;
  ddns_hash : string
}.

(** A row of [cli_network_nodes]. *)
Record node_row := NodeRow {
  node_id : string;
  node_address : string;
  node_type : string;
  node_reputation : Z;
  node_status : string
}.

(** *** Effects *)

(** What a handler shows, by the method of [CLIDisplay] it calls;
    [Print] is a bare [print]. *)
Inductive out_line :=
| Print (text : string)
| PrintError (text : string)
| PrintWarning (text : string)
| PrintSuccess (text : string)
| PrintInfo (text : string)
| PrintSection (text : string)
| PrintTable (headers : list string) (rows : list (list string)).

(** The pending context of an upload: the tuple [self.pending_upload]. *)
Record upload_ctx := UploadCtx {
  uc_content_hash : string;
  uc_title : string;
  uc_description : string;
  uc_mime_type : string;
  uc_size : nat;
  uc_signature : bytes;
  uc_full_content : bytes
}.

(** The pending context of a name registration: [self.pending_dns]. *)
Record dns_ctx := DnsCtx {
  dc_domain : string;
  dc_ddns_content : bytes;
  dc_signature : bytes
}.

(** Events handed to [self.sio.emit], and threads started. *)
Inductive effect :=
| EmitRequestPow (client_identifier action_type : string)
| EmitAuthenticate (username : option string) (password_hash : string)
    (pow_nonce : string) (hashrate : Z) (signature : bytes) (client_challenge : string)
| EmitPublishContent (ctx : upload_ctx) (public_key : bytes) (pow_nonce : string) (hashrate : Z)
| EmitRegisterDns (ctx : dns_ctx) (public_key : bytes) (pow_nonce : string) (hashrate : Z)
| EmitReportContent (content_hash reported_user : string) (reporter : option string)
    (pow_nonce : string) (hashrate : Z)
| EmitRequestContent (content_hash : string)
| EmitResolveDns (domain : string)
| EmitSearchContent (query content_type sort_by : string)
| EmitGetNetworkState
| StartReconnectThread.

(** *** The client object *)

(** [self.max_upload_size]. *)
Definition max_upload_size : Z := 100 * 1024 * 1024.

(** Attributes that the modelled handlers only read. *)
Record config := Config {
  via_controller : bool;
  no_cli : bool;
  public_key_pem : bytes;
  private_key : bytes;
  crypto_dir : string;
  client_identifier : string;
  auto_reconnect : bool;
  is_running : bool
}.

(** The session attributes.  [sio_connected] is [self.sio.connected], the
    state of the transport itself; [loop_ready] says that [self.loop] is
    set. *)
Record session := Session {
  current_user : option string;
  username : option string;
  password : option string;
  current_server : option string;
  connected : bool;
  sio_connected : bool;
  loop_ready : bool;
  reputation : Z;
  client_auth_challenge : option string
}.

Record ban_state := BanState {
  banned_until : option Z;
  ban_duration : Z;
  ban_reason : string
}.

(** The pending contexts; [None] (or [false]) when the attribute does
    not exist on the object. *)
Record pending := Pending {
  pending_login : bool;
  pending_upload : option upload_ctx;
  pending_dns : option dns_ctx;
  pending_report : option (string * string)
}.

Record replies := Replies {
  upload_box : mailbox reply;
  dns_box : mailbox reply;
  report_box : mailbox reply;
  content_box : mailbox content_result;
  search_box : mailbox search_result;
  network_box : mailbox network_result
}.

(** The disk: files by path, and the tables of [hps_cli.db] that the
    modelled handlers touch. *)
Record storage := Storage {
  files : gmap string bytes;
  cli_content_cache : gmap string content_row;
  cli_reports : list report_row;
  cli_dns_records : gmap string dns_row;
  cli_network_nodes : list node_row
}.

Record client := Client {
  cfg : config;
  sess : session;
  ban : ban_state;
  pend : pending;
  repl : replies;
  store : storage;
  stats_data : gmap string Z;
  pow_solver : PoW.solver;
  display : list out_line;
  effects : list effect
}.

(** What a handler reads from the outside world while it runs: two
    successive readings of [time.time()], the text of a third one, the
    number of nonces the miner gets to try, the hash rate it reports, the
    randomness of a signature and what the user types at a prompt. *)
Record oracle := Oracle {
  clock : Z;
  clock_later : Z;
  clock_repr : string;
  pow_fuel : nat;
  hashrate : Z;
  salt : bytes;
  typed : list string     (* the answers given to [display.get_input] *)
}.

Definition with_sess (f : session -> session) (st : client) : client :=
  Client (cfg st) (f (sess st)) (ban st) (pend st) (repl st) (store st)
         (stats_data st) (pow_solver st) (display st) (effects st).

Definition with_ban (b : ban_state) (st : client) : client :=
  Client (cfg st) (sess st) b (pend st) (repl st) (store st)
         (stats_data st) (pow_solver st) (display st) (effects st).

Definition with_pend (f : pending -> pending) (st : client) : client :=
  Client (cfg st) (sess st) (ban st) (f (pend st)) (repl st) (store st)
         (stats_data st) (pow_solver st) (display st) (effects st).

Definition with_repl (f : replies -> replies) (st : client) : client :=
  Client (cfg st) (sess st) (ban st) (pend st) (f (repl st)) (store st)
         (stats_data st) (pow_solver st) (display st) (effects st).

Definition with_store (f : storage -> storage) (st : client) : client :=
  Client (cfg st) (sess st) (ban st) (pend st) (repl st) (f (store st))
         (stats_data st) (pow_solver st) (display st) (effects st).

Definition with_solver (s : PoW.solver) (st : client) : client :=
  Client (cfg st) (sess st) (ban st) (pend st) (repl st) (store st)
         (stats_data st) s (display st) (effects st).

(** [self.stats_data[key] += n]. *)
Definition stat_add (key : string) (n : Z) (st : client) : client :=
  Client (cfg st) (sess st) (ban st) (pend st) (repl st) (store st)
         (<[key := (default 0 (stats_data st !! key) + n)%Z]> (stats_data st))
         (pow_solver st) (display st) (effects st).

(** A line shown to the user. *)
Definition show (l : out_line) (st : client) : client :=
  Client (cfg st) (sess st) (ban st) (pend st) (repl st) (store st)
         (stats_data st) (pow_solver st) (display st ++ [l]) (effects st).

(** [await self.sio.emit(...)], or a thread started. *)
Definition emit (e : effect) (st : client) : client :=
  Client (cfg st) (sess st) (ban st) (pend st) (repl st) (store st)
         (stats_data st) (pow_solver st) (display st) (effects st ++ [e]).

(** The recurring [if self.via_controller: print(a) else: display(b)]. *)
Definition report_to_user (a : string) (b : out_line) (st : client) : client :=
  if via_controller (cfg st) then show (Print a) st else show b st.

(** [if not self.via_controller: display(l)]. *)
Definition show_unless_controller (l : out_line) (st : client) : client :=
  if via_controller (cfg st) then st else show l st.

Definition set_pending_upload (v : option upload_ctx) : client -> client :=
  with_pend (fun p => Pending (pending_login p) v (pending_dns p) (pending_report p)).

Definition set_pending_dns (v : option dns_ctx) : client -> client :=
  with_pend (fun p => Pending (pending_login p) (pending_upload p) v (pending_report p)).

Definition set_pending_report (v : option (string * string)) : client -> client :=
  with_pend (fun p => Pending (pending_login p) (pending_upload p) (pending_dns p) v).

Definition set_upload_box (b : mailbox reply) : client -> client :=
  with_repl (fun r => Replies b (dns_box r) (report_box r) (content_box r)
                              (search_box r) (network_box r)).

Definition set_dns_box (b : mailbox reply) : client -> client :=
  with_repl (fun r => Replies (upload_box r) b (report_box r) (content_box r)
                              (search_box r) (network_box r)).

Definition set_report_box (b : mailbox reply) : client -> client :=
  with_repl (fun r => Replies (upload_box r) (dns_box r) b (content_box r)
                              (search_box r) (network_box r)).

Definition set_content_box (b : mailbox content_result) : client -> client :=
  with_repl (fun r => Replies (upload_box r) (dns_box r) (report_box r) b
                              (search_box r) (network_box r)).

Definition set_search_box (b : mailbox search_result) : client -> client :=
  with_repl (fun r => Replies (upload_box r) (dns_box r) (report_box r) (content_box r)
                              b (network_box r)).

Definition set_network_box (b : mailbox network_result) : client -> client :=
  with_repl (fun r => Replies (upload_box r) (dns_box r) (report_box r) (content_box r)
                              (search_box r) b).

(** [self.connected = v]. *)
Definition set_connected (v : bool) : client -> client :=
  with_sess (fun s => Session (current_user s) (username s) (password s) (current_server s)
                              v (sio_connected s) (loop_ready s) (reputation s)
                              (client_auth_challenge s)).

(** *** Helpers of the client *)

Section Handlers.
Context `{lib : Library}.

(** The dictionary passed to [save_content_to_storage]. *)
Record metadata := Metadata {
  md_title : string;
  md_description : string;
  md_mime_type : string;
  md_username : string;
  md_signature : string;
  md_public_key : string;
  md_verified : bool
}.

(** [os.path.join(self.crypto_dir, "content")]. *)
Definition content_dir (st : client) : string := Py.path_join (crypto_dir (cfg st)) "content".

(** The path of the blob stored under [content_hash]. *)
Definition blob_path (st : client) (content_hash : string) : string :=
  Py.path_join (content_dir st) (content_hash ++ ".dat").

(** [save_content_to_storage]: the blob is written to its file, then the
    row is inserted or replaced. *)
Definition save_content_to_storage (now : Z) (content_hash : string) (content : bytes)
    (meta : option metadata) (st : client) : client :=
  let path := blob_path st content_hash in
  let row :=
    match meta with
    | Some m =>
        ContentRow path (content_hash ++ ".dat") (md_mime_type m)
          (List.length content) now
          (Some (md_title m)) (Some (md_description m)) (Some (md_username m))
          (Some (md_signature m)) (Some (md_public_key m)) (md_verified m)
    | None =>
        ContentRow path (content_hash ++ ".dat") "application/octet-stream"
          (List.length content) now None None None None None false
    end in
  with_store (fun s =>
    Storage (<[path := content]> (files s))
            (<[content_hash := row]> (cli_content_cache s))
            (cli_reports s) (cli_dns_records s) (cli_network_nodes s)) st.

(** [handle_ban]; [now] is the reading of the clock inside it. *)
Definition handle_ban (now duration : Z) (why : string) (st : client) : client :=
  show (PrintWarning ("Banned for " ++ Py.str_of_Z duration ++ "s: " ++ why))
       (with_ban (BanState (Some (now + duration)%Z) duration why) st).

(** [request_pow_challenge]. *)
Definition request_pow_challenge (action_type : string) (st : client) : client :=
  if connected (sess st)
  then emit (EmitRequestPow (client_identifier (cfg st)) action_type) st
  else show (PrintError "Not connected to server") st.

(** [run_async]: the coroutine runs only on a connected client with a
    network loop. *)
Definition run_async (coro : client -> client) (st : client) : client :=
  if negb (connected (sess st)) then show (PrintError "Not connected to server") st
  else if negb (loop_ready (sess st)) then show (PrintError "Network loop not initialized") st
  else coro st.

(** [send_authentication].  Without a password the call raises before
    anything is sent. *)
Definition send_authentication (o : oracle) (pow_nonce : string) (st : client) : client :=
  if negb (connected (sess st)) then st
  else
    match password (sess st) with
    | None => st
    | Some pw =>
        match client_auth_challenge (sess st) with
        | Some challenge =>
            if String.eqb challenge ""
            then show (PrintError "Client authentication challenge missing") st
            else
              emit (EmitAuthenticate (username (sess st))
                      (SHA256.hexdigest (Py.encode pw)) pow_nonce (hashrate o)
                      (rsa_pss_sign (private_key (cfg st)) (salt o) (Py.encode challenge))
                      challenge) st
        | None => show (PrintError "Client authentication challenge missing") st
        end
    end.

(** [_upload_file]. *)
Definition _upload_file (o : oracle) (ctx : upload_ctx) (pow_nonce : string) (st : client)
    : client :=
  if negb (connected (sess st)) then st
  else emit (EmitPublishContent ctx (public_key_pem (cfg st)) pow_nonce (hashrate o)) st.

(** [_register_dns]. *)
Definition _register_dns (o : oracle) (ctx : dns_ctx) (pow_nonce : string) (st : client)
    : client :=
  if negb (connected (sess st)) then st
  else emit (EmitRegisterDns ctx (public_key_pem (cfg st)) pow_nonce (hashrate o)) st.

(** [_report_content]: the row is inserted first, then the event is
    sent.  The insertion fails on a report id that is already there and
    on a missing reporter (the column is declared [NOT NULL]); then
    nothing is sent. *)
Definition _report_content (o : oracle) (content_hash reported : string) (pow_nonce : string)
    (st : client) : client :=
  if negb (connected (sess st)) then st
  else
    let id := SHA256.hexdigest (Py.encode
                (content_hash ++ reported ++ Py.fmt (current_user (sess st)) ++ clock_repr o)) in
    match current_user (sess st) with
    | None =>
        show (PrintError
          "Report sending error: NOT NULL constraint failed: cli_reports.reporter_user") st
    | Some reporter =>
        if existsb (fun r => String.eqb (report_id r) id) (cli_reports (store st))
        then show (PrintError
               "Report sending error: UNIQUE constraint failed: cli_reports.report_id") st
        else
          let row := ReportRow id content_hash reported reporter (clock o) "pending" "" in
          emit (EmitReportContent content_hash reported (Some reporter)
                                  pow_nonce (hashrate o))
            (with_store (fun s =>
               Storage (files s) (cli_content_cache s) (cli_reports s ++ [row])
                       (cli_dns_records s) (cli_network_nodes s)) st)
    end.

(** *** Socket event handlers *)

(** [disconnect]; the reconnection thread is recorded as started
    whenever [start_reconnect_thread] is called. *)
Definition disconnect (st : client) : client :=
  let st1 := show (PrintWarning
               ("Disconnected from server " ++ Py.fmt (current_server (sess st))))
               (set_connected false st) in
  if auto_reconnect (cfg st) && is_running (cfg st) then emit StartReconnectThread st1
  else st1.

(** [pow_challenge].  On the error path the handler reports the error
    and, when [blocked_until] is given, records the ban; otherwise it
    mines the challenge and continues the flow named by [action_type]. *)
Definition pow_challenge (o : oracle) (data : pow_data) (st : client) : client :=
  match pd_error data with
  | Some error =>
      let st1 := show (PrintError ("PoW challenge error: " ++ error)) st in
      match pd_blocked_until data with
      | Some blocked_until =>
          let duration := (blocked_until - clock o)%Z in
          handle_ban (clock_later o) duration "Rate limit exceeded" st1
      | None => st1
      end
  | None =>
      let action_type := default "login" (pd_action_type data) in
      let st1 := show (PrintInfo ("PoW challenge received: " ++
                   match pd_target_bits data with
                   | Some bits => Py.str_of_Z bits
                   | None => "None"
                   end ++ " bits")) st in
      let solver' := PoW.solve_challenge (pow_fuel o) (pd_challenge data)
                       (pd_target_bits data) (pow_solver st1) in
      let st2 := with_solver solver' st1 in
      if PoW.wait_for_solution solver' then
        let nonce := default "None" (PoW.nonce_solution solver') in
        let st3 := stat_add "hashes_calculated" (Z.of_N (PoW.total_hashes solver'))
                     (stat_add "pow_time" (clock_later o - clock o)%Z
                        (stat_add "pow_solved" 1 st2)) in
        if String.eqb action_type "login" then send_authentication o nonce st3
        else if String.eqb action_type "upload" then
          match pending_upload (pend st3) with
          | Some ctx => _upload_file o ctx nonce st3
          | None => st3
          end
        else if String.eqb action_type "dns" then
          match pending_dns (pend st3) with
          | Some ctx => _register_dns o ctx nonce st3
          | None => st3
          end
        else if String.eqb action_type "report" then
          match pending_report (pend st3) with
          | Some (content_hash, reported) => _report_content o content_hash reported nonce st3
          | None => st3
          end
        else st3
      else show (PrintError "PoW solution failed") st2
  end.

(** [content_response]. *)
Definition content_response (o : oracle) (data : content_data) (st : client) : client :=
  match cd_error data with
  | Some error =>
      set_content_box (delivered (ContentError error))
        (report_to_user ("Content error: " ++ error)
           (PrintError ("Content error: " ++ error)) st)
  | None =>
      let title := default "No title" (cd_title data) in
      let description := default "" (cd_description data) in
      let mime_type := default "text/plain" (cd_mime_type data) in
      let user := default "Unknown" (cd_username data) in
      let signature := default "" (cd_signature data) in
      let public_key := default "" (cd_public_key data) in
      let verified := default false (cd_verified data) in
      let content_hash := default "" (cd_content_hash data) in
      match cd_content data ≫= b64decode with
      | Some content =>
          let st1 := stat_add "content_downloaded" 1
                       (stat_add "data_received" (Z.of_nat (List.length content)) st) in
          let actual_hash := SHA256.hexdigest content in
          let integrity_ok := String.eqb actual_hash content_hash in
          let st2 := if integrity_ok then st1
                     else show_unless_controller
                            (PrintWarning "File integrity compromised!") st1 in
          let st3 := save_content_to_storage (clock o) content_hash content
                       (Some (Metadata title description mime_type user signature
                                       public_key verified)) st2 in
          set_content_box
            (delivered (ContentOk
               (ContentInfo title description mime_type user signature public_key verified
                            content content_hash (default 100%Z (cd_reputation data))
                            integrity_ok))) st3
      | None =>
          let e := b64decode_error (cd_content data) in
          set_content_box (delivered (ContentError e))
            (report_to_user ("Error decoding content: " ++ e)
               (PrintError ("Error decoding content: " ++ e)) st)
      end
  end.

(** The common shape of [publish_result], [dns_result] and
    [report_result]: count and announce a success, announce a failure,
    hand the payload to the caller. *)
Definition announce_result (stat ok_text fail_text : string) (data : reply)
    (st : client) : client :=
  if default false (r_success data)
  then report_to_user ok_text (PrintSuccess ok_text) (stat_add stat 1 st)
  else
    let text := fail_text ++ default "Unknown error" (r_error data) in
    report_to_user text (PrintError text) st.

(** [publish_result]. *)
Definition publish_result (data : reply) (st : client) : client :=
  set_pending_upload None
    (set_upload_box (delivered data)
       (announce_result "content_uploaded"
          ("Upload successful! Hash: " ++ Py.fmt (r_content_hash data))
          "Upload failed: " data st)).

(** [dns_result]. *)
Definition dns_result (data : reply) (st : client) : client :=
  set_pending_dns None
    (set_dns_box (delivered data)
       (announce_result "dns_registered"
          ("DNS registered: " ++ Py.fmt (r_domain data))
          "DNS registration failed: " data st)).

(** [report_result]. *)
Definition report_result (data : reply) (st : client) : client :=
  set_pending_report None
    (set_report_box (delivered data)
       (announce_result "content_reported" "Content reported successfully!"
          "Report failed: " data st)).

(** [dns_resolution].  The insertion raises when a [NOT NULL] column
    would stay empty; the caller is then not woken. *)
Definition dns_resolution (o : oracle) (data : reply) (st : client) : client :=
  if default false (r_success data) then
    let verified := default false (r_verified data) in
    let st1 :=
      if via_controller (cfg st) then show (Print (Py.fmt (r_content_hash data))) st
      else
        show (PrintInfo ("Verified: " ++ (if verified then "Yes" else "No")))
          (show (PrintInfo ("Owner: " ++ Py.fmt (r_username data)))
             (show (PrintSuccess ("DNS resolved: " ++ Py.fmt (r_domain data) ++ " -> " ++
                                  Py.fmt (r_content_hash data))) st)) in
    match r_domain data, r_content_hash data, r_username data with
    | Some domain, Some content_hash, Some user =>
        set_dns_box (delivered data)
          (with_store (fun s =>
             Storage (files s) (cli_content_cache s) (cli_reports s)
                     (<[domain := DnsRow (Some content_hash) (Some user) verified (clock o) ""]>
                        (cli_dns_records s))
                     (cli_network_nodes s)) st1)
    | _, _, _ => st1
    end
  else
    let text := "DNS resolution failed: " ++ default "Unknown error" (r_error data) in
    set_dns_box (delivered data) (report_to_user text (PrintError text) st).

(** [search_results]. *)
Definition search_results (data : search_data) (st : client) : client :=
  match sd_error data with
  | Some error =>
      set_search_box (delivered (SearchError error))
        (report_to_user ("Search error: " ++ error) (PrintError ("Search error: " ++ error)) st)
  | None =>
      let results := default [] (sd_results data) in
      let line (hit : search_hit) :=
        Print (Py.fmt (sh_content_hash hit) ++ "|" ++ Py.fmt (sh_title hit) ++ "|" ++
               Py.fmt (sh_username hit)) in
      let st1 := if via_controller (cfg st)
                 then List.fold_left (fun s hit => show (line hit) s) results st
                 else st in
      set_search_box (delivered (SearchHits results)) st1
  end.

(** [network_state]. *)
Definition network_state (data : network_data) (st : client) : client :=
  match nd_error data with
  | Some error => set_network_box (delivered (NetworkError error)) st
  | None => set_network_box (delivered (NetworkState data)) st
  end.

(** *** Command handlers

    A handler that waits for a reply is cut at its [event.wait(timeout)]:
    [Wait ev timeout st k] says that the caller blocks on [ev] in state
    [st] for at most [timeout] seconds, and goes on with [k woke st'],
    where [woke] is what [wait] returns and [st'] the state the network
    thread has produced meanwhile. *)

Inductive event_name :=
| UploadEvent | DnsEvent | ReportEvent | ContentEvent | SearchEvent | NetworkEvent.

Inductive blocking :=
| Done (st : client)
| Wait (ev : event_name) (timeout : Z) (st : client) (k : bool -> client -> client).

(** [threading.Event.wait(timeout)]: [set_after] is the delay after
    which the event gets set ([None]: never). *)
Definition event_wait (set_after : option Z) (timeout : Z) : bool :=
  match set_after with
  | Some delay => (delay <=? timeout)%Z
  | None => false
  end.

(** A handler run to its end: the reply event is set after [set_after]
    seconds, and [network] is what the network thread does to the client
    while the caller is blocked. *)
Definition run (b : blocking) (set_after : option Z) (network : client -> client) : client :=
  match b with
  | Done st => st
  | Wait _ timeout st k => k (event_wait set_after timeout) (network st)
  end.

(** [key in data]. *)
Definition present {A : Type} (o : option A) : bool :=
  match o with Some _ => true | None => false end.

(** Truth value of a payload dictionary: it has at least one key. *)
Definition reply_truthy (r : reply) : bool :=
  present (r_success r) || present (r_error r) || present (r_content_hash r)
  || present (r_domain r) || present (r_username r) || present (r_verified r).

(** [result and result.get('success')]. *)
Definition succeeded (box : mailbox reply) : bool :=
  match value box with
  | Some r => reply_truthy r && default false (r_success r)
  | None => false
  end.

(** [self.sio.disconnect()]: the transport goes down and the
    [disconnect] event fires. *)
Definition sio_disconnect (st : client) : client :=
  disconnect (with_sess (fun s =>
    Session (current_user s) (username s) (password s) (current_server s) (connected s)
            false (loop_ready s) (reputation s) (client_auth_challenge s)) st).

(** [handle_logout].  The disconnection is requested through
    [run_async] after [self.connected] has been reset. *)
Definition handle_logout (st : client) : client :=
  if negb (Py.truthy (current_user (sess st)))
  then show (PrintWarning "You are not logged in") st
  else
    let st1 := with_sess (fun s =>
                 Session None None (password s) (current_server s) false
                         (sio_connected s) (loop_ready s) (reputation s)
                         (client_auth_challenge s)) st in
    let st2 := if sio_connected (sess st1) then run_async sio_disconnect st1 else st1 in
    report_to_user "Logout successful" (PrintSuccess "Logout successful") st2.

(** The option loop of [handle_upload]; [inr a] is the argument that
    is not understood. *)
Fixpoint upload_options (args : list string) (title : option string) (description : string)
    (mime_type : option string) : (option string * string * option string) + string :=
  match args with
  | [] => inl (title, description, mime_type)
  | a :: rest =>
      match rest with
      | v :: rest' =>
          if String.eqb a "--title" then upload_options rest' (Some v) description mime_type
          else if String.eqb a "--desc" then upload_options rest' title v mime_type
          else if String.eqb a "--mime" then upload_options rest' title description (Some v)
          else inr a
      | [] => inr a
      end
  end.

(** The header that frames a published blob. *)
Definition blob_header (user : string) (public_key : bytes) : bytes :=
  (Py.encode "# HSYST P2P SERVICE" ++ Py.encode "### START:"
   ++ (Py.encode "# USER: " ++ Py.encode user)
   ++ (Py.encode "# KEY: " ++ Base64.b64encode public_key)
   ++ Py.encode "### :END START")%list.

(** The end of [handle_upload], once the caller is woken or has given
    up. *)
Definition upload_finish (woke : bool) (st : client) : client :=
  if negb woke
  then set_pending_upload None (show (PrintError "Upload timeout") st)
  else if succeeded (upload_box (repl st)) then
    let hash_value := default "" (value (upload_box (repl st)) ≫= r_content_hash) in
    if via_controller (cfg st) then show (Print ("Upload completed. Hash: " ++ hash_value)) st
    else show (PrintInfo ("Hash: " ++ hash_value))
           (show (PrintSuccess "Upload completed successfully!") st)
  else report_to_user "Upload failed" (PrintError "Upload failed") st.

(** [handle_upload] from the test for the existence of the file on. *)
Definition upload_file (o : oracle) (user file_path : string) (title : option string)
    (description : string) (mime_type : option string) (st : client) : blocking :=
  match files (store st) !! file_path with
  | None => Done (show (PrintError ("File not found: " ++ file_path)) st)
  | Some content =>
      let title := default (basename file_path) title in
      let mime_type :=
        match mime_type with
        | Some m => m
        | None =>
            match guess_type file_path with
            | Some m => if String.eqb m "" then "application/octet-stream" else m
            | None => "application/octet-stream"
            end
        end in
      let st1 :=
        if via_controller (cfg st) then st
        else show (PrintInfo ("MIME type: " ++ mime_type))
               (show (PrintInfo ("Title: " ++ title))
                  (show (PrintInfo ("File: " ++ file_path))
                     (show (PrintSection "File Upload") st))) in
      if (max_upload_size <? Z.of_nat (List.length content))%Z
      then Done (show (PrintError "File too large. Max size: 100MB") st1)
      else
        let header := blob_header user (public_key_pem (cfg st)) in
        let full_content_with_header := (header ++ content)%list in
        let content_hash := SHA256.hexdigest full_content_with_header in
        let signature := rsa_pss_sign (private_key (cfg st)) (salt o) content in
        let st2 := save_content_to_storage (clock o) content_hash full_content_with_header
                     (Some (Metadata title description mime_type user
                              (Py.decode (Base64.b64encode signature))
                              (Py.decode (Base64.b64encode (public_key_pem (cfg st))))
                              true)) st1 in
        let ctx := UploadCtx content_hash title description mime_type
                             (List.length full_content_with_header) signature
                             full_content_with_header in
        let st3 := set_upload_box cleared (set_pending_upload (Some ctx) st2) in
        let st4 := run_async (request_pow_challenge "upload") st3 in
        Wait UploadEvent 300 st4 upload_finish
  end.

(** [handle_upload]. *)
Definition handle_upload (o : oracle) (args : list string) (st : client) : blocking :=
  match current_user (sess st) with
  | Some user =>
      if String.eqb user ""
      then Done (show (PrintError "You need to be logged in to upload") st)
      else
        match args with
        | [] =>
            if no_cli (cfg st)
            then Done (show (PrintError
              "Usage: upload <file_path> [--title TITLE] [--desc DESCRIPTION] [--mime MIME_TYPE]")
              st)
            else upload_file o user (nth 0 (typed o) "") (Some (nth 1 (typed o) ""))
                   (nth 2 (typed o) "") (Some (nth 3 (typed o) "")) st
        | file_path :: options =>
            match upload_options options None "" None with
            | inl (title, description, mime_type) =>
                upload_file o user file_path title description mime_type st
            | inr a => Done (show (PrintError ("Unknown argument: " ++ a)) st)
            end
        end
  | None => Done (show (PrintError "You need to be logged in to upload") st)
  end.

(** [_request_content_by_hash]. *)
Definition _request_content_by_hash (content_hash : string) (st : client) : client :=
  if connected (sess st) then emit (EmitRequestContent content_hash) st else st.

(** [_resolve_dns]. *)
Definition _resolve_dns (domain : string) (st : client) : client :=
  if connected (sess st) then emit (EmitResolveDns domain) st
  else show (PrintError "Not connected to server") st.

(** [_search_content]. *)
Definition _search_content (query content_type sort_by : string) (st : client) : client :=
  if connected (sess st)
  then emit (EmitSearchContent query
               (if String.eqb content_type "all" then "" else content_type) sort_by) st
  else show (PrintError "Not connected to server") st.

(** [_get_network_state]. *)
Definition _get_network_state (st : client) : client :=
  if connected (sess st) then emit EmitGetNetworkState st
  else show (PrintError "Not connected to server") st.

(** The text of the exception raised by
    [asyncio.run_coroutine_threadsafe(coro, None)]. *)
Definition no_loop_error : string :=
  "'NoneType' object has no attribute 'call_soon_threadsafe'".

(** The end of [handle_network]. *)
Definition network_finish (woke : bool) (st : client) : client :=
  if negb woke then show (PrintError "Network state timeout") st
  else
    match value (network_box (repl st)) with
    | Some (NetworkState data) =>
        if present (nd_online_nodes data) || present (nd_total_content data)
           || present (nd_total_dns data) || negb (Nat.eqb (List.length (nd_node_types data)) 0)
        then
          let online := "Online nodes: " ++ Py.str_of_Z (default 0%Z (nd_online_nodes data)) in
          let total := "Total content: " ++ Py.str_of_Z (default 0%Z (nd_total_content data)) in
          let names := "Registered DNS: " ++ Py.str_of_Z (default 0%Z (nd_total_dns data)) in
          if via_controller (cfg st)
          then show (Print names) (show (Print total) (show (Print online) st))
          else
            let st1 := show (PrintInfo names) (show (PrintInfo total)
                         (show (PrintInfo online) st)) in
            let st2 :=
              match nd_node_types data with
              | [] => st1
              | kinds =>
                  List.fold_left
                    (fun s kc => show (PrintInfo (fst kc ++ ": " ++ Py.str_of_Z (snd kc))) s)
                    kinds (show (PrintSection "Node Types") st1)
              end in
            match List.firstn 20 (cli_network_nodes (store st2)) with
            | [] => st2
            | rows =>
                show (PrintTable ["ID"; "Address"; "Type"; "Reputation"; "Status"]
                        (List.map (fun r =>
                           [String.substring 0 12 (node_id r) ++ "..."; node_address r;
                            node_type r; Py.str_of_Z (node_reputation r); node_status r])
                           rows)) st2
            end
        else report_to_user "Failed to get network state"
               (PrintError "Failed to get network state") st
    | _ => report_to_user "Failed to get network state"
             (PrintError "Failed to get network state") st
    end.

(** [handle_network]. *)
Definition handle_network (st : client) : blocking :=
  if negb (Py.truthy (current_user (sess st)))
  then Done (show (PrintError "You need to be logged in to view network state") st)
  else
    let st1 := show_unless_controller (PrintSection "P2P Network State") st in
    let st2 := set_network_box cleared st1 in
    if negb (loop_ready (sess st2))
    then Done (show (PrintError ("Network state error: " ++ no_loop_error)) st2)
    else Wait NetworkEvent 30 (_get_network_state st2) network_finish.

(** [connection_state], the snapshot of the host process that the
    controller passes to [handle_dns_resolve]. *)
Record connection_state := ConnectionState {
  cs_connected : bool;
  cs_current_server : option string;
  cs_current_user : option string;
  cs_sio_connected : bool;
  cs_loop_ready : bool
}.

(** The end of [handle_dns_resolve]. *)
Definition dns_resolve_finish (woke : bool) (st : client) : client :=
  if negb woke then show (PrintError "DNS resolution timeout") st
  else if succeeded (dns_box (repl st)) then
    let content_hash := Py.fmt (value (dns_box (repl st)) ≫= r_content_hash) in
    let owner := Py.fmt (value (dns_box (repl st)) ≫= r_username) in
    let verified := default false (value (dns_box (repl st)) ≫= r_verified) in
    if via_controller (cfg st) then show (Print content_hash) st
    else show (PrintInfo ("Verified: " ++ (if verified then "Yes" else "No")))
           (show (PrintInfo ("Owner: " ++ owner))
              (show (PrintInfo ("Hash: " ++ content_hash))
                 (show (PrintSuccess "DNS resolved successfully!") st)))
  else report_to_user "DNS resolution failed" (PrintError "DNS resolution failed") st.

(** [handle_dns_resolve]. *)
Definition handle_dns_resolve (args : list string) (cs : option connection_state)
    (st : client) : blocking :=
  if negb (Py.truthy (current_user (sess st))) && negb (present cs)
  then Done (show (PrintError "You need to be logged in to resolve DNS") st)
  else
    match args with
    | [] => Done (show (PrintError "Usage: dns-res <domain>") st)
    | arg0 :: _ =>
        let domain := Py.lower arg0 in
        let st1 :=
          if via_controller (cfg st) then st
          else show (PrintInfo ("Domain: " ++ domain)) (show (PrintSection "DNS Resolution") st) in
        let st2 := set_dns_box cleared st1 in
        let st3 :=
          match cs with
          | Some c =>
              if cs_connected c
              then with_sess (fun s =>
                     Session (cs_current_user c) (username s) (password s) (cs_current_server c)
                             true (cs_sio_connected c) (cs_loop_ready c) (reputation s)
                             (client_auth_challenge s)) st2
              else st2
          | None => st2
          end in
        if negb (connected (sess st3))
        then Done (show (PrintError "Not connected to server") st3)
        else if negb (loop_ready (sess st3))
        then Done (show (PrintError "Network loop not available") st3)
        else Wait DnsEvent 30 (_resolve_dns domain st3) dns_resolve_finish
    end.

(** The option loop of [handle_download]. *)
Fixpoint download_options (args : list string) (output_path : option string)
    : option string + string :=
  match args with
  | [] => inl output_path
  | a :: rest =>
      match rest with
      | v :: rest' =>
          if String.eqb a "--output" then download_options rest' (Some v) else inr a
      | [] => inr a
      end
  end.

(** The end of [handle_download]: the content is written to the output
    path whatever [integrity_ok] says. *)
Definition download_finish (output_path : option string) (woke : bool) (st : client)
    : client :=
  if negb woke then show (PrintError "Download timeout") st
  else
    match value (content_box (repl st)) with
    | Some (ContentOk info) =>
        let path :=
          match output_path with
          | Some p => p
          | None =>
              let p := "./" ++ ci_title info in
              if String.eqb (splitext_ext p) ""
              then p ++ default ".dat"
                          (match guess_extension (ci_mime_type info) with
                           | Some e => if String.eqb e "" then None else Some e
                           | None => None
                           end)
              else p
          end in
        let st1 := with_store (fun s =>
                     Storage (<[path := ci_content info]> (files s)) (cli_content_cache s)
                             (cli_reports s) (cli_dns_records s) (cli_network_nodes s)) st in
        if via_controller (cfg st1) then show (Print path) st1
        else
          show (PrintInfo ("Verified: " ++ (if ci_verified info then "Yes" else "No")))
            (show (PrintInfo ("Size: " ++ Py.str_of_N (N.of_nat (List.length (ci_content info)))
                              ++ " bytes"))
               (show (PrintInfo ("Type: " ++ ci_mime_type info))
                  (show (PrintInfo ("Author: " ++ ci_username info))
                     (show (PrintInfo ("Title: " ++ ci_title info))
                        (show (PrintSuccess ("Content saved to: " ++ path)) st1)))))
    | _ => report_to_user "Download failed" (PrintError "Download failed") st
    end.

(** [handle_download]. *)
Definition handle_download (args : list string) (st : client) : blocking :=
  if negb (Py.truthy (current_user (sess st)))
  then Done (show (PrintError "You need to be logged in to download") st)
  else
    match args with
    | [] => Done (show (PrintError "Usage: download <hash_or_url> [--output PATH]") st)
    | target :: options =>
        match download_options options None with
        | inr a => Done (show (PrintError ("Unknown argument: " ++ a)) st)
        | inl output_path =>
            let st1 := show_unless_controller (PrintSection "Content Download") st in
            let fetch (content_hash : string) :=
              let st2 := set_content_box cleared st1 in
              Wait ContentEvent 30 (run_async (_request_content_by_hash content_hash) st2)
                   (download_finish output_path) in
            if Py.startswith "hps://" target then
              if String.eqb target "hps://rede"
              then handle_network (show (PrintInfo "Showing P2P network...") st1)
              else if Py.startswith "hps://dns:" target then
                let domain := String.substring 10 (String.length target) target in
                handle_dns_resolve [domain] None
                  (show (PrintInfo ("Resolving DNS: " ++ domain)) st1)
              else fetch (String.substring 6 (String.length target) target)
            else fetch target
        end
    end.

(** [is_valid_domain]: the pattern [^[a-z0-9-]+(\.[a-z0-9-]+)*$] under
    [re.match]; the end anchor also accepts one final line feed. *)
Definition is_label_char (c : ascii) : bool :=
  let n := N_of_ascii c in
  ((N.leb 97 n && N.leb n 122) || (N.leb 48 n && N.leb n 57) || N.eqb n 45)%N.

Fixpoint valid_domain_from (label_started : bool) (s : string) : bool :=
  match s with
  | EmptyString => label_started
  | String c s' =>
      if is_label_char c then valid_domain_from true s'
      else if Ascii.eqb c "." then label_started && valid_domain_from false s'
      else if Ascii.eqb c "010" then label_started && String.eqb s' ""
      else false
  end.

Definition is_valid_domain (domain : string) : bool := valid_domain_from false domain.

(** [create_ddns_file]: the name record, with the line breaks and the
    indentation of the source text. *)
Definition create_ddns_file (domain content_hash : string) (st : client) : bytes :=
  let nl := String "010" EmptyString in
  let indent := "            " in
  Py.encode
    ("# HSYST P2P SERVICE" ++ nl ++
     "### START:" ++ nl ++
     indent ++ "# USER: " ++ Py.fmt (current_user (sess st)) ++ nl ++
     indent ++ "# KEY: " ++ Py.decode (Base64.b64encode (public_key_pem (cfg st))) ++ nl ++
     "### :END START" ++ nl ++
     "### DNS:" ++ nl ++
     indent ++ "# DNAME: " ++ domain ++ " = " ++ content_hash ++ nl ++
     "### :END DNS" ++ nl ++
     indent).

(** The end of [handle_dns_register]. *)
Definition dns_register_finish (woke : bool) (st : client) : client :=
  if negb woke
  then set_pending_dns None (show (PrintError "DNS registration timeout") st)
  else if succeeded (dns_box (repl st))
  then report_to_user "DNS registered successfully"
         (PrintSuccess "DNS registered successfully!") st
  else report_to_user "DNS registration failed" (PrintError "DNS registration failed") st.

(** [handle_dns_register]. *)
Definition handle_dns_register (o : oracle) (args : list string) (st : client) : blocking :=
  if negb (Py.truthy (current_user (sess st)))
  then Done (show (PrintError "You need to be logged in to register DNS") st)
  else
    match args with
    | arg0 :: content_hash :: _ =>
        let domain := Py.lower arg0 in
        if negb (is_valid_domain domain)
        then Done (show (PrintError "Invalid domain. Use only letters, numbers and hyphens.") st)
        else
          let st1 :=
            if via_controller (cfg st) then st
            else show (PrintInfo ("Hash: " ++ content_hash))
                   (show (PrintInfo ("Domain: " ++ domain))
                      (show (PrintSection "DNS Registration") st)) in
          let ddns_content := create_ddns_file domain content_hash st1 in
          let signature := rsa_pss_sign (private_key (cfg st1)) (salt o) ddns_content in
          let st2 := set_dns_box cleared
                       (set_pending_dns (Some (DnsCtx domain ddns_content signature)) st1) in
          Wait DnsEvent 300 (run_async (request_pow_challenge "dns") st2) dns_register_finish
    | _ => Done (show (PrintError "Usage: dns-reg <domain> <content_hash>") st)
    end.

(** The option loop of [handle_search]. *)
Fixpoint search_options (args : list string) (content_type sort_by : string)
    : (string * string) + string :=
  match args with
  | [] => inl (content_type, sort_by)
  | a :: rest =>
      match rest with
      | v :: rest' =>
          if String.eqb a "--type" then search_options rest' v sort_by
          else if String.eqb a "--sort" then search_options rest' content_type v
          else inr a
      | [] => inr a
      end
  end.

(** The end of [handle_search].  An empty list of results is a false
    value, so it is reported as a failure. *)
Definition search_finish (woke : bool) (st : client) : client :=
  if negb woke then show (PrintError "Search timeout") st
  else
    match value (search_box (repl st)) with
    | Some (SearchHits ((_ :: _) as results)) =>
        if via_controller (cfg st)
        then List.fold_left
               (fun s hit =>
                  show (Print (Py.fmt (sh_content_hash hit) ++ "|" ++ Py.fmt (sh_title hit)
                               ++ "|" ++ Py.fmt (sh_username hit))) s)
               results st
        else
          show (PrintTable ["✓"; "Title"; "Hash"; "Author"; "Type"; "Reputation"]
                  (List.map (fun hit =>
                     [ (if default false (sh_verified hit) then "✓" else "⚠");
                       default "No title" (sh_title hit);
                       String.substring 0 16 (default "" (sh_content_hash hit)) ++ "...";
                       default "Unknown" (sh_username hit);
                       default "" (sh_mime_type hit);
                       Py.str_of_Z (default 100%Z (sh_reputation hit)) ])
                     results)) st
    | _ => report_to_user "Search failed" (PrintError "Search failed") st
    end.

(** [handle_search]. *)
Definition handle_search (args : list string) (st : client) : blocking :=
  if negb (Py.truthy (current_user (sess st)))
  then Done (show (PrintError "You need to be logged in to search") st)
  else
    match args with
    | [] => Done (show (PrintError "Usage: search <term> [--type TYPE] [--sort ORDER]") st)
    | query :: options =>
        match search_options options "all" "reputation" with
        | inr a => Done (show (PrintError ("Unknown argument: " ++ a)) st)
        | inl (content_type, sort_by) =>
            let st1 :=
              if via_controller (cfg st) then st
              else show (PrintInfo ("Sort by: " ++ sort_by))
                     (show (PrintInfo ("Type: " ++ content_type))
                        (show (PrintSection ("Search: '" ++ query ++ "'")) st)) in
            let st2 := set_search_box cleared st1 in
            if negb (loop_ready (sess st2))
            then Done (show (PrintError ("Search error: " ++ no_loop_error)) st2)
            else Wait SearchEvent 30 (_search_content query content_type sort_by st2)
                      search_finish
        end
    end.

(** [SELECT COUNT( * ) FROM cli_reports WHERE reporter_user = ? AND
    content_hash = ?]. *)
Definition count_reports (reporter content_hash : string) (rows : list report_row) : nat :=
  List.length (List.filter
    (fun r => String.eqb (reporter_user r) reporter
              && String.eqb (rep_content_hash r) content_hash) rows).

(** The end of [handle_report]. *)
Definition report_finish (woke : bool) (st : client) : client :=
  if negb woke
  then set_pending_report None (show (PrintError "Report timeout") st)
  else if succeeded (report_box (repl st))
  then report_to_user "Content reported successfully"
         (PrintSuccess "Content reported successfully!") st
  else report_to_user "Report failed" (PrintError "Report failed") st.

(** [handle_report]. *)
Definition handle_report (args : list string) (st : client) : blocking :=
  match current_user (sess st) with
  | None => Done (show (PrintError "You need to be logged in to report content") st)
  | Some user =>
      if String.eqb user ""
      then Done (show (PrintError "You need to be logged in to report content") st)
      else
        match args with
        | content_hash :: reported :: _ =>
            if String.eqb reported user
            then Done (show (PrintError "You cannot report your own content") st)
            else if (reputation (sess st) <? 20)%Z
            then Done (show (PrintError "Your reputation is too low to report content") st)
            else
              let st1 :=
                if via_controller (cfg st) then st
                else show (PrintInfo ("Your reputation: " ++ Py.str_of_Z (reputation (sess st))))
                       (show (PrintInfo ("Reported user: " ++ reported))
                          (show (PrintInfo ("Hash: " ++ content_hash))
                             (show (PrintSection "Content Report") st))) in
              if Nat.ltb 0 (count_reports user content_hash (cli_reports (store st1)))
              then Done (show (PrintError "You have already reported this content") st1)
              else
                let st2 := set_report_box cleared
                             (set_pending_report (Some (content_hash, reported)) st1) in
                Wait ReportEvent 300 (run_async (request_pow_challenge "report") st2)
                     report_finish
        | _ => Done (show (PrintError "Usage: report <content_hash> <reported_user>") st)
        end
  end.

(** *** The client as a transition system *)

(** The events the server may send. *)
Inductive event :=
| EvDisconnect
| EvPowChallenge (o : oracle) (data : pow_data)
| EvContentResponse (o : oracle) (data : content_data)
| EvPublishResult (data : reply)
| EvDnsResult (data : reply)
| EvReportResult (data : reply)
| EvDnsResolution (o : oracle) (data : reply)
| EvSearchResults (data : search_data)
| EvNetworkState (data : network_data).

(** The socket handler registered for each event. *)
Definition on_event (e : event) (st : client) : client :=
  match e with
  | EvDisconnect => disconnect st
  | EvPowChallenge o data => pow_challenge o data st
  | EvContentResponse o data => content_response o data st
  | EvPublishResult data => publish_result data st
  | EvDnsResult data => dns_result data st
  | EvReportResult data => report_result data st
  | EvDnsResolution o data => dns_resolution o data st
  | EvSearchResults data => search_results data st
  | EvNetworkState data => network_state data st
  end.

(** The commands of [command_handlers] that are modelled. *)
Inductive command :=
| CmdLogout
| CmdUpload (o : oracle) (args : list string)
| CmdDownload (args : list string)
| CmdDnsRegister (o : oracle) (args : list string)
| CmdDnsResolve (args : list string) (cs : option connection_state)
| CmdSearch (args : list string)
| CmdNetwork
| CmdReport (args : list string).

(** The handler of a command, up to the point where it blocks. *)
Definition start (c : command) (st : client) : blocking :=
  match c with
  | CmdLogout => Done (handle_logout st)
  | CmdUpload o args => handle_upload o args st
  | CmdDownload args => handle_download args st
  | CmdDnsRegister o args => handle_dns_register o args st
  | CmdDnsResolve args cs => handle_dns_resolve args cs st
  | CmdSearch args => handle_search args st
  | CmdNetwork => handle_network st
  | CmdReport args => handle_report args st
  end.

(** One move of the client: a socket handler runs, a command handler
    runs until it returns or blocks, or a blocked command handler is
    resumed (in whatever state the client then is). *)
Inductive step : client -> client -> Prop :=
| step_event (e : event) (st : client) :
    step st (on_event e st)
| step_start (c : command) (st : client) :
    step st (match start c st with Done st' => st' | Wait _ _ st' _ => st' end)
| step_resume (c : command) (st0 : client) (ev : event_name) (t : Z) (st1 : client)
    (k : bool -> client -> client) (woke : bool) (st : client) :
    start c st0 = Wait ev t st1 k ->
    step st (k woke st).

(** The preconditions of a report, in the words of the command table:
    the caller is logged in, names a content hash and a user other than
    themselves, has a reputation of 20 at least, and has no row in
    [cli_reports] for this content hash yet. *)
Definition report_preconditions (args : list string) (st : client) : Prop :=
  exists user content_hash reported rest,
    current_user (sess st) = Some user /\ user <> ""
    /\ args = content_hash :: reported :: rest
    /\ reported <> user
    /\ (20 <= reputation (sess st))%Z
    /\ count_reports user content_hash (cli_reports (store st)) = 0%nat.

(** A command that is turned down on the spot: the handler returns
    after it has shown an error, and nothing is sent, stored, left pending
    or handed to a waiting caller. *)
Definition rejected_locally (b : blocking) (st : client) (text : string) : Prop :=
  exists st' lines,
    b = Done st'
    /\ display st' = (display st ++ lines ++ [PrintError text])%list
    /\ effects st' = effects st /\ pend st' = pend st
    /\ store st' = store st /\ repl st' = repl st.

End Handlers.

End Core.

(** The state in which a handler stops: at its end, or where it blocks. *)
Definition blocked_state (b : Core.blocking) : Core.client :=
  match b with
  | Core.Done st => st
  | Core.Wait _ _ st _ => st
  end.

(** The time for which a handler is ready to wait for its reply. *)
Definition timeout_of (b : Core.blocking) : option Z :=
  match b with
  | Core.Done _ => None
  | Core.Wait _ timeout _ _ => Some timeout
  end.

(** The integrity invariant of the content store: the file of every row
    of [cli_content_cache] holds bytes whose SHA-256 hex digest is the key
    of the row. *)
Definition store_integrity (st : Core.client) : Prop :=
  forall (content_hash : string) (row : Core.content_row),
    Core.cli_content_cache (Core.store st) !! content_hash = Some row ->
    exists blob,
      Core.files (Core.store st) !! Core.file_path row = Some blob
      /\ SHA256.hexdigest blob = content_hash.

(** Every row points to the blob file named after its key, as
    [save_content_to_storage] writes it. *)
Definition store_canonical (st : Core.client) : Prop :=
  forall (content_hash : string) (row : Core.content_row),
    Core.cli_content_cache (Core.store st) !! content_hash = Some row ->
    Core.file_path row = Core.blob_path st content_hash.

(** A file put on the disk for the user to upload. *)
Definition with_file (path : string) (content : bytes) : Core.client -> Core.client :=
  Core.with_store (fun s =>
    Core.Storage (<[path := content]> (Core.files s)) (Core.cli_content_cache s)
                 (Core.cli_reports s) (Core.cli_dns_records s) (Core.cli_network_nodes s)).

(** [gives_up_after b limit text cleanup]: if the handler blocks, it
    waits for [limit] seconds at most, and when the wait times out it shows
    the error [text], applies [cleanup] and returns. *)
Definition gives_up_after (b : Core.blocking) (limit : Z) (text : string)
    (cleanup : Core.client -> Core.client) : Prop :=
  match b with
  | Core.Done _ => True
  | Core.Wait _ timeout _ k =>
      timeout = limit
      /\ forall st, k false st = cleanup (Core.show (Core.PrintError text) st)
  end.

(** The client right after [__init__], before any login: nothing stored,
    nothing pending, reputation 100. *)
Definition new_client (home : string) : Core.client :=
  Core.Client
    (Core.Config false false (Py.encode "PUBLIC KEY") (Py.encode "PRIVATE KEY")
       (Py.path_join home ".hps_cli") "client-1" true true)
    (Core.Session None None None None false false true 100 None)
    (Core.BanState None 0 "")
    (Core.Pending false None None None)
    (Core.Replies Core.cleared Core.cleared Core.cleared Core.cleared Core.cleared Core.cleared)
    (Core.Storage ∅ ∅ [] ∅ [])
    ∅ PoW.new_solver [] [].

(** The same client, logged in as [user] on [server] with the given
    reputation. *)
Definition logged_in (home server user : string) (rep : Z) : Core.client :=
  Core.with_sess (fun _ =>
    Core.Session (Some user) (Some user) (Some "secret") (Some server) true true true rep
                 (Some "client-challenge")) (new_client home).

(** No time passes, the miner may try a thousand nonces. *)
Definition calm : Core.oracle := Core.Oracle 1000 1000 "1000.0" 1000 5000 [] [].

(* Reduction hints: the digests, encoders and printers are kept folded
   when a handler is simplified. *)
Arguments SHA256.hexdigest : simpl never.
Arguments Base64.b64encode : simpl never.
Arguments Py.encode : simpl never.
Arguments Py.decode : simpl never.
Arguments Py.str_of_Z : simpl never.
Arguments Py.str_of_N : simpl never.
Arguments Py.lower : simpl never.
Arguments Py.path_join : simpl never.
Arguments Py.startswith : simpl never.
Arguments PoW.solve_challenge : simpl never.
Arguments Core.blob_header : simpl never.
Arguments Core.create_ddns_file : simpl never.
Arguments Core.is_valid_domain : simpl never.
Arguments String.append : simpl never.
Arguments String.eqb : simpl never.
Arguments String.substring : simpl never.

(* ===================================================================== *)
(** ** Sample inputs *)
(* ===================================================================== *)

(** A table with a verb that prints nothing, one that prints one line
    and one that prints two. *)
Definition sample_handlers : Controller.handler_table :=
  fun verb =>
    if String.eqb verb "clear" then Some (fun _ => Controller.Returned "" "")
    else if String.eqb verb "sync" then Some (fun _ => Controller.Returned "Sync completed" "")
    else if String.eqb verb "network"
    then Some (fun _ => Controller.Returned
                 ("Online nodes: 3" ++ Controller.nl ++ "Total content: 7") "")
    else None.

(** The whole exchange through the controller file: the sender writes
    the command, the watcher accepts and runs it, the sender polls. *)
Definition controller_exchange (command : string) (polls : nat) : bool * string :=
  let fs0 := Controller.write_controller_file "/h"
               (Controller.command_content command []) ∅ in
  let fs1 := Controller.monitor_round "/h" sample_handlers "u1" fs0 in
  Controller.send_command "/h" [fs1] fs1 (List.repeat fs1 polls).

(** A response for the key [00] that carries the five bytes of
    [hello]. *)
Definition forged_response : Core.content_data :=
  Core.ContentData None (Some "aGVsbG8=") (Some "greeting") None None (Some "mallory")
                   None None None (Some "00") None.

(** A server that refuses the challenge of an upload until time 4600. *)
Definition refused_challenge : Core.pow_data :=
  Core.PowData (Some "Too many requests") (Some 4600%Z) None None (Some "upload").

(** [alice], blocked in the upload of [hello]. *)
Definition uploading : Core.client :=
  blocked_state (Core.handle_upload (lib := concrete_library) calm ["/tmp/a.txt"]
    (with_file "/tmp/a.txt" (Py.encode "hello") (logged_in "/h" "srv" "alice" 100))).

(** A challenge of four bits for a report. *)
Definition easy_challenge : Core.pow_data :=
  Core.PowData None None (Some "AAAA") (Some 4%Z) (Some "report").

Definition accepted : Core.reply := Core.Reply (Some true) None None None None None.

Definition refused : Core.reply :=
  Core.Reply (Some false) (Some "Content not found") None None None None.

(** [alice], with a reputation of exactly 20, reports the content [00]
    of [bob]: the server sends the challenge, the client mines it and
    sends the report, the server answers. *)
Definition first_report (answer : Core.reply) : Core.client :=
  Core.run (Core.handle_report ["00"; "bob"] (logged_in "/h" "srv" "alice" 20))
    (Some 5%Z)
    (fun s => Core.report_result answer
                (Core.pow_challenge (lib := concrete_library) calm easy_challenge s)).

(* ===================================================================== *)
(** ** Further functions of the client, and vocabulary for their
    properties *)
(* ===================================================================== *)



(** A string without line feed and carriage return. *)
Fixpoint no_linebreak (s : string) : bool :=
  match s with
  | EmptyString => true
  | String c s' => negb (Ascii.eqb c "010") && negb (Ascii.eqb c "013") && no_linebreak s'
  end.

(** The proof-of-work nonce that a request carries, if it carries one. *)
Definition pow_nonce_of (e : Core.effect) : option string :=
  match e with
  | Core.EmitAuthenticate _ _ pow_nonce _ _ _ => Some pow_nonce
  | Core.EmitPublishContent _ _ pow_nonce _ => Some pow_nonce
  | Core.EmitRegisterDns _ _ pow_nonce _ => Some pow_nonce
  | Core.EmitReportContent _ _ _ pow_nonce _ => Some pow_nonce
  | _ => None
  end.


(** Options given as pairs of a flag and its value. *)
Fixpoint flag_pairs (pairs : list (string * string)) : list string :=
  match pairs with
  | [] => []
  | (flag, v) :: rest => flag :: v :: flag_pairs rest
  end.

(** The flags that the option loop of [handle_upload] knows. *)
Definition is_upload_flag (a : string) : bool :=
  String.eqb a "--title" || String.eqb a "--desc" || String.eqb a "--mime".

(** The value given last for [flag], [fallback] when there is none. *)
Definition last_value {A : Type} (flag : string) (wrap : string -> A) (fallback : A)
    (pairs : list (string * string)) : A :=
  List.fold_left (fun acc fv => if String.eqb (fst fv) flag then wrap (snd fv) else acc)
                 pairs fallback.

(* --------------------------------------------------------------------- *)
(** *** [handle_security] *)

(** What [handle_security] shows: lines of the display, and the pairs of
    [print_key_value]. *)
Inductive shown :=
| Line (l : Core.out_line)
| KeyValue (key value : string).

(** [handle_security].  The handler reads the row of the content hash
    and the blob under the content directory, and changes nothing.  An
    empty column reads as [None] and is shown as such. *)
Definition handle_security (args : list string) (st : Core.client) : list shown :=
  match args with
  | [] => [Line (Core.PrintError "Usage: security <content_hash>")]
  | content_hash :: _ =>
      match Core.cli_content_cache (Core.store st) !! content_hash with
      | None => [Line (Core.PrintError "Content not found in local cache")]
      | Some row =>
          match Core.files (Core.store st) !! Core.blob_path st content_hash with
          | None => [Line (Core.PrintError "Content file not found")]
          | Some content =>
              let integrity_ok := String.eqb (SHA256.hexdigest content) content_hash in
              let verified := Core.row_verified row in
              let integrity := if integrity_ok then "OK" else "COMPROMISED" in
              let valid := if verified then "Yes" else "No" in
              let size := Py.str_of_N (N.of_nat (List.length content)) ++ " bytes" in
              if Core.via_controller (Core.cfg st) then
                [Line (Core.Print (if negb integrity_ok then "CONTENT TAMPERED"
                                   else if verified then "CONTENT VERIFIED"
                                   else "CONTENT NOT VERIFIED"));
                 Line (Core.Print ("Title: " ++ Py.fmt (Core.row_title row)));
                 Line (Core.Print ("Author: " ++ Py.fmt (Core.row_username row)));
                 Line (Core.Print ("Hash: " ++ content_hash));
                 Line (Core.Print ("MIME Type: " ++ Core.row_mime_type row));
                 Line (Core.Print ("Integrity: " ++ integrity));
                 Line (Core.Print ("Valid Signature: " ++ valid));
                 Line (Core.Print ("Size: " ++ size))]
              else
                ([Line (Core.PrintSection "Security Verification");
                  Line (if negb integrity_ok then Core.PrintError "CONTENT TAMPERED"
                        else if verified then Core.PrintSuccess "CONTENT VERIFIED"
                        else Core.PrintWarning "CONTENT NOT VERIFIED");
                  KeyValue "Title" (Py.fmt (Core.row_title row));
                  KeyValue "Author" (Py.fmt (Core.row_username row));
                  KeyValue "Hash" content_hash;
                  KeyValue "MIME Type" (Core.row_mime_type row);
                  KeyValue "Integrity" integrity;
                  KeyValue "Valid Signature" valid;
                  KeyValue "Size" size]
                 ++ (if Py.truthy (Core.row_public_key row)
                     then [Line (Core.PrintSection "Author Public Key");
                           Line (Core.Print (Py.fmt (Core.row_public_key row)))]
                     else []))%list
          end
      end
  end.

(** The verdict that [handle_security] announces. *)
Definition announces (verdict : string) (out : list shown) : Prop :=
  In (Line (Core.Print verdict)) out \/ In (Line (Core.PrintError verdict)) out
  \/ In (Line (Core.PrintSuccess verdict)) out \/ In (Line (Core.PrintWarning verdict)) out.

(* --------------------------------------------------------------------- *)
(** *** [get_connection_state] *)

(** [get_connection_state]: the snapshot that the controller takes of the
    client before it runs a command.  Of its keys, the five that
    [handle_dns_resolve] reads are kept. *)
Definition get_connection_state (st : Core.client) : Core.connection_state :=
  Core.ConnectionState (Core.connected (Core.sess st)) (Core.current_server (Core.sess st))
    (Core.current_user (Core.sess st)) (Core.sio_connected (Core.sess st))
    (Core.loop_ready (Core.sess st)).

(** The call of the [dns-res] handler by [_execute_controller_command]:
    the snapshot is passed as second argument. *)
Definition controller_dns_resolve (args : list string) (st : Core.client) : Core.blocking :=
  Core.handle_dns_resolve args (Some (get_connection_state st)) st.

(* --------------------------------------------------------------------- *)
(** *** The session tables *)





Section Persistence.

(** [int(value)] on a string; [None] stands for [ValueError]. *)
Variable py_int : string -> option Z.


End Persistence.


(* --------------------------------------------------------------------- *)
(** *** The table of known servers *)

(** A row of [cli_known_servers]; the key [server_address] is the key of
    the map.  The column [last_connected] receives the current time and
    is read nowhere; it is left out. *)
Record server_row := ServerRow {
  srv_reputation : Z;
  srv_is_active : bool;
  srv_use_ssl : bool
}.

(** [save_known_servers]: one row is inserted or replaced for every
    address of the list; the reputation of a replaced row falls back on
    the default of the column. *)
Definition save_known_servers (known_servers : list string)
    (table : gmap string server_row) : gmap string server_row :=
  List.fold_left
    (fun t server_address =>
       <[server_address := ServerRow 100 true (Py.startswith "https://" server_address)]> t)
    known_servers table.

(** [load_known_servers]: the addresses of the active rows (in the order
    in which the table yields them) and the new value of [self.use_ssl],
    which is [False] when the function is called. *)
Definition load_known_servers (table : gmap string server_row) : list string * bool :=
  let rows := List.filter (fun kv => srv_is_active (snd kv)) (map_to_list table) in
  (List.map fst rows, existsb (fun kv => srv_use_ssl (snd kv)) rows).

(** [never_shrinks st st']: every file, every row of the content cache
    and every name record that [st] holds is still there in [st'] (its
    content may have been replaced). *)
Definition never_shrinks (st st' : Core.client) : Prop :=
  (forall path, is_Some (Core.files (Core.store st) !! path) ->
                is_Some (Core.files (Core.store st') !! path))
  /\ (forall content_hash,
        is_Some (Core.cli_content_cache (Core.store st) !! content_hash) ->
        is_Some (Core.cli_content_cache (Core.store st') !! content_hash))
  /\ (forall domain,
        is_Some (Core.cli_dns_records (Core.store st) !! domain) ->
        is_Some (Core.cli_dns_records (Core.store st') !! domain)).

(** A label of a domain: one character of [a-z0-9-] at least. *)
Fixpoint all_label_chars (s : string) : bool :=
  match s with
  | EmptyString => true
  | String c s' => Core.is_label_char c && all_label_chars s'
  end.

Definition is_label (s : string) : bool := negb (String.eqb s "") && all_label_chars s.

(** Labels, each after a dot. *)
Fixpoint dotted (labels : list string) : string :=
  match labels with
  | [] => ""
  | l :: rest => "." ++ l ++ dotted rest
  end.

(* ===================================================================== *)
(** * Theorems *)
(* ===================================================================== *)

(** ** The Python built-ins on sample values *)

Example py_paths :
  Py.path_join "/home/u" ".hps_cli" = "/home/u/.hps_cli"
  /\ Py.path_join "/home/u/" "logs" = "/home/u/logs"
  /\ Py.path_join "/home/u" "/etc/passwd" = "/etc/passwd"
  /\ Py.path_join "" "logs" = "logs".
Proof. vm_compute. repeat split; reflexivity. Qed.

Example py_strings :
  Py.strip (" a b " ++ String "010" "") = "a b"
  /\ Py.split "  upload  f.txt --title T " = ["upload"; "f.txt"; "--title"; "T"]
  /\ Py.readlines ("1" ++ String "010" (String "010" "x"))
     = ["1" ++ String "010" ""; String "010" ""; "x"]
  /\ Py.readlines ("a" ++ String "013" (String "010" "b")) = ["a" ++ String "010" ""; "b"]
  /\ Py.lower "DNS-Reg" = "dns-reg"
  /\ Py.join_space ["a"; "b"; "c"] = "a b c"
  /\ Py.str_of_N 0 = "0" /\ Py.str_of_N 1024 = "1024" /\ Py.str_of_Z (-12) = "-12".
Proof. vm_compute. repeat split; reflexivity. Qed.

Example valid_domains :
  Core.is_valid_domain "a.b-c" = true
  /\ Core.is_valid_domain "example" = true
  /\ Core.is_valid_domain "a_b" = false
  /\ Core.is_valid_domain "Abc" = false
  /\ Core.is_valid_domain "" = false
  /\ Core.is_valid_domain "a..b" = false
  /\ Core.is_valid_domain "a." = false
  /\ Core.is_valid_domain ".a" = false.
Proof. vm_compute. repeat split; reflexivity. Qed.

(** ** SHA-256: the FIPS 180-4 test vectors *)

Example sha256_constants :
  List.firstn 2 SHA256.K = [0x428a2f98; 0x71374491]%Z
  /\ List.last SHA256.K 0%Z = 0xc67178f2%Z
  /\ SHA256.ha SHA256.H0 = 0x6a09e667%Z /\ SHA256.hh SHA256.H0 = 0x5be0cd19%Z.
Proof. vm_compute. repeat split; reflexivity. Qed.

Example sha256_empty :
  SHA256.hexdigest [] = "e3b0c44298fc1c149afbf4c8996fb92427ae41e4649b934ca495991b7852b855".
Proof. vm_compute. reflexivity. Qed.

Example sha256_abc :
  SHA256.hexdigest (Py.encode "abc") =
  "ba7816bf8f01cfea414140de5dae2223b00361a396177a9cb410ff61f20015ad".
Proof. vm_compute. reflexivity. Qed.

Example sha256_two_blocks :
  SHA256.hexdigest (Py.encode "abcdbcdecdefdefgefghfghighijhijkijkljklmklmnlmnomnopnopq") =
  "248d6a61d20638b8e5c026930c3e6039a33ce45964ff2167f6ecedd419db06c1".
Proof. vm_compute. reflexivity. Qed.

Example b64encode_foobar :
  Py.decode (Base64.b64encode (Py.encode "foobar")) = "Zm9vYmFy"
  /\ Py.decode (Base64.b64encode (Py.encode "fooba")) = "Zm9vYmE="
  /\ Base64.decode_canonical "Zm9vYg==" = Some (Py.encode "foob").
Proof. vm_compute. repeat split; reflexivity. Qed.

(** ** The proof-of-work miner *)

Section PoWFacts.
Import PoW.

Example leading_zero_bits_examples :
  leading_zero_bits ["000"; "000"; "016"; "255"]%byte = Some 19%nat
  /\ leading_zero_bits ["128"]%byte = Some 0%nat
  /\ leading_zero_bits ["000"; "000"]%byte = Some 16%nat
  /\ leading_zero_bits [] = Some 0%nat.
Proof. vm_compute. repeat split; reflexivity. Qed.

Lemma index_one_of_byte (b : byte) :
  Byte.to_N b <> 0%N ->
  index "1" (zfill 8 (bin (Byte.to_N b))) = Some (count_leading_zeros (bits_of_byte b)).
Proof. destruct b; intros Hb; try reflexivity; exfalso; apply Hb; reflexivity. Qed.

Lemma clz_nonzero_byte (b : byte) (r : list bool) :
  Byte.to_N b <> 0%N ->
  count_leading_zeros (bits_of_byte b ++ r)%list = count_leading_zeros (bits_of_byte b).
Proof. destruct b; intros Hb; try reflexivity; exfalso; apply Hb; reflexivity. Qed.

Lemma clz_zero_byte (b : byte) (r : list bool) :
  Byte.to_N b = 0%N ->
  count_leading_zeros (bits_of_byte b ++ r)%list = (8 + count_leading_zeros r)%nat.
Proof. destruct b; intros Hb; try discriminate Hb. reflexivity. Qed.

Lemma bits_of_bytes_cons (b : byte) (rest : bytes) :
  bits_of_bytes (b :: rest) = (bits_of_byte b ++ bits_of_bytes rest)%list.
Proof. reflexivity. Qed.

Lemma leading_zero_bits_from_spec (h : bytes) : forall count,
  leading_zero_bits_from count h = Some (count + count_leading_zeros (bits_of_bytes h))%nat.
Proof.
  induction h as [|b rest IH]; intros count.
  - simpl. f_equal. lia.
  - rewrite bits_of_bytes_cons. cbn [leading_zero_bits_from].
    destruct (N.eqb_spec (Byte.to_N b) 0) as [Hz|Hnz].
    + rewrite IH, (clz_zero_byte _ _ Hz). f_equal. lia.
    + rewrite (index_one_of_byte _ Hnz), (clz_nonzero_byte _ _ Hnz). reflexivity.
Qed.

Lemma leading_zero_bits_spec (h : bytes) :
  leading_zero_bits h = Some (count_leading_zeros (bits_of_bytes h)).
Proof. unfold leading_zero_bits. rewrite leading_zero_bits_from_spec. reflexivity. Qed.

Lemma pack_Q_some (n : N) (p : bytes) :
  pack_Q n = Some p -> p = SHA256.be_bytes 8 (Z.of_N n).
Proof. unfold pack_Q. destruct (n <? 2 ^ 64)%N; congruence. Qed.

(** One step of the loop decides [pow_ok] for the current nonce. *)
Lemma pow_ok_dec_step cb t nonce packed :
  pack_Q nonce = Some packed ->
  (pow_ok cb t nonce <->
   (t <= Z.of_nat (count_leading_zeros (bits_of_bytes (SHA256.digest (cb ++ packed)%list))))%Z).
Proof.
  intros Hp. unfold pow_ok. split.
  - intros (p' & Hp' & Hle). rewrite Hp in Hp'. injection Hp' as <-. exact Hle.
  - intros Hle. exists packed. split; assumption.
Qed.

Lemma mine_sound fuel cb t : forall start th n th',
  mine fuel cb t start th = (Some n, th') ->
  (start <= n)%N /\ pow_ok cb t n /\ th' = (th + (n - start) + 1)%N
  /\ forall m, (start <= m)%N -> pow_ok cb t m -> (n <= m)%N.
Proof.
  induction fuel as [|fuel IH]; intros start th n th' Hm; cbn [mine] in Hm; [discriminate|].
  destruct (pack_Q start) as [packed|] eqn:Hp; [|discriminate].
  rewrite leading_zero_bits_spec in Hm.
  destruct (Z.leb_spec t (Z.of_nat (count_leading_zeros
              (bits_of_bytes (SHA256.digest (cb ++ packed)%list))))) as [Hle|Hgt].
  - injection Hm as <- <-. repeat split.
    + lia.
    + apply (pow_ok_dec_step _ _ _ _ Hp). exact Hle.
    + lia.
    + intros m Hsm _. exact Hsm.
  - apply IH in Hm as (Hsn & Hok & Hth & Hmin). repeat split.
    + lia.
    + exact Hok.
    + lia.
    + intros m Hsm Hokm.
      destruct (N.eq_dec m start) as [->|Hne].
      * apply (pow_ok_dec_step _ _ _ _ Hp) in Hokm. lia.
      * apply Hmin; [lia|exact Hokm].
Qed.

(** The search does find a nonce when one exists below the fuel. *)
Lemma mine_complete fuel cb t : forall start th m,
  pow_ok cb t m -> (start <= m)%N -> (N.to_nat (m - start) < fuel)%nat ->
  exists n th', mine fuel cb t start th = (Some n, th').
Proof.
  induction fuel as [|fuel IH]; intros start th m Hok Hsm Hfuel; [lia|].
  cbn [mine].
  assert (Hpm : exists pm, pack_Q m = Some pm) by (destruct Hok as (pm & Hpm & _); eauto).
  destruct Hpm as (pm & Hpm).
  assert (Hps : exists ps, pack_Q start = Some ps).
  { unfold pack_Q in *. destruct (N.ltb_spec m (2 ^ 64)); [|discriminate].
    destruct (N.ltb_spec start (2 ^ 64)); [eauto|lia]. }
  destruct Hps as (ps & Hps). rewrite Hps, leading_zero_bits_spec.
  destruct (Z.leb_spec t (Z.of_nat (count_leading_zeros
              (bits_of_bytes (SHA256.digest (cb ++ ps)%list))))) as [Hle|Hgt]; [eauto|].
  destruct (N.eq_dec m start) as [->|Hne].
  - apply (pow_ok_dec_step _ _ _ _ Hps) in Hok. lia.
  - apply (IH (start + 1)%N _ m Hok); lia.
Qed.

Lemma mine_zero_target fuel cb t th :
  (t <= 0)%Z -> mine (S fuel) cb t 0 th = (Some 0%N, (th + 1)%N).
Proof.
  intros Ht. cbn [mine]. change (pack_Q 0) with (Some (SHA256.be_bytes 8 (Z.of_N 0))).
  cbv beta iota. rewrite leading_zero_bits_spec.
  destruct (Z.leb_spec t (Z.of_nat (count_leading_zeros (bits_of_bytes
     (SHA256.digest (cb ++ SHA256.be_bytes 8 (Z.of_N 0))%list))))) as [_|Hgt]; [reflexivity|lia].
Qed.

Context `{lib : Library}.

(** C3. [leading_zero_bits h] is the number of leading zero bits of [h].
    When [solve_challenge] (started on an idle solver) leaves a nonce, the
    challenge decoded to some bytes [cb], the nonce is the decimal text of
    a number [n], SHA-256([cb] ++ uint64_be([n])) has at least
    [target_bits] leading zero bits, and [n] is the least natural number
    with that property.  For [target_bits = 0] the nonce is 0: nothing
    else can be returned, and 0 is returned as soon as the challenge
    decodes and the loop runs once. *)
Theorem pow_solver_correct :
  (forall h, leading_zero_bits h = Some (count_leading_zeros (bits_of_bytes h)))
  /\ (forall fuel challenge target_bits s sol,
        is_solving s = false ->
        nonce_solution (solve_challenge fuel challenge (Some target_bits) s) = Some sol ->
        exists cb n,
          challenge ≫= b64decode = Some cb /\ sol = Py.str_of_N n
          /\ pow_ok cb target_bits n
          /\ forall m, pow_ok cb target_bits m -> (n <= m)%N)
  /\ (forall fuel challenge s sol,
        is_solving s = false ->
        nonce_solution (solve_challenge fuel challenge (Some 0%Z) s) = Some sol -> sol = "0")
  /\ (forall fuel challenge cb s,
        is_solving s = false ->
        b64decode challenge = Some cb ->
        let s' := solve_challenge (S fuel) (Some challenge) (Some 0%Z) s in
        nonce_solution s' = Some "0" /\ wait_for_solution s' = true).
Proof.
  split; [exact leading_zero_bits_spec|]. split; [|split].
  - intros fuel challenge t s sol Hidle Hsol. unfold solve_challenge in Hsol.
    rewrite Hidle in Hsol.
    destruct (challenge ≫= b64decode) as [cb|]; [|discriminate].
    destruct (mine fuel cb t 0 0) as [[n|] th'] eqn:Hm; [|discriminate].
    cbn [nonce_solution] in Hsol. injection Hsol as <-.
    apply mine_sound in Hm as (_ & Hok & _ & Hmin).
    exists cb, n. repeat split; try assumption.
    intros m Hokm. apply Hmin; [lia|exact Hokm].
  - intros fuel challenge s sol Hidle Hsol. unfold solve_challenge in Hsol.
    rewrite Hidle in Hsol.
    destruct (challenge ≫= b64decode) as [cb|]; [|discriminate].
    destruct fuel as [|fuel]; [discriminate|].
    rewrite mine_zero_target in Hsol by lia. cbn [nonce_solution] in Hsol.
    change (Py.str_of_N 0) with "0" in Hsol. congruence.
  - intros fuel challenge cb s Hidle Hdec. unfold solve_challenge.
    rewrite Hidle. cbn [mbind option_bind]. rewrite Hdec, mine_zero_target by lia.
    split; reflexivity.
Qed.

End PoWFacts.

(** The miner on a concrete challenge: three zero bytes, four leading zero
    bits requested. *)
Lemma pow_solver_correct_witness :
  exists cb n,
    Some "AAAA" ≫= Base64.decode_canonical = Some cb /\ "7" = Py.str_of_N n
    /\ PoW.pow_ok cb 4 n /\ forall m, PoW.pow_ok cb 4 m -> (n <= m)%N.
Proof.
  destruct (@pow_solver_correct concrete_library) as (_ & Hsolve & _).
  apply (Hsolve 100%nat (Some "AAAA") 4%Z PoW.new_solver "7").
  - reflexivity.
  - vm_compute. reflexivity.
Defined.

(** ** The controller-file bridge *)

Section ControllerFacts.
Import Controller.

Variable handlers : handler_table.

(** The finished log of a command whose handler printed nothing. *)
Lemma log_of_silent_command (log_file command_content : string) (fs : filesystem) :
  output (fst (_execute_controller_command handlers command_content)) = "" ->
  let flag := if success (fst (_execute_controller_command handlers command_content))
              then "1" else "0" in
  _execute_command_with_log handlers log_file command_content fs !! log_file
  = Some (flag ++ nl ++ flag ++ nl).
Proof.
  intros Hout. unfold _execute_command_with_log.
  destruct (success _); cbn zeta; unfold _append_log_result, _write_log_status;
    rewrite Hout; rewrite !lookup_insert_eq; reflexivity.
Qed.

(** The finished log of a command whose handler printed something: the
    status, the output, the terminal indicator. *)
Lemma log_of_printing_command (log_file command_content : string) (fs : filesystem) :
  output (fst (_execute_controller_command handlers command_content)) <> "" ->
  let r := fst (_execute_controller_command handlers command_content) in
  let flag := if success r then "1" else "0" in
  _execute_command_with_log handlers log_file command_content fs !! log_file
  = Some ((flag ++ nl ++ (output r ++ nl)) ++ flag ++ nl).
Proof.
  intros Hout r flag. subst r flag. unfold _execute_command_with_log.
  apply String.eqb_neq in Hout.
  destruct (success _); cbn zeta; unfold _append_log_result, _write_log_status;
    rewrite Hout; rewrite !lookup_insert_eq; reflexivity.
Qed.

(** C5 (the code departs from the claim).  When a successful handler
    has printed nothing, the finished log has two lines only: the status
    and, on line 2, the terminal indicator; there is no line 3.  The reader
    takes the indicator for the message, and the sender, however often it
    polls the finished log, ends with the time-out failure. *)
Theorem controller_log_silent_success (log_file command_content : string)
    (fs : filesystem) (polls : nat) :
  fst (_execute_controller_command handlers command_content) = CommandResult true "" ->
  let fs' := _execute_command_with_log handlers log_file command_content fs in
  fs' !! log_file = Some ("1" ++ nl ++ "1" ++ nl)
  /\ _read_log_file log_file fs' = Some (LogData "1" "1" "")
  /\ poll_log log_file (List.repeat fs' polls)
     = (false, "Timeout waiting for command execution").
Proof.
  intros Hres fs'.
  assert (Hlog : fs' !! log_file = Some ("1" ++ nl ++ "1" ++ nl)).
  { pose proof (log_of_silent_command log_file command_content fs) as Hl.
    rewrite Hres in Hl. apply Hl. reflexivity. }
  assert (Hread : _read_log_file log_file fs' = Some (LogData "1" "1" "")).
  { unfold _read_log_file. rewrite Hlog. reflexivity. }
  repeat split; [exact Hlog|exact Hread|].
  induction polls as [|n IH]; [reflexivity|].
  cbn [List.repeat poll_log]. rewrite Hread. exact IH.
Qed.

End ControllerFacts.

Lemma controller_log_silent_success_witness :
  let fs' := Controller._execute_command_with_log sample_handlers "/h/.hps_cli/logs/u1.log"
               "clear" ∅ in
  fs' !! "/h/.hps_cli/logs/u1.log" = Some ("1" ++ Controller.nl ++ "1" ++ Controller.nl)
  /\ Controller._read_log_file "/h/.hps_cli/logs/u1.log" fs'
     = Some (Controller.LogData "1" "1" "")
  /\ Controller.poll_log "/h/.hps_cli/logs/u1.log" (List.repeat fs' 3000)
     = (false, "Timeout waiting for command execution").
Proof.
  apply (controller_log_silent_success sample_handlers "/h/.hps_cli/logs/u1.log" "clear" ∅ 3000).
  reflexivity.
Defined.

Example controller_exchange_one_line :
  controller_exchange "sync" 5 = (true, "Sync completed").
Proof. vm_compute. reflexivity. Qed.

Example controller_exchange_silent :
  controller_exchange "clear" 5 = (false, "Timeout waiting for command execution").
Proof. vm_compute. reflexivity. Qed.

Example controller_exchange_two_lines :
  controller_exchange "network" 5 = (false, "Online nodes: 3").
Proof. vm_compute. reflexivity. Qed.

Example controller_exchange_unknown :
  controller_exchange "frobnicate" 5 = (false, "Unknown command: frobnicate").
Proof. vm_compute. reflexivity. Qed.

(** ** Paths of the blob files *)

Section PathFacts.

Lemma append_cons_not_empty (a : string) (c : ascii) (s : string) :
  a ++ String c s <> "".
Proof. destruct a; discriminate. Qed.

Lemma ends_with_slash_append (a : string) (c : ascii) (s : string) :
  Py.ends_with_slash (a ++ String c s) = Py.ends_with_slash (String c s).
Proof.
  induction a as [|x a IH]; [reflexivity|].
  change (String x a ++ String c s) with (String x (a ++ String c s)).
  cbn [Py.ends_with_slash]. rewrite IH.
  destruct (a ++ String c s) eqn:Ha; [|reflexivity].
  exfalso. exact (append_cons_not_empty _ _ _ Ha).
Qed.

Lemma append_length (a b : string) :
  String.length (a ++ b) = (String.length a + String.length b)%nat.
Proof.
  induction a as [|x a IH]; [reflexivity|].
  change (String x a ++ b) with (String x (a ++ b)). cbn [String.length]. lia.
Qed.

Lemma append_inv_tail (s a b : string) : a ++ s = b ++ s -> a = b.
Proof.
  revert b. induction a as [|x a IH]; intros [|y b] Heq.
  - reflexivity.
  - apply (f_equal String.length) in Heq. rewrite !append_length in Heq.
    cbn [String.length] in Heq. lia.
  - apply (f_equal String.length) in Heq. rewrite !append_length in Heq.
    cbn [String.length] in Heq. lia.
  - change (String x (a ++ s) = String y (b ++ s)) in Heq.
    injection Heq as -> Heq. f_equal. apply IH. exact Heq.
Qed.

Lemma append_inv_head (s a b : string) : s ++ a = s ++ b -> a = b.
Proof.
  induction s as [|x s IH]; intros Heq; [exact Heq|].
  change (String x (s ++ a) = String x (s ++ b)) in Heq.
  injection Heq as Heq. apply IH. exact Heq.
Qed.

Lemma hex_digit_not_slash (n : N) : Ascii.eqb "/" (SHA256.hex_digit n) = false.
Proof.
  unfold SHA256.hex_digit.
  repeat match goal with
         | |- context [match ?x with _ => _ end] => destruct x
         end; reflexivity.
Qed.

(** A hex digest is not an absolute path. *)
Lemma hexdigest_relative (msg : bytes) (suffix : string) :
  Py.startswith "/" (SHA256.hexdigest msg ++ suffix) = false.
Proof.
  unfold SHA256.hexdigest, SHA256.digest, SHA256.output.
  cbn [SHA256.be_bytes List.app SHA256.hex].
  match goal with
  | |- Py.startswith _ (String ?c ?s ++ _) = _ =>
      change (String c s ++ suffix) with (String c (s ++ suffix))
  end.
  unfold Py.startswith. rewrite hex_digit_not_slash. reflexivity.
Qed.

(** The blob directory is never empty and never ends with a
    separator, so the blob of a hex digest lies directly in it. *)
Lemma blob_path_of_digest (st : Core.client) (msg : bytes) :
  Core.blob_path st (SHA256.hexdigest msg)
  = Core.content_dir st ++ "/" ++ (SHA256.hexdigest msg ++ ".dat").
Proof.
  unfold Core.blob_path, Py.path_join at 1. rewrite hexdigest_relative.
  assert (Hdir : exists p, Core.content_dir st = p ++ "content").
  { unfold Core.content_dir, Py.path_join.
    change (Py.startswith "/" "content") with false. cbv iota.
    destruct (_ || _); [eauto|].
    exists (Core.crypto_dir (Core.cfg st) ++ "/").
    clear. induction (Core.crypto_dir (Core.cfg st)) as [|x a IH]; [reflexivity|].
    change (String x (a ++ "/" ++ "content") = String x ((a ++ "/") ++ "content")).
    f_equal. exact IH. }
  destruct Hdir as (p & ->).
  destruct (String.eqb_spec (p ++ "content") "") as [He|_].
  - exfalso. exact (append_cons_not_empty _ _ _ He).
  - rewrite ends_with_slash_append. reflexivity.
Qed.

Lemma blob_path_inj (st : Core.client) (m1 m2 : bytes) :
  Core.blob_path st (SHA256.hexdigest m1) = Core.blob_path st (SHA256.hexdigest m2) ->
  SHA256.hexdigest m1 = SHA256.hexdigest m2.
Proof.
  rewrite !blob_path_of_digest. intros Heq.
  apply append_inv_head, append_inv_head, append_inv_tail in Heq. exact Heq.
Qed.

End PathFacts.

(** ** The content store *)

Section StoreFacts.
Import Core.
Context `{lib : Library}.

(** What [run_async (request_pow_challenge a)] leaves alone. *)
Lemma request_pow_frame (a : string) (st : client) :
  let st' := run_async (request_pow_challenge a) st in
  cfg st' = cfg st /\ sess st' = sess st /\ ban st' = ban st /\ pend st' = pend st
  /\ repl st' = repl st /\ store st' = store st.
Proof.
  unfold run_async, request_pow_challenge.
  destruct (connected (sess st)), (loop_ready (sess st)); cbn; repeat split; reflexivity.
Qed.



(** The upload proper: what is hashed, what is signed, what is stored
    and what is kept pending. *)
Lemma upload_file_spec (o : oracle) (user path : string) (title : option string)
    (description : string) (mime_type : option string) (st : client)
    (ev : event_name) (t : Z) (st' : client) (k : bool -> client -> client) :
  upload_file o user path title description mime_type st = Wait ev t st' k ->
  exists P ctx,
    files (store st) !! path = Some P
    /\ (Z.of_nat (List.length P) <= max_upload_size)%Z
    /\ pending_upload (pend st') = Some ctx
    /\ uc_content_hash ctx
       = SHA256.hexdigest (blob_header user (public_key_pem (cfg st)) ++ P)%list
    /\ uc_full_content ctx = (blob_header user (public_key_pem (cfg st)) ++ P)%list
    /\ uc_signature ctx = rsa_pss_sign (private_key (cfg st)) (salt o) P
    /\ store st' = store (save_content_to_storage (clock o) (uc_content_hash ctx)
                            (uc_full_content ctx)
                            (Some (Metadata (uc_title ctx) description (uc_mime_type ctx) user
                               (Py.decode (Base64.b64encode (uc_signature ctx)))
                               (Py.decode (Base64.b64encode (public_key_pem (cfg st))))
                               true)) st)
    /\ ev = UploadEvent /\ t = 300%Z /\ k = upload_finish.
Proof.
  unfold upload_file. intros Hup.
  destruct (files (store st) !! path) as [P|] eqn:Hfile; [|discriminate].
  destruct (Z.ltb_spec max_upload_size (Z.of_nat (List.length P))) as [Hbig|Hfits];
    [discriminate|].
  injection Hup as <- <- <- <-.
  eexists P, _. split; [reflexivity|]. split; [exact Hfits|].
  match goal with
  | |- context [run_async (request_pow_challenge ?a) ?s] =>
      destruct (request_pow_frame a s) as (_ & _ & _ & Hpend & _ & Hstore)
  end.
  cbv zeta in Hpend, Hstore.
  rewrite Hpend, Hstore. cbn [pend set_upload_box set_pending_upload with_pend with_repl
    pending_upload uc_content_hash uc_full_content uc_signature uc_title uc_mime_type].
  repeat split. destruct (via_controller (cfg st)); reflexivity.
Qed.



(** Both invariants read the store and the configuration only. *)
Lemma store_invariants_frame (st st' : client) :
  store st' = store st -> cfg st' = cfg st ->
  store_integrity st /\ store_canonical st ->
  store_integrity st' /\ store_canonical st'.
Proof.
  intros Hs Hc [Hint Hcan]. split; intros h row Hrow.
  - unfold store_integrity in Hint. rewrite Hs in *. apply Hint. exact Hrow.
  - unfold blob_path, content_dir. rewrite Hc. rewrite Hs in Hrow. apply Hcan. exact Hrow.
Qed.

(** Writing a blob under its own digest keeps every row sound. *)
Lemma save_content_keeps_integrity (now : Z) (content : bytes) (meta : option metadata)
    (st : client) :
  store_integrity st /\ store_canonical st ->
  let st' := save_content_to_storage now (SHA256.hexdigest content) content meta st in
  store_integrity st' /\ store_canonical st'.
Proof.
  intros [Hint Hcan] st'. subst st'. unfold save_content_to_storage.
  set (row := match meta with Some _ => _ | None => _ end).
  assert (Hpath : file_path row = blob_path st (SHA256.hexdigest content))
    by (subst row; destruct meta; reflexivity).
  clearbody row. split; intros h row' Hrow; cbn in Hrow |- *.
  - destruct (decide (SHA256.hexdigest content = h)) as [<-|Hne].
    + rewrite lookup_insert_eq in Hrow. injection Hrow as <-.
      exists content. rewrite Hpath, lookup_insert_eq. split; reflexivity.
    + rewrite lookup_insert_ne in Hrow by exact Hne.
      destruct (Hint h row' Hrow) as (blob & Hblob & Hh). exists blob. split; [|exact Hh].
      rewrite lookup_insert_ne; [exact Hblob|].
      rewrite (Hcan h row' Hrow), <- Hh. intros Heq. apply Hne.
      rewrite <- Hh. apply (blob_path_inj st). exact Heq.
  - destruct (decide (SHA256.hexdigest content = h)) as [<-|Hne].
    + rewrite lookup_insert_eq in Hrow. injection Hrow as <-. exact Hpath.
    + rewrite lookup_insert_ne in Hrow by exact Hne. exact (Hcan h row' Hrow).
Qed.

Lemma handle_upload_keeps_integrity (o : oracle) (args : list string) (st : client) :
  store_integrity st /\ store_canonical st ->
  store_integrity (blocked_state (handle_upload o args st))
  /\ store_canonical (blocked_state (handle_upload o args st)).
Proof.
  intros Hinv.
  destruct (handle_upload o args st) as [s|ev t s k] eqn:Hup.
  - (* the handler stopped early: only a line has been shown *)
    cbn [blocked_state]. revert Hup. unfold handle_upload, upload_file.
    repeat match goal with
           | |- context [match ?x with _ => _ end] => destruct x
           end;
      intros Hup; try discriminate Hup; injection Hup as <-;
      (apply (store_invariants_frame st); [reflexivity|reflexivity|exact Hinv]).
  - cbn [blocked_state].
    assert (Hfile : exists user path title description mime_type,
              upload_file o user path title description mime_type st = Wait ev t s k).
    { revert Hup. unfold handle_upload.
      destruct (current_user (sess st)) as [user|]; [|discriminate].
      destruct (String.eqb user ""); [discriminate|].
      destruct args as [|file_path options].
      - destruct (no_cli (cfg st)); [discriminate|]. eauto 10.
      - destruct (upload_options options None "" None) as [[[title description] mime]|a];
          [eauto 10|discriminate]. }
    destruct Hfile as (user & path & title & description & mime_type & Hfile).
    assert (Hcfg : cfg s = cfg st).
    { revert Hfile. unfold upload_file.
      destruct (files (store st) !! path); [|discriminate].
      destruct (_ <? _)%Z; [discriminate|]. intros Hw. injection Hw as _ _ <- _.
      match goal with
      | |- context [run_async (request_pow_challenge ?a) ?x] =>
          destruct (request_pow_frame a x) as (Hc & _)
      end.
      cbv zeta in Hc. rewrite Hc. destruct (via_controller (cfg st)); reflexivity. }
    apply upload_file_spec in Hfile
      as (P & ctx & _ & _ & _ & Hhash & Hfull & _ & Hstore & _).
    rewrite Hhash, Hfull in Hstore.
    eapply store_invariants_frame;
      [exact Hstore| |apply save_content_keeps_integrity; exact Hinv].
    rewrite Hcfg. reflexivity.
Qed.

Lemma content_response_keeps_integrity (o : oracle) (data : content_data) (st : client) :
  (forall B, cd_content data ≫= b64decode = Some B ->
             SHA256.hexdigest B = default "" (cd_content_hash data)) ->
  store_integrity st /\ store_canonical st ->
  store_integrity (content_response o data st)
  /\ store_canonical (content_response o data st).
Proof.
  intros Hok Hinv. unfold content_response.
  destruct (cd_error data) as [error|].
  { apply (store_invariants_frame st); [| |exact Hinv];
      unfold report_to_user; destruct (via_controller (cfg st)); reflexivity. }
  destruct (cd_content data ≫= b64decode) as [content|] eqn:Hdec.
  - rewrite <- (Hok content eq_refl). rewrite String.eqb_refl.
    match goal with
    | |- store_integrity (set_content_box ?b ?x) /\ _ =>
        apply (store_invariants_frame x); [reflexivity|reflexivity|]
    end.
    apply save_content_keeps_integrity.
    apply (store_invariants_frame st); [reflexivity|reflexivity|exact Hinv].
  - apply (store_invariants_frame st); [| |exact Hinv];
      unfold report_to_user; destruct (via_controller (cfg st)); reflexivity.
Qed.

(** C1, as the code has it.  The integrity invariant (with rows that
    point to their own blob file) holds in the empty store, is kept by
    every [handle_upload], whatever its arguments, and is kept by every
    [content_response] whose decoded bytes hash to the [content_hash] of
    the response; the end of [handle_upload] does not touch the store. *)
Theorem store_integrity_preserved :
  (forall home, store_integrity (new_client home) /\ store_canonical (new_client home))
  /\ (forall o args st,
        store_integrity st /\ store_canonical st ->
        store_integrity (blocked_state (handle_upload o args st))
        /\ store_canonical (blocked_state (handle_upload o args st)))
  /\ (forall woke st, store (upload_finish woke st) = store st
                      /\ cfg (upload_finish woke st) = cfg st)
  /\ (forall o data st,
        (forall B, cd_content data ≫= b64decode = Some B ->
                   SHA256.hexdigest B = default "" (cd_content_hash data)) ->
        store_integrity st /\ store_canonical st ->
        store_integrity (content_response o data st)
        /\ store_canonical (content_response o data st)).
Proof.
  split; [|split; [|split]].
  - intros home. split; intros h row Hrow; cbn in Hrow;
      rewrite lookup_empty in Hrow; discriminate.
  - exact handle_upload_keeps_integrity.
  - intros woke st. unfold upload_finish, report_to_user.
    destruct woke, (succeeded _), (via_controller _); split; reflexivity.
  - exact content_response_keeps_integrity.
Qed.

End StoreFacts.



(** The empty store of a fresh client satisfies both invariants, with
    or without a file waiting to be uploaded. *)
Lemma fresh_store_sound (st : Core.client) :
  Core.cli_content_cache (Core.store st) = ∅ ->
  store_integrity st /\ store_canonical st.
Proof.
  intros Hempty. split; intros h row Hrow; rewrite Hempty, lookup_empty in Hrow;
    discriminate Hrow.
Qed.

Lemma store_integrity_preserved_witness :
  let st := with_file "/tmp/a.txt" (Py.encode "hello") (logged_in "/h" "srv" "alice" 100) in
  store_integrity
    (blocked_state (Core.handle_upload (lib := concrete_library) calm ["/tmp/a.txt"] st))
  /\ store_canonical
    (blocked_state (Core.handle_upload (lib := concrete_library) calm ["/tmp/a.txt"] st)).
Proof.
  intros st.
  destruct (@store_integrity_preserved concrete_library) as (_ & Hupload & _).
  apply (Hupload calm ["/tmp/a.txt"] st).
  apply fresh_store_sound. reflexivity.
Defined.

(** C1 fails as stated: a [content_response] whose bytes do not hash to
    its [content_hash] is stored all the same, under the key it claims.
    From a sound (empty) store, the forged response for key [00] leaves a
    row [00] whose blob file holds [hello]. *)
Lemma store_integrity_counterexample :
  let st := logged_in "/h" "srv" "alice" 100 in
  (store_integrity st /\ store_canonical st)
  /\ ~ store_integrity (Core.content_response (lib := concrete_library) calm forged_response st).
Proof.
  intros st. split; [apply fresh_store_sound; reflexivity|].
  intros Hint.
  destruct (Core.cli_content_cache (Core.store
              (Core.content_response (lib := concrete_library) calm forged_response st)) !! "00")
    as [row|] eqn:Hrow; [|vm_compute in Hrow; discriminate Hrow].
  destruct (Hint "00" row Hrow) as (blob & Hblob & Hhash).
  vm_compute in Hrow. injection Hrow as <-.
  vm_compute in Hblob. injection Hblob as <-.
  vm_compute in Hhash. discriminate Hhash.
Qed.

(** ** Session state *)

Section SessionFacts.
Import Core.
Context `{lib : Library}.

(** C9, as the code has it.  [handle_logout] on a logged-in client
    clears [current_user] and [username] and resets [connected], but keeps
    [current_server]; it does not bring the transport down either, because
    the request to disconnect goes through [run_async] after [connected]
    has been reset.  The [disconnect] event only resets [connected]: both
    [current_user] and [current_server] stay as they were. *)
Theorem logout_and_disconnect_state (st : client) :
  (Py.truthy (current_user (sess st)) = true ->
   current_user (sess (handle_logout st)) = None
   /\ username (sess (handle_logout st)) = None
   /\ connected (sess (handle_logout st)) = false
   /\ current_server (sess (handle_logout st)) = current_server (sess st)
   /\ sio_connected (sess (handle_logout st)) = sio_connected (sess st))
  /\ (connected (sess (disconnect st)) = false
      /\ current_user (sess (disconnect st)) = current_user (sess st)
      /\ current_server (sess (disconnect st)) = current_server (sess st)).
Proof.
  split.
  - intros Hin. unfold handle_logout, run_async, report_to_user. rewrite Hin.
    cbn. destruct (sio_connected (sess st)) eqn:Hsio; cbn;
      destruct (via_controller (cfg st)); cbn; repeat split; exact Hsio.
  - unfold disconnect. destruct (auto_reconnect (cfg st) && is_running (cfg st));
      cbn; repeat split.
Qed.

End SessionFacts.

Lemma logout_and_disconnect_state_witness :
  let st := logged_in "/h" "srv" "alice" 100 in
  Core.current_user (Core.sess (Core.handle_logout st)) = None
  /\ Core.username (Core.sess (Core.handle_logout st)) = None
  /\ Core.connected (Core.sess (Core.handle_logout st)) = false
  /\ Core.current_server (Core.sess (Core.handle_logout st)) = Some "srv"
  /\ Core.sio_connected (Core.sess (Core.handle_logout st)) = true.
Proof.
  intros st. apply (proj1 (logout_and_disconnect_state st)). reflexivity.
Defined.

(** C9 fails as stated: after a logout, and after a disconnection, the
    server is still there; after a disconnection the user is, too. *)
Lemma logout_keeps_server_counterexample :
  let st := logged_in "/h" "srv" "alice" 100 in
  ~ (Core.current_user (Core.sess (Core.handle_logout st)) = None
     /\ Core.current_server (Core.sess (Core.handle_logout st)) = None)
  /\ ~ (Core.current_user (Core.sess (Core.disconnect st)) = None
        /\ Core.current_server (Core.sess (Core.disconnect st)) = None).
Proof.
  intros st. split; intros [Huser Hserver]; vm_compute in Hserver; discriminate Hserver.
Qed.

(** ** The proof-of-work gate *)

Section GateFacts.
Import Core.
Context `{lib : Library}.

(** C8, as the code has it.  A [pow_challenge] that carries [error] and
    [blocked_until] puts the client in the banned state: [banned_until] is
    [blocked_until] shifted by the time that passes between the two clock
    readings of the handler (so it is [blocked_until] when they agree),
    the remaining duration and the reason are recorded and shown.  The
    handler leaves every pending context and every reply event as they
    were, and sends nothing; the pending context of an upload, a name
    registration or a report is discarded when the wait of the blocked
    command handler then times out. *)
Theorem pow_challenge_error_path (o : oracle) (data : pow_data) (st : client)
    (error : string) (blocked_until : Z) :
  pd_error data = Some error ->
  pd_blocked_until data = Some blocked_until ->
  let st' := pow_challenge o data st in
  banned_until (ban st') = Some (blocked_until + (clock_later o - clock o))%Z
  /\ (clock_later o = clock o -> banned_until (ban st') = Some blocked_until)
  /\ ban_duration (ban st') = (blocked_until - clock o)%Z
  /\ ban_reason (ban st') = "Rate limit exceeded"
  /\ display st' = (display st ++
       [PrintError ("PoW challenge error: " ++ error);
        PrintWarning ("Banned for " ++ Py.str_of_Z (blocked_until - clock o)
                      ++ "s: " ++ "Rate limit exceeded")])%list
  /\ pend st' = pend st /\ repl st' = repl st /\ effects st' = effects st
  /\ sess st' = sess st /\ store st' = store st
  /\ pending_upload (pend (upload_finish false st')) = None
  /\ pending_dns (pend (dns_register_finish false st')) = None
  /\ pending_report (pend (report_finish false st')) = None.
Proof.
  intros Herr Hblocked st'. subst st'. unfold pow_challenge. rewrite Herr, Hblocked.
  unfold handle_ban. cbn [ban banned_until ban_duration ban_reason with_ban show display
    pend repl effects sess store].
  repeat split.
  - f_equal. lia.
  - intros ->. f_equal. lia.
  - rewrite <- List.app_assoc. reflexivity.
Qed.

(** C6, as the code has it.  The handlers of the gated verbs (upload,
    dns-reg, report) wait 300 seconds for their terminal event; when the
    wait times out they show an error and discard their pending context.
    The handlers of the other verbs (download, dns-res, search, network)
    wait 30 seconds; when the wait times out they show an error and return
    (they have no pending context).  [handle_download] hands [hps://rede]
    and [hps://dns:] targets over to the network and dns-res handlers. *)
Theorem handler_timeouts (o : oracle) (args : list string) (cs : option connection_state)
    (st : client) :
  gives_up_after (handle_upload o args st) 300 "Upload timeout" (set_pending_upload None)
  /\ gives_up_after (handle_dns_register o args st) 300 "DNS registration timeout"
       (set_pending_dns None)
  /\ gives_up_after (handle_report args st) 300 "Report timeout" (set_pending_report None)
  /\ gives_up_after (handle_dns_resolve args cs st) 30 "DNS resolution timeout" id
  /\ gives_up_after (handle_search args st) 30 "Search timeout" id
  /\ gives_up_after (handle_network st) 30 "Network state timeout" id
  /\ (gives_up_after (handle_download args st) 30 "Download timeout" id
      \/ gives_up_after (handle_download args st) 30 "Network state timeout" id
      \/ gives_up_after (handle_download args st) 30 "DNS resolution timeout" id).
Proof.
  assert (Hnet : forall s, gives_up_after (handle_network s) 30 "Network state timeout" id).
  { intros s. unfold handle_network.
    destruct (negb (Py.truthy (current_user (sess s)))); [exact I|].
    destruct (negb (loop_ready _)); [exact I|]. split; reflexivity. }
  assert (Hres : forall a c s,
            gives_up_after (handle_dns_resolve a c s) 30 "DNS resolution timeout" id).
  { intros a c s. unfold handle_dns_resolve.
    destruct (_ && _); [exact I|]. destruct a as [|arg0 rest]; [exact I|].
    destruct (negb (connected _)); [exact I|].
    destruct (negb (loop_ready _)); [exact I|]. split; reflexivity. }
  repeat split.
  - unfold handle_upload.
    destruct (current_user (sess st)) as [user|]; [|exact I].
    destruct (String.eqb user ""); [exact I|].
    assert (Hfile : forall path title description mime,
              gives_up_after (upload_file o user path title description mime st) 300
                "Upload timeout" (set_pending_upload None)).
    { intros path title description mime. unfold upload_file.
      destruct (files (store st) !! path); [|exact I].
      destruct (_ <? _)%Z; [exact I|]. split; reflexivity. }
    destruct args as [|file_path options].
    + destruct (no_cli (cfg st)); [exact I|apply Hfile].
    + destruct (upload_options options None "" None) as [[[title description] mime]|a];
        [apply Hfile|exact I].
  - unfold handle_dns_register.
    destruct (negb (Py.truthy (current_user (sess st)))); [exact I|].
    destruct args as [|arg0 [|content_hash rest]]; try exact I.
    destruct (negb (is_valid_domain _)); [exact I|]. split; reflexivity.
  - unfold handle_report.
    destruct (current_user (sess st)) as [user|]; [|exact I].
    destruct (String.eqb user ""); [exact I|].
    destruct args as [|content_hash [|reported rest]]; try exact I.
    destruct (String.eqb reported user); [exact I|].
    destruct (_ <? _)%Z; [exact I|].
    destruct (Nat.ltb _ _); [exact I|]. split; reflexivity.
  - apply Hres.
  - unfold handle_search.
    destruct (negb (Py.truthy (current_user (sess st)))); [exact I|].
    destruct args as [|query options]; [exact I|].
    destruct (search_options options "all" "reputation") as [[content_type sort_by]|a];
      [|exact I].
    destruct (negb (loop_ready _)); [exact I|]. split; reflexivity.
  - apply Hnet.
  - unfold handle_download.
    destruct (negb (Py.truthy (current_user (sess st)))); [left; exact I|].
    destruct args as [|target options]; [left; exact I|].
    destruct (download_options options None) as [output_path|a]; [|left; exact I].
    destruct (Py.startswith "hps://" target).
    + destruct (String.eqb target "hps://rede"); [right; left; apply Hnet|].
      destruct (Py.startswith "hps://dns:" target); [right; right; apply Hres|].
      left. split; reflexivity.
    + left. split; reflexivity.
Qed.

End GateFacts.

Lemma pow_challenge_error_path_witness :
  let st' := Core.pow_challenge (lib := concrete_library) calm refused_challenge uploading in
  Core.banned_until (Core.ban st') = Some (4600 + (1000 - 1000))%Z
  /\ (1000 = 1000 -> Core.banned_until (Core.ban st') = Some 4600)%Z
  /\ Core.ban_duration (Core.ban st') = (4600 - 1000)%Z
  /\ Core.ban_reason (Core.ban st') = "Rate limit exceeded"
  /\ Core.display st' = (Core.display uploading ++
       [Core.PrintError ("PoW challenge error: " ++ "Too many requests");
        Core.PrintWarning ("Banned for " ++ Py.str_of_Z (4600 - 1000)
                           ++ "s: " ++ "Rate limit exceeded")])%list
  /\ Core.pend st' = Core.pend uploading /\ Core.repl st' = Core.repl uploading
  /\ Core.effects st' = Core.effects uploading
  /\ Core.sess st' = Core.sess uploading /\ Core.store st' = Core.store uploading
  /\ Core.pending_upload (Core.pend (Core.upload_finish false st')) = None
  /\ Core.pending_dns (Core.pend (Core.dns_register_finish false st')) = None
  /\ Core.pending_report (Core.pend (Core.report_finish false st')) = None.
Proof.
  apply (pow_challenge_error_path (lib := concrete_library) calm refused_challenge uploading
           "Too many requests" 4600%Z); reflexivity.
Defined.

(** C8 fails as stated: the refused challenge leaves the pending upload
    in place. *)
Lemma pow_challenge_keeps_pending_counterexample :
  let st' := Core.pow_challenge (lib := concrete_library) calm refused_challenge uploading in
  Core.pending_upload (Core.pend uploading) <> None
  /\ ~ (Core.banned_until (Core.ban st') = Some 4600%Z
        /\ Core.pending_upload (Core.pend st') = None).
Proof.
  intros st'. split.
  - intros Hp. vm_compute in Hp. discriminate Hp.
  - intros [_ Hp]. vm_compute in Hp. discriminate Hp.
Qed.

(** The gated handlers do block, for 300 seconds; the others for 30. *)
Example timeouts_of_the_handlers :
  let st := with_file "/tmp/a.txt" (Py.encode "hello") (logged_in "/h" "srv" "alice" 100) in
  timeout_of (Core.handle_upload (lib := concrete_library) calm ["/tmp/a.txt"] st) = Some 300%Z
  /\ timeout_of (Core.handle_dns_register (lib := concrete_library) calm ["a.b-c"; "00"] st)
     = Some 300%Z
  /\ timeout_of (Core.handle_report ["00"; "bob"] st) = Some 300%Z
  /\ timeout_of (Core.handle_download (lib := concrete_library) ["00"] st) = Some 30%Z
  /\ timeout_of (Core.handle_dns_resolve ["a.b-c"] None st) = Some 30%Z
  /\ timeout_of (Core.handle_search ["cats"] st) = Some 30%Z
  /\ timeout_of (Core.handle_network st) = Some 30%Z.
Proof. vm_compute. repeat split; reflexivity. Qed.

Lemma handler_timeouts_witness :
  gives_up_after (Core.handle_report ["00"; "bob"] (logged_in "/h" "srv" "alice" 20))
    300 "Report timeout" (Core.set_pending_report None)
  /\ gives_up_after (Core.handle_search ["cats"] (logged_in "/h" "srv" "alice" 20))
       30 "Search timeout" id.
Proof.
  destruct (handler_timeouts (lib := concrete_library) calm ["00"; "bob"] None
              (logged_in "/h" "srv" "alice" 20)) as (_ & _ & Hreport & _).
  destruct (handler_timeouts (lib := concrete_library) calm ["cats"] None
              (logged_in "/h" "srv" "alice" 20)) as (_ & _ & _ & _ & Hsearch & _).
  split; assumption.
Defined.

(** C6 fails as stated: [handle_download] waits 30 seconds, not 300.  A
    reply that comes 100 seconds after the request finds the caller gone:
    the command has ended with the time-out error. *)
Lemma download_timeout_counterexample :
  let st := logged_in "/h" "srv" "alice" 100 in
  let b := Core.handle_download (lib := concrete_library) ["00"] st in
  timeout_of b <> Some 300%Z
  /\ List.last (Core.display
        (Core.run b (Some 100%Z)
           (Core.content_response (lib := concrete_library) calm forged_response)))
       (Core.Print "")
     = Core.PrintError "Download timeout".
Proof.
  intros st b. split.
  - intros Ht. vm_compute in Ht. discriminate Ht.
  - vm_compute. reflexivity.
Qed.

(** ** Reports *)

Section ReportFacts.
Import Core.
Context `{lib : Library}.

(** [handle_report] goes ahead exactly when the preconditions hold. *)
Lemma handle_report_cases (args : list string) (st : client) :
  (report_preconditions args st
   /\ exists content_hash reported rest,
        args = content_hash :: reported :: rest
        /\ handle_report args st
           = Wait ReportEvent 300
               (run_async (request_pow_challenge "report")
                  (set_report_box cleared
                     (set_pending_report (Some (content_hash, reported))
                        (if via_controller (cfg st) then st
                         else show (PrintInfo ("Your reputation: "
                                      ++ Py.str_of_Z (reputation (sess st))))
                                (show (PrintInfo ("Reported user: " ++ reported))
                                   (show (PrintInfo ("Hash: " ++ content_hash))
                                      (show (PrintSection "Content Report") st)))))))
               report_finish)
  \/ (~ report_preconditions args st
      /\ exists text, rejected_locally (handle_report args st) st text).
Proof.
  unfold handle_report.
  destruct (current_user (sess st)) as [user|] eqn:Huser.
  2:{ right. split.
      - intros (u & h & r & rest & Hu & _). congruence.
      - eexists. exists (show (PrintError "You need to be logged in to report content") st), [].
        repeat split. }
  destruct (String.eqb_spec user "") as [Hempty|Hnamed].
  { right. split.
    - intros (u & h & r & rest & Hu & Hne & _). congruence.
    - eexists. exists (show (PrintError "You need to be logged in to report content") st), [].
      repeat split. }
  destruct args as [|content_hash [|reported rest]].
  1,2: right; split;
    [ intros (u & h & r & rest' & _ & _ & Hargs & _); discriminate Hargs
    | eexists;
      exists (show (PrintError "Usage: report <content_hash> <reported_user>") st), [];
      repeat split ].
  destruct (String.eqb_spec reported user) as [Hself|Hother].
  { right. split.
    - intros (u & h & r & rest' & Hu & _ & Hargs & Hne & _).
      injection Hargs as <- <- <-. congruence.
    - eexists. exists (show (PrintError "You cannot report your own content") st), [].
      repeat split. }
  destruct (Z.ltb_spec (reputation (sess st)) 20) as [Hlow|Hhigh].
  { right. split.
    - intros (u & h & r & rest' & _ & _ & _ & _ & Hrep & _). lia.
    - eexists.
      exists (show (PrintError "Your reputation is too low to report content") st), [].
      repeat split. }
  assert (Hrows : forall s : client,
            (if via_controller (cfg st) then st else s) = st
            \/ via_controller (cfg st) = false) by (destruct (via_controller (cfg st)); auto).
  assert (Hreports :
    cli_reports (store (if via_controller (cfg st) then st
       else show (PrintInfo ("Your reputation: " ++ Py.str_of_Z (reputation (sess st))))
              (show (PrintInfo ("Reported user: " ++ reported))
                 (show (PrintInfo ("Hash: " ++ content_hash))
                    (show (PrintSection "Content Report") st)))))
    = cli_reports (store st)) by (destruct (via_controller (cfg st)); reflexivity).
  rewrite Hreports.
  destruct (Nat.ltb_spec 0 (count_reports user content_hash (cli_reports (store st))))
    as [Hdup|Hfresh].
  - right. split.
    + intros (u & h & r & rest' & Hu & _ & Hargs & _ & _ & Hcount).
      injection Hargs as <- <- <-. assert (u = user) by congruence. subst u. lia.
    + eexists. eexists.
      exists (if via_controller (cfg st) then []
              else [PrintSection "Content Report"; PrintInfo ("Hash: " ++ content_hash);
                    PrintInfo ("Reported user: " ++ reported);
                    PrintInfo ("Your reputation: " ++ Py.str_of_Z (reputation (sess st)))]).
      split; [reflexivity|].
      destruct (via_controller (cfg st)); cbn; repeat split.
      rewrite <- !List.app_assoc. reflexivity.
  - left. split.
    + exists user, content_hash, reported, rest. repeat split; try assumption; lia.
    + exists content_hash, reported, rest. split; reflexivity.
Qed.

(** A report of a content hash for which the caller already has a row
    is turned down, by the first guard that fails. *)
Lemma duplicate_report_rejected (st : client) (user content_hash reported : string)
    (rest : list string) :
  current_user (sess st) = Some user ->
  (0 < count_reports user content_hash (cli_reports (store st)))%nat ->
  rejected_locally (handle_report (content_hash :: reported :: rest) st) st
    (if String.eqb user "" then "You need to be logged in to report content"
     else if String.eqb reported user then "You cannot report your own content"
     else if (reputation (sess st) <? 20)%Z
          then "Your reputation is too low to report content"
          else "You have already reported this content").
Proof.
  intros Huser Hdup.
  unfold handle_report. rewrite Huser.
  destruct (String.eqb user "").
  { exists (show (PrintError "You need to be logged in to report content") st), [].
    repeat split. }
  destruct (String.eqb reported user).
  { exists (show (PrintError "You cannot report your own content") st), []. repeat split. }
  destruct (reputation (sess st) <? 20)%Z.
  { exists (show (PrintError "Your reputation is too low to report content") st), [].
    repeat split. }
  assert (Hreports : forall s : client, store s = store st ->
            Nat.ltb 0 (count_reports user content_hash (cli_reports (store s))) = true).
  { intros s ->. apply Nat.ltb_lt. exact Hdup. }
  destruct (via_controller (cfg st)); rewrite Hreports by reflexivity.
  + eexists. exists []. repeat split.
  + eexists.
    exists [PrintSection "Content Report"; PrintInfo ("Hash: " ++ content_hash);
            PrintInfo ("Reported user: " ++ reported);
            PrintInfo ("Your reputation: " ++ Py.str_of_Z (reputation (sess st)))].
    split; [reflexivity|]. cbn. repeat split.
    rewrite <- !List.app_assoc. reflexivity.
Qed.



(** Showing lines does not touch the disk. *)
Lemma fold_show_store {A : Type} (line : A -> out_line) (l : list A) (st : client) :
  store (List.fold_left (fun s x => show (line x) s) l st) = store st.
Proof.
  revert st. induction l as [|x l IH]; intros st; [reflexivity|].
  cbn [List.fold_left]. rewrite IH. reflexivity.
Qed.

(** Case analysis on a handler, down to its straight-line branches. *)
Ltac innermost_case :=
  match goal with
  | |- context [match ?x with _ => _ end] =>
      tryif (match x with context [match _ with _ => _ end] => idtac end)
      then fail
      else destruct x eqn:?
  end.

Ltac handler_cases :=
  repeat (cbn; rewrite ?fold_show_store; innermost_case);
  cbn; rewrite ?fold_show_store.

Ltac rows_kept :=
  handler_cases; first [reflexivity | apply prefix_app_r; reflexivity].

(** No socket handler removes or changes a row of [cli_reports]. *)
Lemma on_event_keeps_reports (e : event) (st : client) :
  cli_reports (store st) `prefix_of` cli_reports (store (on_event e st)).
Proof.
  destruct e; unfold on_event.
  - unfold disconnect. rows_kept.
  - unfold pow_challenge, handle_ban, send_authentication, _upload_file, _register_dns,
      _report_content. rows_kept.
  - unfold content_response, save_content_to_storage, report_to_user,
      show_unless_controller. rows_kept.
  - unfold publish_result, announce_result, report_to_user. rows_kept.
  - unfold dns_result, announce_result, report_to_user. rows_kept.
  - unfold report_result, announce_result, report_to_user. rows_kept.
  - unfold dns_resolution, report_to_user. rows_kept.
  - unfold search_results, report_to_user. rows_kept.
  - unfold network_state. rows_kept.
Qed.

Lemma run_async_keeps_reports (coro : client -> client) (st : client) :
  (forall s, cli_reports (store (coro s)) = cli_reports (store s)) ->
  cli_reports (store (run_async coro st)) = cli_reports (store st).
Proof.
  intros Hcoro. unfold run_async.
  destruct (negb (connected (sess st))); [reflexivity|].
  destruct (negb (loop_ready (sess st))); [reflexivity|]. apply Hcoro.
Qed.

Lemma request_pow_keeps_reports (a : string) (st : client) :
  cli_reports (store (run_async (request_pow_challenge a) st)) = cli_reports (store st).
Proof.
  apply run_async_keeps_reports. intros s. unfold request_pow_challenge.
  destruct (connected (sess s)); reflexivity.
Qed.

Ltac rows_same := handler_cases; reflexivity.

(** No command handler touches [cli_reports] before it blocks. *)
Lemma start_keeps_reports (c : command) (st : client) :
  cli_reports (store (match start c st with Done s => s | Wait _ _ s _ => s end))
  = cli_reports (store st).
Proof.
  destruct c; unfold start.
  - unfold handle_logout, run_async, sio_disconnect, disconnect, report_to_user. rows_same.
  - unfold handle_upload, upload_file, save_content_to_storage, run_async,
      request_pow_challenge. rows_same.
  - unfold handle_download, handle_network, handle_dns_resolve, run_async,
      _request_content_by_hash, _get_network_state, _resolve_dns, show_unless_controller.
    rows_same.
  - unfold handle_dns_register, run_async, request_pow_challenge. rows_same.
  - unfold handle_dns_resolve, _resolve_dns. rows_same.
  - unfold handle_search, _search_content. rows_same.
  - unfold handle_network, _get_network_state, show_unless_controller. rows_same.
  - unfold handle_report, run_async, request_pow_challenge. rows_same.
Qed.

(** Nor does the end of a command handler. *)
Lemma finish_keeps_reports (woke : bool) (st : client) :
  cli_reports (store (upload_finish woke st)) = cli_reports (store st)
  /\ cli_reports (store (dns_register_finish woke st)) = cli_reports (store st)
  /\ cli_reports (store (report_finish woke st)) = cli_reports (store st)
  /\ cli_reports (store (dns_resolve_finish woke st)) = cli_reports (store st)
  /\ cli_reports (store (search_finish woke st)) = cli_reports (store st)
  /\ cli_reports (store (network_finish woke st)) = cli_reports (store st)
  /\ forall p, cli_reports (store (download_finish p woke st)) = cli_reports (store st).
Proof.
  repeat split; [..|intros p];
    unfold upload_finish, dns_register_finish, report_finish, dns_resolve_finish,
      search_finish, network_finish, download_finish, report_to_user;
    rows_same.
Qed.

Lemma resume_keeps_reports (c : command) (st0 : client) (ev : event_name) (t : Z)
    (st1 : client) (k : bool -> client -> client) (woke : bool) (st : client) :
  start c st0 = Wait ev t st1 k ->
  cli_reports (store (k woke st)) = cli_reports (store st).
Proof.
  assert (Hnet : forall s, handle_network s = Wait ev t st1 k -> k = network_finish).
  { intros s. unfold handle_network.
    destruct (negb _); [discriminate|]. destruct (negb _); [discriminate|].
    intros Heq. injection Heq as _ _ _ <-. reflexivity. }
  assert (Hres : forall a cs s,
            handle_dns_resolve a cs s = Wait ev t st1 k -> k = dns_resolve_finish).
  { intros a cs s. unfold handle_dns_resolve.
    destruct (_ && _); [discriminate|]. destruct a; [discriminate|].
    destruct (negb _); [discriminate|]. destruct (negb _); [discriminate|].
    intros Heq. injection Heq as _ _ _ <-. reflexivity. }
  destruct (finish_keeps_reports woke st) as (Hup & Hreg & Hrep & Hdns & Hsearch & Hnetw & Hdown).
  destruct c; unfold start; intros Hstart.
  - discriminate Hstart.
  - assert (k = upload_finish) as ->; [|exact Hup].
    revert Hstart. unfold handle_upload, upload_file.
    repeat match goal with
           | |- context [match ?x with _ => _ end] => destruct x
           end; intros Heq; try discriminate Heq; injection Heq as _ _ _ <-; reflexivity.
  - assert (k = network_finish \/ k = dns_resolve_finish \/ exists p, k = download_finish p)
      as [->|[->|[p ->]]]; [|exact Hnetw|exact Hdns|exact (Hdown p)].
    revert Hstart. unfold handle_download.
    destruct (negb _); [discriminate|]. destruct args as [|target options]; [discriminate|].
    destruct (download_options options None) as [output_path|a]; [|discriminate].
    destruct (Py.startswith "hps://" target).
    + destruct (String.eqb target "hps://rede"); [intros Heq; left; exact (Hnet _ Heq)|].
      destruct (Py.startswith "hps://dns:" target);
        [intros Heq; right; left; exact (Hres _ _ _ Heq)|].
      intros Heq. injection Heq as _ _ _ <-. right. right. eauto.
    + intros Heq. injection Heq as _ _ _ <-. right. right. eauto.
  - assert (k = dns_register_finish) as ->; [|exact Hreg].
    revert Hstart. unfold handle_dns_register.
    destruct (negb _); [discriminate|].
    destruct args as [|arg0 [|content_hash rest]]; try discriminate.
    destruct (negb _); [discriminate|].
    intros Heq. injection Heq as _ _ _ <-. reflexivity.
  - rewrite (Hres _ _ _ Hstart). exact Hdns.
  - assert (k = search_finish) as ->; [|exact Hsearch].
    revert Hstart. unfold handle_search.
    destruct (negb _); [discriminate|]. destruct args as [|query options]; [discriminate|].
    destruct (search_options options "all" "reputation") as [[ct sb]|a]; [|discriminate].
    destruct (negb _); [discriminate|].
    intros Heq. injection Heq as _ _ _ <-. reflexivity.
  - rewrite (Hnet _ Hstart). exact Hnetw.
  - assert (k = report_finish) as ->; [|exact Hrep].
    destruct (handle_report_cases args st0)
      as [[_ (h & u & rest & _ & Hwait)]|[_ (text & s & lines & Hdone & _)]];
      [|congruence].
    rewrite Hwait in Hstart. injection Hstart as _ _ _ <-. reflexivity.
Qed.

(** Rows of [cli_reports] are never removed or changed by a move of the
    client, hence by no sequence of moves. *)
Lemma step_keeps_reports (st st' : client) :
  step st st' -> cli_reports (store st) `prefix_of` cli_reports (store st').
Proof.
  intros [e s|c s|c s0 ev t s1 k woke s Hstart].
  - apply on_event_keeps_reports.
  - rewrite start_keeps_reports. reflexivity.
  - rewrite (resume_keeps_reports _ _ _ _ _ _ woke s Hstart). reflexivity.
Qed.

Lemma steps_keep_reports (st st' : client) :
  rtc step st st' -> cli_reports (store st) `prefix_of` cli_reports (store st').
Proof.
  induction 1 as [s|s1 s2 s3 Hstep _ IH]; [reflexivity|].
  etransitivity; [apply step_keeps_reports; exact Hstep|exact IH].
Qed.

Lemma count_reports_app (user content_hash : string) (rows new : list report_row) :
  count_reports user content_hash (rows ++ new)
  = (count_reports user content_hash rows + count_reports user content_hash new)%nat.
Proof. unfold count_reports. rewrite List.filter_app, List.length_app. reflexivity. Qed.

(** When [_report_content] sends the event, it has inserted the row. *)
Lemma report_content_inserts (o : oracle) (content_hash reported nonce : string)
    (st : client) :
  effects (_report_content o content_hash reported nonce st) <> effects st ->
  exists reporter row,
    current_user (sess st) = Some reporter
    /\ cli_reports (store (_report_content o content_hash reported nonce st))
       = (cli_reports (store st) ++ [row])%list
    /\ reporter_user row = reporter /\ rep_content_hash row = content_hash
    /\ reported_user row = reported /\ rep_status row = "pending"
    /\ effects (_report_content o content_hash reported nonce st)
       = (effects st ++
          [EmitReportContent content_hash reported (Some reporter) nonce (hashrate o)])%list.
Proof.
  unfold _report_content. intros Hsent.
  destruct (negb (connected (sess st))); [contradiction Hsent; reflexivity|].
  destruct (current_user (sess st)) as [reporter|]; [|contradiction Hsent; reflexivity].
  destruct (existsb _ _); [contradiction Hsent; reflexivity|].
  eexists reporter, _. repeat split.
Qed.

(** C10. [_report_content] inserts the [pending] row of the reporter
    for the content hash before it sends [report_content]; no move of the
    client (socket handlers, [report_result] among them, and command
    handlers) removes or changes a row of [cli_reports]; so once a report
    has been sent, every later [handle_report] by the same reporter for
    the same content hash is turned down on the spot, whatever the server
    answered and whether it answered at all (as a duplicate, unless an
    earlier guard of the handler already fails). *)
Theorem report_guard_is_permanent (o : oracle) (content_hash reported nonce : string)
    (st : client) :
  let sent := _report_content o content_hash reported nonce st in
  (effects sent <> effects st ->
   exists reporter row,
     current_user (sess st) = Some reporter
     /\ cli_reports (store sent) = (cli_reports (store st) ++ [row])%list
     /\ reporter_user row = reporter /\ rep_content_hash row = content_hash
     /\ rep_status row = "pending"
     /\ effects sent
        = (effects st ++
           [EmitReportContent content_hash reported (Some reporter) nonce (hashrate o)])%list)
  /\ (forall st1 st2, rtc step st1 st2 ->
        cli_reports (store st1) `prefix_of` cli_reports (store st2))
  /\ (forall data s, cli_reports (store (report_result data s)) = cli_reports (store s))
  /\ (effects sent <> effects st ->
      forall reporter later other rest,
        current_user (sess st) = Some reporter ->
        rtc step sent later ->
        current_user (sess later) = Some reporter ->
        rejected_locally (handle_report (content_hash :: other :: rest) later) later
          (if String.eqb reporter "" then "You need to be logged in to report content"
           else if String.eqb other reporter then "You cannot report your own content"
           else if (reputation (sess later) <? 20)%Z
                then "Your reputation is too low to report content"
                else "You have already reported this content")).
Proof.
  intros sent. subst sent. split; [|split; [|split]].
  - intros Hsent.
    destruct (report_content_inserts _ _ _ _ _ Hsent)
      as (reporter & row & Hu & Hrows & Hr & Hh & _ & Hs & Heff).
    exists reporter, row. repeat split; assumption.
  - exact steps_keep_reports.
  - intros data s. unfold report_result, announce_result, report_to_user. rows_same.
  - intros Hsent reporter later other rest Huser Hsteps Hlater.
    destruct (report_content_inserts _ _ _ _ _ Hsent)
      as (reporter' & row & Hu & Hrows & Hr & Hh & _ & _ & _).
    assert (Hsame : reporter' = reporter) by congruence. rewrite Hsame in Hr. clear Hsame Hu.
    apply duplicate_report_rejected; [exact Hlater|].
    apply steps_keep_reports in Hsteps as (new & Hnew).
    rewrite Hnew, Hrows, !count_reports_app.
    assert (Hone : count_reports reporter content_hash [row] = 1%nat).
    { unfold count_reports. cbn [List.filter]. rewrite Hr, Hh, !String.eqb_refl. reflexivity. }
    rewrite Hone. lia.
Qed.

End ReportFacts.

(** ** A report, from the command to the answer of the server *)

Example first_report_is_sent :
  Core.effects (first_report accepted)
  = [Core.EmitRequestPow "client-1" "report";
     Core.EmitReportContent "00" "bob" (Some "alice") "7" 5000]
  /\ List.map (fun r => (Core.reporter_user r, Core.rep_content_hash r, Core.rep_status r))
       (Core.cli_reports (Core.store (first_report accepted)))
     = [("alice", "00", "pending")]
  /\ List.last (Core.display (first_report accepted)) (Core.Print "")
     = Core.PrintSuccess "Content reported successfully!".
Proof. vm_compute. repeat split; reflexivity. Qed.

(** The second of two reports in a row is turned down, whether the
    server accepted the first one or not; nothing more is sent. *)
Example second_report_is_rejected :
  forall answer, answer = accepted \/ answer = refused ->
  exists st',
    Core.handle_report ["00"; "bob"] (first_report answer) = Core.Done st'
    /\ List.last (Core.display st') (Core.Print "")
       = Core.PrintError "You have already reported this content"
    /\ Core.effects st' = Core.effects (first_report answer)
    /\ Core.pending_report (Core.pend st') = None.
Proof.
  intros answer [->| ->]; eexists; (split; [vm_compute; reflexivity|]);
    vm_compute; repeat split; reflexivity.
Qed.

Example reputation_boundary :
  timeout_of (Core.handle_report ["00"; "bob"] (logged_in "/h" "srv" "alice" 20))
  = Some 300%Z
  /\ Core.handle_report ["00"; "bob"] (logged_in "/h" "srv" "alice" 19)
     = Core.Done (Core.show (Core.PrintError "Your reputation is too low to report content")
                    (logged_in "/h" "srv" "alice" 19)).
Proof. vm_compute. split; reflexivity. Qed.


(** The state right after the report has been sent, and a later state:
    the server has refused the report. *)
Lemma report_guard_is_permanent_witness :
  let st := Core.set_pending_report (Some ("00", "bob")) (logged_in "/h" "srv" "alice" 20) in
  let sent := Core._report_content calm "00" "bob" "7" st in
  let later := Core.report_result refused sent in
  Core.rejected_locally (Core.handle_report ["00"; "carol"] later) later
    "You have already reported this content".
Proof.
  intros st sent later.
  destruct (report_guard_is_permanent (lib := concrete_library) calm "00" "bob" "7" st)
    as (_ & _ & _ & Hlater).
  apply (Hlater ltac:(discriminate) "alice" later "carol" []).
  - reflexivity.
  - apply rtc_once. apply (Core.step_event (Core.EvReportResult refused)).
  - reflexivity.
Defined.

(* ===================================================================== *)
(** * Further properties of the code *)
(* ===================================================================== *)

(** ** Strings *)

Section StringFacts.

Lemma append_assoc (a b c : string) : (a ++ b) ++ c = a ++ b ++ c.
Proof.
  induction a as [|x a IH]; [reflexivity|].
  change (String x ((a ++ b) ++ c) = String x (a ++ b ++ c)). f_equal. exact IH.
Qed.

Lemma append_empty_r (a : string) : a ++ "" = a.
Proof.
  induction a as [|x a IH]; [reflexivity|].
  change (String x (a ++ "") = String x a). f_equal. exact IH.
Qed.

Lemma append_cons (x : ascii) (a b : string) : String x a ++ b = String x (a ++ b).
Proof. reflexivity. Qed.

Lemma append_snoc_cons (cur : string) (c : ascii) (s : string) :
  (cur ++ String c "") ++ s = cur ++ String c s.
Proof. rewrite append_assoc. reflexivity. Qed.







(** A line without line break, followed by a line feed, is read as one
    line. *)
Lemma readlines_aux_line (s : string) : forall cur rest,
  no_linebreak s = true ->
  Py.readlines_aux cur (s ++ Controller.nl ++ rest)
  = (cur ++ s ++ Controller.nl) :: Py.readlines_aux "" rest.
Proof.
  induction s as [|c s IH]; intros cur rest Hs; [reflexivity|].
  cbn [no_linebreak] in Hs. apply andb_true_iff in Hs as [Hc Hs].
  apply andb_true_iff in Hc as [Hlf Hcr].
  apply negb_true_iff in Hlf, Hcr.
  rewrite append_cons. cbn [Py.readlines_aux]. rewrite Hlf, Hcr.
  rewrite (IH _ _ Hs), append_snoc_cons. reflexivity.
Qed.

Lemma rstrip_line (s : string) : Py.rstrip (s ++ Controller.nl) = Py.rstrip s.
Proof.
  induction s as [|c s IH]; [reflexivity|].
  rewrite append_cons. cbn [Py.rstrip]. rewrite IH. reflexivity.
Qed.

(** The line feed that ends a line is removed by [strip]. *)
Lemma strip_line (s : string) : Py.strip (s ++ Controller.nl) = Py.strip s.
Proof.
  unfold Py.strip. induction s as [|c s IH]; [reflexivity|].
  rewrite append_cons. cbn [Py.lstrip]. destruct (Py.is_space c); [exact IH|].
  rewrite <- append_cons. apply rstrip_line.
Qed.

Lemma rstrip_append_keep (a b : string) :
  Py.rstrip b = b -> b <> "" -> Py.rstrip (a ++ b) = a ++ b.
Proof.
  intros Hb Hne. induction a as [|x a IH]; [exact Hb|].
  rewrite append_cons. cbn [Py.rstrip]. rewrite IH.
  destruct (a ++ b) eqn:Hab; [|reflexivity].
  destruct a; [contradiction|discriminate].
Qed.

Lemma startswith_append (p s : string) : Py.startswith p (p ++ s) = true.
Proof.
  induction p as [|x p IH]; [reflexivity|].
  rewrite append_cons.
  change (Py.startswith (String x p) (String x (p ++ s)))
    with (if Ascii.eqb x x then Py.startswith p (p ++ s) else false).
  rewrite Ascii.eqb_refl. exact IH.
Qed.

(** [os.path.join] with a relative second component. *)
Lemma path_join_relative (a b : string) :
  Py.startswith "/" b = false ->
  Py.path_join a b = a ++ b \/ Py.path_join a b = a ++ "/" ++ b.
Proof.
  intros Hb. unfold Py.path_join. rewrite Hb.
  destruct (String.eqb a "" || Py.ends_with_slash a); [left|right]; reflexivity.
Qed.

Lemma path_join_dir (a : string) (c : ascii) (s b : string) :
  Py.ends_with_slash (String c s) = false ->
  Py.startswith "/" b = false ->
  Py.path_join (a ++ String c s) b = (a ++ String c s) ++ "/" ++ b.
Proof.
  intros Hs Hb. unfold Py.path_join. rewrite Hb, ends_with_slash_append, Hs.
  destruct (String.eqb_spec (a ++ String c s) "") as [He|_]; [|reflexivity].
  destruct (append_cons_not_empty _ _ _ He).
Qed.

End StringFacts.

(** ** The controller bridge *)

Section BridgeFacts.
Import Controller.



(** The controller directory is [home] followed by the directory name. *)
Lemma controller_dir_shape (home : string) :
  exists p, controller_dir home = (home ++ p) ++ ".hps_cli".
Proof.
  unfold controller_dir.
  destruct (path_join_relative home ".hps_cli" eq_refl) as [-> | ->].
  - exists "". rewrite append_empty_r. reflexivity.
  - exists "/". rewrite append_assoc. reflexivity.
Qed.

Lemma controller_file_shape (home : string) :
  controller_file home = controller_dir home ++ "/controller_hpscli".
Proof.
  unfold controller_file. destruct (controller_dir_shape home) as [p ->].
  apply path_join_dir; reflexivity.
Qed.

Lemma logs_dir_shape (home : string) :
  logs_dir home = (controller_dir home ++ "/") ++ "logs".
Proof.
  unfold logs_dir. destruct (controller_dir_shape home) as [p ->].
  rewrite path_join_dir by reflexivity. rewrite !append_assoc. reflexivity.
Qed.

Lemma log_path_shape (home command_id : string) :
  Py.startswith "/" command_id = false ->
  log_path home command_id = logs_dir home ++ "/" ++ command_id ++ ".log".
Proof.
  intros Hid. unfold log_path. rewrite logs_dir_shape.
  apply path_join_dir; [reflexivity|].
  destruct command_id; [reflexivity|exact Hid].
Qed.

(** The log of a command is a file of its own. *)
Lemma log_path_not_controller (home command_id : string) :
  Py.startswith "/" command_id = false ->
  controller_file home <> log_path home command_id.
Proof.
  intros Hid Heq. rewrite (log_path_shape _ _ Hid), logs_dir_shape in Heq.
  rewrite controller_file_shape, !append_assoc in Heq.
  apply append_inv_head in Heq.
  apply (f_equal (String.get 1)) in Heq. cbv in Heq. discriminate.
Qed.

(** The path of a log is read from the controller file as it was written. *)
Lemma strip_log_path (home command_id : string) :
  Py.startswith "/" home = true ->
  Py.startswith "/" command_id = false ->
  Py.strip (log_path home command_id) = log_path home command_id.
Proof.
  intros Hhome Hid. rewrite (log_path_shape _ _ Hid), logs_dir_shape.
  destruct (controller_dir_shape home) as [p ->].
  destruct home as [|h home]; [discriminate|].
  change (Py.startswith "/" (String h home))
    with (if Ascii.eqb "/" h then true else false) in Hhome.
  destruct (Ascii.eqb_spec "/" h) as [<-|]; [|discriminate].
  unfold Py.strip. rewrite !append_cons. cbn [Py.lstrip].
  change (Py.is_space "/") with false. cbv iota.
  rewrite <- !append_cons, <- !append_assoc.
  apply rstrip_append_keep; [reflexivity|discriminate].
Qed.

(** What [_read_log_file] finds after [_write_log_status] and
    [_append_log_result] have written three lines. *)
Lemma log_lines_read (log_file status message result : string) (fs : filesystem) :
  message <> "" ->
  no_linebreak status = true -> no_linebreak message = true ->
  no_linebreak result = true ->
  _read_log_file log_file
    (_append_log_result log_file result (_write_log_status log_file status message fs))
  = Some (LogData (Py.strip status) (Py.strip message) (Py.strip result)).
Proof.
  intros Hne Hs Hm Hr.
  unfold _read_log_file, _append_log_result, _write_log_status.
  rewrite !lookup_insert_eq. cbn [from_option id].
  apply String.eqb_neq in Hne. rewrite Hne.
  unfold Py.readlines.
  rewrite !append_assoc.
  rewrite (readlines_aux_line _ _ _ Hs), (readlines_aux_line _ _ _ Hm).
  rewrite <- (append_empty_r nl) at 3.
  rewrite (readlines_aux_line _ _ _ Hr).
  change ("" ++ ?x) with x.
  cbn [Py.readlines_aux]. rewrite !strip_line. reflexivity.
Qed.

(** X2. The three lines of a log survive the round trip through the
    file: when the message is not empty and neither field holds a line
    break, [_read_log_file] returns the status, the message and the
    terminal indicator that [_write_log_status] and [_append_log_result]
    wrote (each stripped), whatever the file held before. *)
Theorem log_file_round_trip (log_file status message result : string)
    (fs : filesystem) :
  message <> "" ->
  no_linebreak status = true -> no_linebreak message = true ->
  no_linebreak result = true ->
  let written :=
    _append_log_result log_file result (_write_log_status log_file status message fs) in
  _read_log_file log_file written
  = Some (LogData (Py.strip status) (Py.strip message) (Py.strip result))
  /\ (forall other, other <> log_file -> written !! other = fs !! other).
Proof.
  intros Hne Hs Hm Hr written. split.
  - apply log_lines_read; assumption.
  - intros other Hother. unfold written, _append_log_result, _write_log_status.
    rewrite !lookup_insert_ne by congruence. reflexivity.
Qed.

Lemma log_file_round_trip_witness :
  let written :=
    _append_log_result "/l/u1.log" "1"
      (_write_log_status "/l/u1.log" "1" " Sync completed " {["/l/u1.log" := "stale"]}) in
  _read_log_file "/l/u1.log" written = Some (LogData "1" "Sync completed" "1")
  /\ (forall other, other <> "/l/u1.log" ->
      written !! other = ({["/l/u1.log" := "stale"]} : filesystem) !! other).
Proof.
  apply (log_file_round_trip "/l/u1.log" "1" " Sync completed " "1"
           {["/l/u1.log" := "stale"]});
    [discriminate | reflexivity | reflexivity | reflexivity].
Defined.

(** The exchange up to the log: the watcher accepts the text and runs
    it, and the sender finds the log that the watcher has written. *)
Lemma bridge_reaches_log (home command_id text : string)
    (handlers : handler_table) (fs0 : filesystem) (later : list filesystem) :
  Py.startswith "/" home = true ->
  Py.startswith "/" command_id = false ->
  Py.strip text <> "" ->
  Py.startswith (logs_dir home) (Py.strip text) = false ->
  let r := fst (_execute_controller_command handlers (Py.strip text)) in
  let flag := if success r then "1" else "0" in
  let fs1 := monitor_round home handlers command_id (write_controller_file home text fs0) in
  fs1 = _append_log_result (log_path home command_id) flag
          (_write_log_status (log_path home command_id) flag (output r)
             (_write_log_status (log_path home command_id) "1" "Command execution started"
                (write_controller_file home (log_path home command_id)
                   (write_controller_file home text fs0))))
  /\ send_command home [fs1] fs1 (fs1 :: later)
     = poll_log (log_path home command_id) (fs1 :: later).
Proof.
  intros Hhome Hid Htext Hlogs r flag fs1.
  pose proof (log_path_not_controller home command_id Hid) as Hdiff.
  pose proof (strip_log_path home command_id Hhome Hid) as Hstrip.
  assert (Hunder : Py.startswith (logs_dir home) (log_path home command_id) = true).
  { rewrite (log_path_shape _ _ Hid). apply startswith_append. }
  assert (Hpath : String.eqb (log_path home command_id) "" = false).
  { apply String.eqb_neq. rewrite (log_path_shape _ _ Hid), logs_dir_shape.
    intros He. apply (f_equal String.length) in He. rewrite !append_length in He.
    cbn in He. lia. }
  assert (Hfs1 : fs1 =
    _append_log_result (log_path home command_id) flag
      (_write_log_status (log_path home command_id) flag (output r)
         (_write_log_status (log_path home command_id) "1" "Command execution started"
            (write_controller_file home (log_path home command_id)
               (write_controller_file home text fs0))))).
  { assert (Hread : read_controller_file home (write_controller_file home text fs0)
                    = Py.strip text).
    { unfold read_controller_file, write_controller_file.
      rewrite lookup_insert_eq. reflexivity. }
    unfold fs1, monitor_round. rewrite Hread.
    apply String.eqb_neq in Htext. rewrite Htext, Hlogs. cbn [negb andb].
    unfold _execute_command_with_log, flag. fold r. destruct (success r); reflexivity. }
  split; [exact Hfs1|].
  assert (Hctl : fs1 !! controller_file home = Some (log_path home command_id)).
  { rewrite Hfs1. unfold _append_log_result, _write_log_status, write_controller_file.
    rewrite !lookup_insert_ne by (intros He; apply Hdiff; symmetry; exact He).
    apply lookup_insert_eq. }
  assert (Hsome : exists text', fs1 !! log_path home command_id = Some text').
  { rewrite Hfs1. unfold _append_log_result. rewrite lookup_insert_eq. eauto. }
  destruct Hsome as [text' Hsome].
  unfold send_command. cbn [poll_controller]. rewrite Hctl.
  unfold read_controller_file. rewrite Hctl, Hstrip, Hunder, Hpath, Hsome. reflexivity.
Qed.

(** X3. The controller bridge end to end.  The sender writes a command
    text; the watcher, on its next round, accepts it under a fresh
    identifier and executes it; the sender then polls.  When the text is
    not blank and is not itself a path under the logs directory, and the
    output of the command is one non-empty line, the sender receives the
    success flag of the command and its output.  (The home directory is
    an absolute path and the identifier does not begin with a slash.) *)
Theorem controller_bridge_delivers (home command_id text : string)
    (handlers : handler_table) (fs0 : filesystem) (later : list filesystem) :
  Py.startswith "/" home = true ->
  Py.startswith "/" command_id = false ->
  Py.strip text <> "" ->
  Py.startswith (logs_dir home) (Py.strip text) = false ->
  let r := fst (_execute_controller_command handlers (Py.strip text)) in
  output r <> "" ->
  no_linebreak (output r) = true ->
  let fs1 := monitor_round home handlers command_id (write_controller_file home text fs0) in
  send_command home [fs1] fs1 (fs1 :: later)
  = (success r,
     or_else (Py.strip (output r))
       (if success r then "Command executed successfully"
        else "Command failed immediately")).
Proof.
  intros Hhome Hid Htext Hlogs r Hout Hline fs1.
  destruct (bridge_reaches_log home command_id text handlers fs0 later Hhome Hid Htext Hlogs)
    as [Hfs1 Hsend].
  fold r in Hfs1. fold fs1 in Hfs1, Hsend. rewrite Hsend.
  assert (Hlog : _read_log_file (log_path home command_id) fs1
                 = Some (LogData (if success r then "1" else "0") (Py.strip (output r))
                           (if success r then "1" else "0"))).
  { rewrite Hfs1, log_lines_read; [destruct (success r); reflexivity | exact Hout | | exact Hline |];
      destruct (success r); reflexivity. }
  cbn [poll_log]. rewrite Hlog. cbn [status result message].
  destruct (success r); reflexivity.
Qed.

(** X24. Output of more than one line loses the success flag.  In the
    same exchange, when the command succeeds and its output consists of
    two non-empty lines, the reader of the log takes the second line of
    the output for the terminal indicator: unless that line reads [1],
    the sender is told that the command failed, with the first line as
    the message. *)
Theorem controller_bridge_two_lines (home command_id text first second : string)
    (handlers : handler_table) (fs0 : filesystem) (later : list filesystem) :
  Py.startswith "/" home = true ->
  Py.startswith "/" command_id = false ->
  Py.strip text <> "" ->
  Py.startswith (logs_dir home) (Py.strip text) = false ->
  let r := fst (_execute_controller_command handlers (Py.strip text)) in
  success r = true ->
  output r = first ++ nl ++ second ->
  first <> "" -> no_linebreak first = true -> no_linebreak second = true ->
  Py.strip second <> "" -> Py.strip second <> "1" ->
  let fs1 := monitor_round home handlers command_id (write_controller_file home text fs0) in
  send_command home [fs1] fs1 (fs1 :: later)
  = (false, or_else (Py.strip first) "Command failed").
Proof.
  intros Hhome Hid Htext Hlogs r Hok Hout Hfirst Hl1 Hl2 Hsecond Hnot1 fs1.
  destruct (bridge_reaches_log home command_id text handlers fs0 later Hhome Hid Htext Hlogs)
    as [Hfs1 Hsend].
  fold r in Hfs1. fold fs1 in Hfs1, Hsend. rewrite Hsend.
  rewrite Hok, Hout in Hfs1.
  assert (Hlog : _read_log_file (log_path home command_id) fs1
                 = Some (LogData "1" (Py.strip first) (Py.strip second))).
  { rewrite Hfs1. unfold _read_log_file, _append_log_result, _write_log_status.
    rewrite !lookup_insert_eq. cbn [from_option id].
    assert (Hne : String.eqb (first ++ nl ++ second) "" = false).
    { apply String.eqb_neq. destruct first; [contradiction|discriminate]. }
    rewrite Hne. unfold Py.readlines. rewrite !append_assoc.
    rewrite (readlines_aux_line "1") by reflexivity.
    rewrite (readlines_aux_line _ _ _ Hl1), (readlines_aux_line _ _ _ Hl2).
    change ("" ++ ?x) with x. rewrite !strip_line. reflexivity. }
  cbn [poll_log]. rewrite Hlog. cbn [status result message].
  apply String.eqb_neq in Hsecond, Hnot1.
  change (String.eqb "1" "1") with true. rewrite Hsecond, Hnot1. reflexivity.
Qed.

Lemma controller_bridge_delivers_witness :
  let fs1 := monitor_round "/home/u" sample_handlers "6f1c"
               (write_controller_file "/home/u" " sync now " ∅) in
  send_command "/home/u" [fs1] fs1 [fs1] = (true, "Sync completed").
Proof.
  apply (controller_bridge_delivers "/home/u" "6f1c" " sync now " sample_handlers ∅ []);
    first [reflexivity | discriminate].
Defined.

Lemma controller_bridge_two_lines_witness :
  let fs1 := monitor_round "/home/u" sample_handlers "6f1c"
               (write_controller_file "/home/u" "network" ∅) in
  send_command "/home/u" [fs1] fs1 [fs1] = (false, "Online nodes: 3").
Proof.
  apply (controller_bridge_two_lines "/home/u" "6f1c" "network" "Online nodes: 3"
           "Total content: 7" sample_handlers ∅ []);
    first [reflexivity | discriminate].
Defined.

(** X22. The watcher runs a command once.  A round of the watcher that
    accepts a command leaves the path of its log in the controller file,
    and a path under the logs directory is never taken for a command: a
    second round on the same file changes nothing, whatever identifier it
    would have used. *)
Theorem watcher_runs_command_once (home command_id next_id : string)
    (handlers : handler_table) (fs : filesystem) :
  Py.startswith "/" home = true ->
  Py.startswith "/" command_id = false ->
  monitor_round home handlers next_id (monitor_round home handlers command_id fs)
  = monitor_round home handlers command_id fs.
Proof.
  intros Hhome Hid.
  pose proof (log_path_not_controller home command_id Hid) as Hdiff.
  pose proof (strip_log_path home command_id Hhome Hid) as Hstrip.
  assert (Hunder : Py.startswith (logs_dir home) (log_path home command_id) = true).
  { rewrite (log_path_shape _ _ Hid). apply startswith_append. }
  unfold monitor_round at 2 3.
  destruct (negb (String.eqb (read_controller_file home fs) "")
            && negb (Py.startswith (logs_dir home) (read_controller_file home fs)))
    eqn:Haccept.
  - set (fs1 := _execute_command_with_log _ _ _ _).
    assert (Hctl : fs1 !! controller_file home = Some (log_path home command_id)).
    { unfold fs1, _execute_command_with_log, _append_log_result, _write_log_status,
        write_controller_file.
      destruct (success _);
        rewrite !lookup_insert_ne by (intros He; apply Hdiff; symmetry; exact He);
        apply lookup_insert_eq. }
    unfold monitor_round, read_controller_file. rewrite Hctl, Hstrip, Hunder.
    rewrite andb_false_r. reflexivity.
  - unfold monitor_round. rewrite Haccept. reflexivity.
Qed.

Lemma watcher_runs_command_once_witness :
  monitor_round "/home/u" sample_handlers "77aa"
    (monitor_round "/home/u" sample_handlers "6f1c"
       (write_controller_file "/home/u" "sync" ∅))
  = monitor_round "/home/u" sample_handlers "6f1c"
      (write_controller_file "/home/u" "sync" ∅).
Proof.
  apply (watcher_runs_command_once "/home/u" "6f1c" "77aa" sample_handlers
           (write_controller_file "/home/u" "sync" ∅)); reflexivity.
Defined.

End BridgeFacts.

(** Case analysis on the innermost scrutinee of the goal. *)
Ltac innermost_scrutinee :=
  match goal with
  | |- context [match ?x with _ => _ end] =>
      tryif (match x with context [match _ with _ => _ end] => idtac end)
      then fail
      else destruct x eqn:?
  end.

Ltac all_cases := repeat (cbn; innermost_scrutinee); cbn.

(** Comparisons of string constants are decided. *)
Ltac decide_constants :=
  repeat match goal with
         | |- context [String.eqb ?a ?b] =>
             let v := eval vm_compute in (String.eqb a b) in
             match v with
             | true => change (String.eqb a b) with true
             | false => change (String.eqb a b) with false
             end
         end.

(** The lines that a handler has shown before its last one. *)
Ltac lines_before_last :=
  rewrite <- ?app_assoc;
  first [ exists []; reflexivity
        | eexists [_]; reflexivity
        | eexists [_; _]; reflexivity
        | eexists [_; _; _]; reflexivity
        | eexists [_; _; _; _]; reflexivity
        | eexists [_; _; _; _; _]; reflexivity
        | eexists [_; _; _; _; _; _]; reflexivity
        | eexists [_; _; _; _; _; _; _]; reflexivity
        | eexists [_; _; _; _; _; _; _; _]; reflexivity
        | eexists [_; _; _; _; _; _; _; _; _]; reflexivity ].

(** ** The miner *)

Section MinerFacts.
Import PoW.

Lemma be_bytes_length (n : nat) (z : Z) : List.length (SHA256.be_bytes n z) = n.
Proof. induction n as [|n IH]; [reflexivity|]. cbn [SHA256.be_bytes List.length]. lia. Qed.

(** A digest has 32 bytes. *)
Lemma digest_length (msg : bytes) : List.length (SHA256.digest msg) = 32%nat.
Proof.
  unfold SHA256.digest, SHA256.output. rewrite !length_app, !be_bytes_length. reflexivity.
Qed.

Lemma clz_byte_bound (b : byte) : (count_leading_zeros (bits_of_byte b) <= 8)%nat.
Proof. destruct b; vm_compute; repeat constructor. Qed.

Lemma clz_bound (h : bytes) :
  (count_leading_zeros (bits_of_bytes h) <= 8 * List.length h)%nat.
Proof.
  induction h as [|b rest IH]; [cbn; lia|].
  rewrite bits_of_bytes_cons. cbn [List.length].
  destruct (N.eq_dec (Byte.to_N b) 0%N) as [Hz|Hnz].
  - rewrite (clz_zero_byte _ _ Hz). lia.
  - rewrite (clz_nonzero_byte _ _ Hnz). pose proof (clz_byte_bound b). lia.
Qed.

(** No nonce meets a target above the length of a digest. *)
Lemma pow_ok_at_most_256 (cb : bytes) (t : Z) (n : N) : pow_ok cb t n -> (t <= 256)%Z.
Proof.
  intros (packed & _ & Hle).
  pose proof (clz_bound (SHA256.digest (cb ++ packed)%list)) as Hb.
  rewrite digest_length in Hb. lia.
Qed.

(** Without a solution the loop uses its whole budget. *)
Lemma mine_exhausts (fuel : nat) (cb : bytes) (t : Z) : forall start th,
  (forall m, ~ pow_ok cb t m) ->
  (start + N.of_nat fuel <= 2 ^ 64)%N ->
  mine fuel cb t start th = (None, (th + N.of_nat fuel)%N).
Proof.
  induction fuel as [|fuel IH]; intros start th Hnone Hfit.
  - cbn [mine]. f_equal. lia.
  - cbn [mine]. unfold pack_Q at 1.
    destruct (N.ltb_spec start (2 ^ 64)) as [Hlt|Hge]; [|lia].
    rewrite leading_zero_bits_spec.
    destruct (Z.leb_spec t (Z.of_nat (count_leading_zeros (bits_of_bytes
                (SHA256.digest (cb ++ SHA256.be_bytes 8 (Z.of_N start))%list)))))
      as [Hle|Hgt].
    + exfalso. apply (Hnone start). exists (SHA256.be_bytes 8 (Z.of_N start)).
      split; [|exact Hle]. unfold pack_Q.
      destruct (N.ltb_spec start (2 ^ 64)); [reflexivity|lia].
    + rewrite IH by (assumption || lia). f_equal. lia.
Qed.

Context `{lib : Library}.

(** What an idle solver leaves when the event is set. *)
Lemma solved_means_valid (fuel : nat) (challenge : option string) (target_bits : option Z)
    (s : solver) :
  is_solving s = false ->
  wait_for_solution (solve_challenge fuel challenge target_bits s) = true ->
  exists cb bits n,
    challenge ≫= b64decode = Some cb /\ target_bits = Some bits
    /\ nonce_solution (solve_challenge fuel challenge target_bits s) = Some (Py.str_of_N n)
    /\ pow_ok cb bits n.
Proof.
  intros Hidle. unfold solve_challenge. rewrite Hidle.
  destruct (challenge ≫= b64decode) as [cb|]; [|discriminate].
  destruct target_bits as [bits|]; [|discriminate].
  destruct (mine fuel cb bits 0 0) as [[n|] th'] eqn:Hm; [|discriminate].
  intros _. apply mine_sound in Hm as (_ & Hok & _).
  exists cb, bits, n. repeat split. exact Hok.
Qed.

(** X4. The miner finds a solution that exists within its budget.  On an
    idle solver, when the challenge decodes and some nonce [m] below the
    number of attempts allowed meets the target, [solve_challenge] sets
    the event and leaves the least valid nonce; the hash counter is that
    nonce plus one, and the solver is idle again. *)
Theorem solver_finds_existing_solution (fuel : nat) (challenge : string) (cb : bytes)
    (bits : Z) (m : N) (s : solver) :
  is_solving s = false ->
  b64decode challenge = Some cb ->
  pow_ok cb bits m ->
  (N.to_nat m < fuel)%nat ->
  let s' := solve_challenge fuel (Some challenge) (Some bits) s in
  exists n,
    (n <= m)%N /\ pow_ok cb bits n
    /\ (forall k, pow_ok cb bits k -> (n <= k)%N)
    /\ nonce_solution s' = Some (Py.str_of_N n)
    /\ wait_for_solution s' = true
    /\ total_hashes s' = (n + 1)%N
    /\ is_solving s' = false.
Proof.
  intros Hidle Hdec Hok Hfuel. unfold solve_challenge. rewrite Hidle.
  cbn [mbind option_bind]. rewrite Hdec.
  destruct (mine_complete fuel cb bits 0 0 m Hok) as (n & th' & Hm); [lia|lia|].
  rewrite Hm. apply mine_sound in Hm as (_ & Hokn & Hth & Hmin).
  exists n. cbn. repeat split.
  - apply Hmin; [lia|exact Hok].
  - exact Hokn.
  - intros k Hk. apply Hmin; [lia|exact Hk].
  - rewrite Hth. lia.
Qed.

(** X5. A target above 256 bits is out of reach: a digest has 256 bits.
    On an idle solver [solve_challenge] then leaves no nonce and does not
    set the event, and when the challenge decodes it has hashed once for
    every attempt it was allowed.  [pow_challenge] on such a challenge
    shows that the solution failed, sends nothing and keeps the pending
    contexts and the counters. *)
Theorem unreachable_target_fails (o : Core.oracle) (data : Core.pow_data)
    (bits : Z) (st : Core.client) :
  is_solving (Core.pow_solver st) = false ->
  Core.pd_error data = None ->
  Core.pd_target_bits data = Some bits ->
  (256 < bits)%Z ->
  let s' := solve_challenge (Core.pow_fuel o) (Core.pd_challenge data) (Some bits)
              (Core.pow_solver st) in
  let st' := Core.pow_challenge o data st in
  nonce_solution s' = None /\ wait_for_solution s' = false
  /\ (forall cb, Core.pd_challenge data ≫= b64decode = Some cb ->
      (N.of_nat (Core.pow_fuel o) <= 2 ^ 64)%N ->
      total_hashes s' = N.of_nat (Core.pow_fuel o))
  /\ Core.effects st' = Core.effects st
  /\ Core.pend st' = Core.pend st
  /\ Core.stats_data st' = Core.stats_data st
  /\ Core.display st'
     = (Core.display st ++
        [Core.PrintInfo ("PoW challenge received: " ++ Py.str_of_Z bits ++ " bits");
         Core.PrintError "PoW solution failed"])%list.
Proof.
  intros Hidle Herr Hbits Hbig s' st'.
  assert (Hnone : forall cb m, ~ pow_ok cb bits m).
  { intros cb m Hok. apply pow_ok_at_most_256 in Hok. lia. }
  assert (Hs' : nonce_solution s' = None /\ wait_for_solution s' = false
                /\ (forall cb, Core.pd_challenge data ≫= b64decode = Some cb ->
                    (N.of_nat (Core.pow_fuel o) <= 2 ^ 64)%N ->
                    total_hashes s' = N.of_nat (Core.pow_fuel o))).
  { unfold s', solve_challenge. rewrite Hidle.
    destruct (Core.pd_challenge data ≫= b64decode) as [cb|];
      [|repeat split; intros; discriminate].
    destruct (mine (Core.pow_fuel o) cb bits 0 0) as [[n|] th'] eqn:Hm.
    - apply mine_sound in Hm as (_ & Hok & _). destruct (Hnone _ _ Hok).
    - repeat split. intros cb' Hcb Hfit. injection Hcb as <-.
      rewrite mine_exhausts in Hm by (auto || lia). cbn. injection Hm as <-. lia. }
  destruct Hs' as (Hnonce & Hwait & Hcount).
  repeat split; try assumption;
    unfold st', Core.pow_challenge; rewrite Herr, Hbits; cbn [Core.pow_solver Core.show];
    fold s'; rewrite Hwait; cbn; try reflexivity.
  rewrite <- app_assoc. reflexivity.
Qed.

(** X6. Every request that [pow_challenge] sends from an idle solver
    carries a nonce that meets the challenge: the challenge decoded, a
    target was given, and the nonce is the decimal text of a number whose
    digest has at least that many leading zero bits. *)
Theorem sent_nonce_meets_challenge (o : Core.oracle) (data : Core.pow_data)
    (st : Core.client) :
  is_solving (Core.pow_solver st) = false ->
  exists new,
    Core.effects (Core.pow_challenge o data st) = (Core.effects st ++ new)%list
    /\ forall e nonce,
         In e new -> pow_nonce_of e = Some nonce ->
         exists cb bits n,
           Core.pd_challenge data ≫= b64decode = Some cb
           /\ Core.pd_target_bits data = Some bits
           /\ nonce = Py.str_of_N n /\ pow_ok cb bits n.
Proof.
  intros Hidle. unfold Core.pow_challenge.
  destruct (Core.pd_error data) as [error|].
  { exists []. split; [|intros ? ? []].
    destruct (Core.pd_blocked_until data); cbn; symmetry; apply app_nil_r. }
  cbn [Core.pow_solver Core.show].
  pose proof (solved_means_valid (Core.pow_fuel o) (Core.pd_challenge data)
                (Core.pd_target_bits data) (Core.pow_solver st) Hidle) as Hvalid.
  remember (solve_challenge (Core.pow_fuel o) (Core.pd_challenge data)
              (Core.pd_target_bits data) (Core.pow_solver st)) as s' eqn:Hs'.
  destruct (wait_for_solution s') eqn:Hwait.
  2:{ exists []. split; [cbn; symmetry; apply app_nil_r|intros ? ? []]. }
  destruct (Hvalid eq_refl) as (cb & bits & n & Hcb & Hbits & Hnonce & Hok).
  rewrite Hnonce. cbn [default from_option id].
  assert (Hgood : forall nonce, Py.str_of_N n = nonce ->
            exists cb bits n,
              Core.pd_challenge data ≫= b64decode = Some cb
              /\ Core.pd_target_bits data = Some bits
              /\ nonce = Py.str_of_N n /\ pow_ok cb bits n).
  { intros nonce <-. exists cb, bits, n. repeat split; assumption. }
  clear Hvalid Hnonce Hwait Hs'.
  unfold Core.send_authentication, Core._upload_file, Core._register_dns,
    Core._report_content.
  all_cases;
    first
      [ (exists []; split; [symmetry; apply app_nil_r | intros ? ? []])
      | (eexists [_]; split;
         [reflexivity
         | intros e nonce [<-|[]] Hn; cbn in Hn; injection Hn as Hn;
           apply Hgood; exact Hn]) ].
Qed.

End MinerFacts.

Lemma solver_finds_existing_solution_witness :
  exists n,
    (n <= 7)%N /\ PoW.pow_ok ["000"; "000"; "000"]%byte 4 n
    /\ (forall k, PoW.pow_ok ["000"; "000"; "000"]%byte 4 k -> (n <= k)%N)
    /\ PoW.nonce_solution
         (PoW.solve_challenge (lib := concrete_library) 100 (Some "AAAA") (Some 4%Z)
            PoW.new_solver) = Some (Py.str_of_N n)
    /\ PoW.wait_for_solution
         (PoW.solve_challenge (lib := concrete_library) 100 (Some "AAAA") (Some 4%Z)
            PoW.new_solver) = true
    /\ PoW.total_hashes
         (PoW.solve_challenge (lib := concrete_library) 100 (Some "AAAA") (Some 4%Z)
            PoW.new_solver) = (n + 1)%N
    /\ PoW.is_solving
         (PoW.solve_challenge (lib := concrete_library) 100 (Some "AAAA") (Some 4%Z)
            PoW.new_solver) = false.
Proof.
  apply (solver_finds_existing_solution (lib := concrete_library) 100 "AAAA"
           ["000"; "000"; "000"]%byte 4 7 PoW.new_solver).
  - reflexivity.
  - vm_compute. reflexivity.
  - exists (SHA256.be_bytes 8 7). split; [reflexivity|].
    apply Z.leb_le. vm_compute. reflexivity.
  - vm_compute. lia.
Defined.

Lemma unreachable_target_fails_witness :
  let data := Core.PowData None None (Some "AAAA") (Some 257%Z) (Some "upload") in
  let s' := PoW.solve_challenge (lib := concrete_library) 3 (Some "AAAA") (Some 257%Z)
              PoW.new_solver in
  let st' := Core.pow_challenge (lib := concrete_library)
               (Core.Oracle 1000 1001 "1001.0" 3 5000 [] []) data uploading in
  PoW.nonce_solution s' = None /\ PoW.wait_for_solution s' = false
  /\ (forall cb, Some "AAAA" ≫= Base64.decode_canonical = Some cb ->
      (N.of_nat 3 <= 2 ^ 64)%N -> PoW.total_hashes s' = N.of_nat 3)
  /\ Core.effects st' = Core.effects uploading
  /\ Core.pend st' = Core.pend uploading
  /\ Core.stats_data st' = Core.stats_data uploading
  /\ Core.display st'
     = (Core.display uploading ++
        [Core.PrintInfo ("PoW challenge received: " ++ Py.str_of_Z 257 ++ " bits");
         Core.PrintError "PoW solution failed"])%list.
Proof.
  apply (unreachable_target_fails (lib := concrete_library)
           (Core.Oracle 1000 1001 "1001.0" 3 5000 [] [])
           (Core.PowData None None (Some "AAAA") (Some 257%Z) (Some "upload"))
           257 uploading); [reflexivity | reflexivity | reflexivity | lia].
Defined.

Lemma sent_nonce_meets_challenge_witness :
  let data := Core.PowData None None (Some "AAAA") (Some 4%Z) (Some "upload") in
  exists new,
    Core.effects (Core.pow_challenge (lib := concrete_library) calm data uploading)
    = (Core.effects uploading ++ new)%list
    /\ forall e nonce,
         In e new -> pow_nonce_of e = Some nonce ->
         exists cb bits n,
           Core.pd_challenge data ≫= Base64.decode_canonical = Some cb
           /\ Core.pd_target_bits data = Some bits
           /\ nonce = Py.str_of_N n /\ PoW.pow_ok cb bits n.
Proof.
  apply (sent_nonce_meets_challenge (lib := concrete_library) calm
           (Core.PowData None None (Some "AAAA") (Some 4%Z) (Some "upload")) uploading).
  reflexivity.
Defined.

(** ** Uploads, the local store and the security check *)

Section UploadFacts.
Import Core.
Context `{lib : Library}.

(** [handle_upload] blocks only inside [upload_file]. *)
Lemma handle_upload_blocks (o : oracle) (args : list string) (st : client)
    (ev : event_name) (t : Z) (st' : client) (k : bool -> client -> client) :
  handle_upload o args st = Wait ev t st' k ->
  exists user path title description mime_type,
    current_user (sess st) = Some user /\ user <> ""
    /\ upload_file o user path title description mime_type st = Wait ev t st' k.
Proof.
  unfold handle_upload. intros Hup.
  destruct (current_user (sess st)) as [user|] eqn:Huser; [|discriminate].
  destruct (String.eqb_spec user "") as [->|Hne]; [discriminate|].
  destruct args as [|file_path options].
  - destruct (no_cli (cfg st)); [discriminate|]. eauto 10.
  - destruct (upload_options options None "" None) as [[[title description] mime]|a];
      [eauto 10|discriminate].
Qed.

Lemma upload_file_cfg (o : oracle) (user path : string) (title : option string)
    (description : string) (mime_type : option string) (st : client)
    (ev : event_name) (t : Z) (st' : client) (k : bool -> client -> client) :
  upload_file o user path title description mime_type st = Wait ev t st' k ->
  cfg st' = cfg st.
Proof.
  unfold upload_file. intros Hup.
  destruct (files (store st) !! path) as [P|]; [|discriminate].
  destruct (max_upload_size <? Z.of_nat (List.length P))%Z; [discriminate|].
  injection Hup as <- <- <- <-.
  match goal with
  | |- context [run_async (request_pow_challenge ?a) ?s] =>
      destruct (request_pow_frame a s) as (Hcfg & _)
  end.
  cbv zeta in Hcfg. rewrite Hcfg. cbn. destruct (via_controller (cfg st)); reflexivity.
Qed.

(** What an upload that goes ahead leaves on the disk: the framed blob
    in the file named after its digest, and a row marked as verified. *)
Lemma upload_stores_blob (o : oracle) (args : list string) (st : client)
    (ev : event_name) (t : Z) (st' : client) (k : bool -> client -> client) :
  handle_upload o args st = Wait ev t st' k ->
  exists ctx row,
    pending_upload (pend st') = Some ctx
    /\ uc_content_hash ctx = SHA256.hexdigest (uc_full_content ctx)
    /\ files (store st') !! blob_path st' (uc_content_hash ctx) = Some (uc_full_content ctx)
    /\ cli_content_cache (store st') !! uc_content_hash ctx = Some row
    /\ row_verified row = true
    /\ size row = List.length (uc_full_content ctx)
    /\ row_username row = current_user (sess st).
Proof.
  intros Hup.
  apply handle_upload_blocks in Hup
    as (user & path & title & description & mime_type & Huser & _ & Hup).
  pose proof (upload_file_cfg _ _ _ _ _ _ _ _ _ _ _ Hup) as Hcfg.
  apply upload_file_spec in Hup
    as (P & ctx & _ & _ & Hpend & Hhash & Hfull & _ & Hstore & _).
  exists ctx. eexists. split; [exact Hpend|].
  split; [rewrite Hhash, Hfull; reflexivity|].
  unfold blob_path, content_dir. rewrite Hcfg, Hstore.
  cbn [store save_content_to_storage with_store files cli_content_cache].
  unfold blob_path, content_dir.
  rewrite !lookup_insert_eq. rewrite Huser. repeat split; reflexivity.
Qed.

(** X7. The size limit of an upload.  For a logged-in user, well-formed
    options and a file that exists, [handle_upload] goes ahead (and
    blocks on the upload event for 300 seconds) when the file has at most
    [max_upload_size] = 104857600 bytes; a larger file is turned down
    with an error, and then nothing is stored, sent or left pending. *)
Theorem upload_size_limit (o : oracle) (user path : string) (options : list string)
    (title : option string) (description : string) (mime_type : option string)
    (st : client) (P : bytes) :
  current_user (sess st) = Some user -> user <> "" ->
  upload_options options None "" None = inl (title, description, mime_type) ->
  files (store st) !! path = Some P ->
  ((Z.of_nat (List.length P) <= 104857600)%Z ->
     exists st', handle_upload o (path :: options) st = Wait UploadEvent 300 st' upload_finish
                 /\ present (pending_upload (pend st')) = true)
  /\ ((104857600 < Z.of_nat (List.length P))%Z ->
        rejected_locally (handle_upload o (path :: options) st) st
          "File too large. Max size: 100MB").
Proof.
  intros Huser Hne Hopts Hfile. apply String.eqb_neq in Hne.
  unfold handle_upload. rewrite Huser, Hne, Hopts. unfold upload_file. rewrite Hfile.
  change max_upload_size with 104857600%Z.
  split; intros Hsize.
  - destruct (Z.ltb_spec 104857600 (Z.of_nat (List.length P))) as [Hbig|_]; [lia|].
    eexists. split; [reflexivity|].
    match goal with
    | |- context [run_async (request_pow_challenge ?a) ?s] =>
        destruct (request_pow_frame a s) as (_ & _ & _ & Hpend & _)
    end.
    cbv zeta in Hpend. rewrite Hpend. reflexivity.
  - destruct (Z.ltb_spec 104857600 (Z.of_nat (List.length P))) as [_|Hfits]; [|lia].
    unfold rejected_locally.
    destruct (via_controller (cfg st)).
    + eexists. exists []. repeat split; reflexivity.
    + eexists. eexists [_; _; _; _]. split; [reflexivity|].
      cbn. rewrite <- !app_assoc. repeat split; reflexivity.
Qed.

(** X8. What was uploaded passes the security check.  When
    [handle_upload] has gone ahead, [handle_security] on the content hash
    of the upload finds the row and the blob, recomputes the same hash and
    announces the content as verified, with the size of the framed
    blob. *)
Theorem security_accepts_upload (o : oracle) (args : list string) (st : client)
    (ev : event_name) (t : Z) (st' : client) (k : bool -> client -> client) :
  handle_upload o args st = Wait ev t st' k ->
  exists ctx,
    pending_upload (pend st') = Some ctx
    /\ announces "CONTENT VERIFIED" (handle_security [uc_content_hash ctx] st')
    /\ (In (KeyValue "Integrity" "OK") (handle_security [uc_content_hash ctx] st')
        \/ In (Line (Print "Integrity: OK")) (handle_security [uc_content_hash ctx] st'))
    /\ (In (KeyValue "Size" (Py.str_of_N (N.of_nat (uc_size ctx)) ++ " bytes"))
           (handle_security [uc_content_hash ctx] st')
        \/ In (Line (Print ("Size: " ++ Py.str_of_N (N.of_nat (uc_size ctx)) ++ " bytes")))
              (handle_security [uc_content_hash ctx] st')).
Proof.
  intros Hup.
  assert (Hsize : exists ctx, pending_upload (pend st') = Some ctx
                              /\ uc_size ctx = List.length (uc_full_content ctx)).
  { apply handle_upload_blocks in Hup as (user & path & ti & de & mi & _ & _ & Hup).
    unfold upload_file in Hup.
    destruct (files (store st) !! path) as [P|]; [|discriminate].
    destruct (max_upload_size <? Z.of_nat (List.length P))%Z; [discriminate|].
    injection Hup as <- <- <- <-.
    match goal with
    | |- context [run_async (request_pow_challenge ?a) ?s] =>
        destruct (request_pow_frame a s) as (_ & _ & _ & Hpend & _)
    end.
    cbv zeta in Hpend. rewrite Hpend. eexists. split; reflexivity. }
  destruct Hsize as (ctx0 & Hpend0 & Hsize).
  apply upload_stores_blob in Hup
    as (ctx & row & Hpend & Hhash & Hfile & Hrow & Hver & _).
  rewrite Hpend in Hpend0. injection Hpend0 as <-.
  exists ctx. split; [exact Hpend|].
  unfold handle_security, announces. rewrite Hrow, Hfile, Hver, Hsize.
  rewrite <- Hhash, String.eqb_refl.
  destruct (via_controller (cfg st')); cbn; intuition.
Qed.



End UploadFacts.

Lemma upload_size_limit_witness :
  let st := with_file "/tmp/a.txt" (Py.encode "hello") (logged_in "/h" "srv" "alice" 100) in
  ((Z.of_nat (List.length (Py.encode "hello")) <= 104857600)%Z ->
     exists st',
       Core.handle_upload (lib := concrete_library) calm ["/tmp/a.txt"; "--title"; "T"] st
       = Core.Wait Core.UploadEvent 300 st' Core.upload_finish
       /\ Core.present (Core.pending_upload (Core.pend st')) = true)
  /\ ((104857600 < Z.of_nat (List.length (Py.encode "hello")))%Z ->
        Core.rejected_locally
          (Core.handle_upload (lib := concrete_library) calm ["/tmp/a.txt"; "--title"; "T"] st)
          st "File too large. Max size: 100MB").
Proof.
  intros st.
  apply (upload_size_limit (lib := concrete_library) calm "alice" "/tmp/a.txt"
           ["--title"; "T"] (Some "T") "" None st (Py.encode "hello"));
    first [reflexivity | discriminate].
Defined.

Lemma security_accepts_upload_witness :
  let st' := uploading in
  exists ctx,
    Core.pending_upload (Core.pend st') = Some ctx
    /\ announces "CONTENT VERIFIED" (handle_security [Core.uc_content_hash ctx] st')
    /\ (In (KeyValue "Integrity" "OK") (handle_security [Core.uc_content_hash ctx] st')
        \/ In (Line (Core.Print "Integrity: OK"))
              (handle_security [Core.uc_content_hash ctx] st'))
    /\ (In (KeyValue "Size" (Py.str_of_N (N.of_nat (Core.uc_size ctx)) ++ " bytes"))
           (handle_security [Core.uc_content_hash ctx] st')
        \/ In (Line (Core.Print
                 ("Size: " ++ Py.str_of_N (N.of_nat (Core.uc_size ctx)) ++ " bytes")))
              (handle_security [Core.uc_content_hash ctx] st')).
Proof.
  intros st'. subst st'. unfold uploading, blocked_state.
  pose proof (security_accepts_upload (lib := concrete_library) calm ["/tmp/a.txt"]
    (with_file "/tmp/a.txt" (Py.encode "hello") (logged_in "/h" "srv" "alice" 100))) as T.
  destruct (Core.handle_upload calm ["/tmp/a.txt"]
    (with_file "/tmp/a.txt" (Py.encode "hello") (logged_in "/h" "srv" "alice" 100)))
    as [s|ev t s k] eqn:E.
  - exfalso. vm_compute in E. discriminate E.
  - exact (T ev t s k eq_refl).
Defined.


(** ** Downloads and searches *)

Section DownloadFacts.
Import Core.
Context `{lib : Library}.

Lemma substring_all (s : string) : forall n,
  (String.length s <= n)%nat -> String.substring 0 n s = s.
Proof.
  induction s as [|c s IH]; intros n Hn.
  - destruct n; reflexivity.
  - destruct n as [|n]; [cbn in Hn; lia|].
    cbn [String.length] in Hn.
    change (String.substring 0 (S n) (String c s)) with (String c (String.substring 0 n s)).
    rewrite IH by lia. reflexivity.
Qed.


(** X11. The address form of a hash.  [download hps://H] does what
    [download H] does, for every [H] that is not itself an address, the
    word [rede] or a [dns:] name: the same request, the same wait, the
    same ending. *)
Theorem download_address_is_hash (h : string) (options : list string) (st : client) :
  Py.startswith "hps://" h = false ->
  h <> "rede" ->
  Py.startswith "dns:" h = false ->
  handle_download (("hps://" ++ h) :: options) st = handle_download (h :: options) st.
Proof.
  intros Hplain Hrede Hdns. unfold handle_download.
  destruct (negb (Py.truthy (current_user (sess st)))); [reflexivity|].
  destruct (download_options options None) as [output_path|a]; [|reflexivity].
  rewrite Hplain.
  change (Py.startswith "hps://" ("hps://" ++ h)) with true. cbv iota.
  change (Py.startswith "hps://dns:" ("hps://" ++ h)) with (Py.startswith "dns:" h).
  rewrite Hdns.
  assert (Hne : String.eqb ("hps://" ++ h) "hps://rede" = false).
  { apply String.eqb_neq. intros Heq.
    change "hps://rede" with ("hps://" ++ "rede") in Heq.
    apply append_inv_head in Heq. contradiction. }
  rewrite Hne.
  change (String.substring 6 (String.length ("hps://" ++ h)) ("hps://" ++ h))
    with (String.substring 0 (6 + String.length h) h).
  rewrite substring_all by lia. reflexivity.
Qed.

(** X12. An empty result list counts as a failed search.  When the
    server answers a search with no error and no results (an empty list,
    or no list at all), the handler that was woken in time ends with
    [Search failed]. *)
Theorem empty_search_is_failure (query : string) (options : list string)
    (content_type sort_by : string) (data : search_data) (st : client) (delay : Z) :
  Py.truthy (current_user (sess st)) = true ->
  loop_ready (sess st) = true ->
  search_options options "all" "reputation" = inl (content_type, sort_by) ->
  sd_error data = None ->
  default [] (sd_results data) = [] ->
  (delay <= 30)%Z ->
  let st' := run (handle_search (query :: options) st) (Some delay) (search_results data) in
  exists lines,
    display st' = (display st ++ lines ++
      [if via_controller (cfg st) then Print "Search failed"
       else PrintError "Search failed"])%list.
Proof.
  intros Huser Hloop Hopts Herr Hempty Hdelay.
  unfold handle_search. rewrite Huser, Hopts. cbn [negb].
  destruct (via_controller (cfg st)) eqn:Hvia; cbn [sess set_search_box with_repl show];
    rewrite Hloop; cbn [negb run event_wait];
    (destruct (Z.leb_spec delay 30) as [_|Hlate]; [|lia]);
    unfold search_finish, search_results; rewrite Herr, Hempty; cbn [negb];
    unfold _search_content, report_to_user;
    all_cases; try congruence; lines_before_last.
Qed.

End DownloadFacts.


Lemma download_address_is_hash_witness :
  Core.handle_download (lib := concrete_library) ["hps://abcd"; "--output"; "/tmp/out"]
    (logged_in "/h" "srv" "alice" 100)
  = Core.handle_download (lib := concrete_library) ["abcd"; "--output"; "/tmp/out"]
      (logged_in "/h" "srv" "alice" 100).
Proof.
  apply (download_address_is_hash (lib := concrete_library) "abcd" ["--output"; "/tmp/out"]
           (logged_in "/h" "srv" "alice" 100)); first [reflexivity | discriminate].
Defined.

Lemma empty_search_is_failure_witness :
  let st' := Core.run
               (Core.handle_search ["cats"; "--type"; "image"]
                  (logged_in "/h" "srv" "alice" 100))
               (Some 2%Z) (Core.search_results (Core.SearchData None (Some []))) in
  exists lines,
    Core.display st' = (Core.display (logged_in "/h" "srv" "alice" 100) ++ lines ++
      [Core.PrintError "Search failed"])%list.
Proof.
  apply (empty_search_is_failure "cats" ["--type"; "image"] "image" "reputation"
           (Core.SearchData None (Some [])) (logged_in "/h" "srv" "alice" 100) 2);
    first [reflexivity | lia].
Defined.

(** ** What the handlers never do *)

Section GuardFacts.
Import Core.
Context `{lib : Library}.

(** X13. The ban that [handle_ban] records is not enforced by the
    client itself: every command handler does, on a client with any ban
    state [b], exactly what it does without it -- the same lines, the same
    requests, the same wait -- and leaves the ban as it was. *)
Theorem commands_ignore_ban (c : command) (b : ban_state) (st : client) :
  start c (with_ban b st)
  = match start c st with
    | Done st' => Done (with_ban b st')
    | Wait ev timeout st' k => Wait ev timeout (with_ban b st') k
    end.
Proof.
  destruct c; cbn [start].
  - unfold handle_logout, report_to_user, run_async, sio_disconnect, disconnect.
    all_cases; try congruence; reflexivity.
  - unfold handle_upload.
    cbn [sess with_ban cfg].
    destruct (current_user (sess st)) as [user|]; [|reflexivity].
    destruct (String.eqb user ""); [reflexivity|].
    assert (Hfile : forall path title description mime,
              upload_file o user path title description mime (with_ban b st)
              = match upload_file o user path title description mime st with
                | Done st' => Done (with_ban b st')
                | Wait ev timeout st' k => Wait ev timeout (with_ban b st') k
                end).
    { intros path title description mime.
      unfold upload_file, save_content_to_storage, blob_path, content_dir,
        run_async, request_pow_challenge.
      cbn [store with_ban cfg].
      destruct (files (store st) !! path) as [P|]; [|reflexivity].
      destruct (via_controller (cfg st));
        (destruct (max_upload_size <? Z.of_nat (List.length P))%Z; [reflexivity|]);
        cbn; destruct (connected (sess st)), (loop_ready (sess st)); reflexivity. }
    destruct args as [|file_path options].
    + destruct (no_cli (cfg st)); [reflexivity|]. apply Hfile.
    + destruct (upload_options options None "" None) as [[[title description] mime]|a];
        [apply Hfile|reflexivity].
  - unfold handle_download, handle_network, handle_dns_resolve, show_unless_controller,
      run_async, _request_content_by_hash, _get_network_state, _resolve_dns.
    all_cases; try congruence; reflexivity.
  - unfold handle_dns_register, run_async, request_pow_challenge.
    all_cases; try congruence; reflexivity.
  - unfold handle_dns_resolve, _resolve_dns.
    all_cases; try congruence; reflexivity.
  - unfold handle_search, _search_content.
    all_cases; try congruence; reflexivity.
  - unfold handle_network, show_unless_controller, _get_network_state.
    all_cases; try congruence; reflexivity.
  - unfold handle_report, run_async, request_pow_challenge.
    all_cases; try congruence; reflexivity.
Qed.


End GuardFacts.


(** ** Names *)

Section NameFacts.
Import Core.
Context `{lib : Library}.


(** X16. Through the controller, [dns-res] does not ask for a login.
    [_execute_controller_command] passes the snapshot of
    [get_connection_state] to the handler, and a snapshot is never empty:
    on a connected client with a network loop the handler sends the
    request for the lower-cased domain and waits 30 seconds, whoever is or
    is not logged in; called directly without a user, it refuses. *)
Theorem controller_resolves_without_login (domain : string) (rest : list string)
    (st : client) :
  connected (sess st) = true ->
  loop_ready (sess st) = true ->
  (exists st' k,
     controller_dns_resolve (domain :: rest) st = Wait DnsEvent 30 st' k
     /\ effects st' = (effects st ++ [EmitResolveDns (Py.lower domain)])%list
     /\ current_user (sess st') = current_user (sess st))
  /\ (Py.truthy (current_user (sess st)) = false ->
      rejected_locally (handle_dns_resolve (domain :: rest) None st) st
        "You need to be logged in to resolve DNS").
Proof.
  intros Hconn Hloop. split.
  - unfold controller_dns_resolve, handle_dns_resolve, get_connection_state, _resolve_dns.
    rewrite Hconn, Hloop. cbn [present negb andb cs_connected].
    rewrite andb_false_r.
    destruct (via_controller (cfg st)); cbn; eexists _, _; repeat split; reflexivity.
  - intros Huser. unfold handle_dns_resolve. rewrite Huser. cbn [present negb andb].
    eexists. exists []. repeat split; reflexivity.
Qed.

End NameFacts.


Lemma controller_resolves_without_login_witness :
  let st := Core.set_connected true (new_client "/h") in
  (exists st' k,
     controller_dns_resolve ["Example.COM"] st = Core.Wait Core.DnsEvent 30 st' k
     /\ Core.effects st' = (Core.effects st ++ [Core.EmitResolveDns (Py.lower "Example.COM")])%list
     /\ Core.current_user (Core.sess st') = Core.current_user (Core.sess st))
  /\ (Py.truthy (Core.current_user (Core.sess st)) = false ->
      Core.rejected_locally (Core.handle_dns_resolve ["Example.COM"] None st) st
        "You need to be logged in to resolve DNS").
Proof.
  apply (controller_resolves_without_login "Example.COM" [] (Core.set_connected true (new_client "/h")));
    reflexivity.
Defined.

(** ** Options, time-outs and what is kept between runs *)

Section OptionFacts.
Import Core.
Context `{lib : Library}.

Lemma upload_options_pairs (pairs : list (string * string)) :
  forall (title : option string) (description : string) (mime_type : option string),
  List.Forall (fun fv => is_upload_flag (fst fv) = true) pairs ->
  upload_options (flag_pairs pairs) title description mime_type
  = inl (last_value "--title" Some title pairs,
         last_value "--desc" (fun v => v) description pairs,
         last_value "--mime" Some mime_type pairs)
  /\ forall a,
       upload_options (flag_pairs pairs ++ [a]) title description mime_type = inr a.
Proof.
  induction pairs as [|[f v] pairs IH]; intros title description mime_type Hall.
  - split; [reflexivity|intros a; reflexivity].
  - inversion Hall as [|? ? Hf Hrest]; subst. cbn [fst] in Hf.
    unfold is_upload_flag in Hf.
    cbn [flag_pairs List.app upload_options].
    assert (Hstep : forall a, match (flag_pairs pairs ++ [a])%list with
                              | [] => v :: flag_pairs pairs ++ [a]
                              | _ => v :: flag_pairs pairs ++ [a]
                              end%list = (v :: flag_pairs pairs ++ [a])%list)
      by (intros a; destruct (flag_pairs pairs ++ [a])%list; reflexivity).
    destruct (String.eqb_spec f "--title") as [->|_].
    { destruct (IH (Some v) description mime_type Hrest) as [IH1 IH2].
      split; [rewrite IH1; reflexivity|exact IH2]. }
    destruct (String.eqb_spec f "--desc") as [->|_].
    { destruct (IH title v mime_type Hrest) as [IH1 IH2].
      split; [rewrite IH1; reflexivity|exact IH2]. }
    destruct (String.eqb_spec f "--mime") as [->|_]; [|discriminate Hf].
    destruct (IH title description (Some v) Hrest) as [IH1 IH2].
    split; [rewrite IH1; reflexivity|exact IH2].
Qed.

(** X17. The option loop of [handle_upload].  Options that come as
    pairs of a known flag and a value are all accepted, whatever the
    values look like; for each flag the value given last wins, and the
    description is empty when none is given.  One more argument after
    such pairs -- a flag without its value included -- is reported as an
    unknown argument, and the upload does not start. *)
Theorem upload_options_in_pairs (o : oracle) (user path : string)
    (pairs : list (string * string)) (st : client) :
  List.Forall (fun fv => is_upload_flag (fst fv) = true) pairs ->
  current_user (sess st) = Some user -> user <> "" ->
  handle_upload o (path :: flag_pairs pairs) st
  = upload_file o user path (last_value "--title" Some None pairs)
      (last_value "--desc" (fun v => v) "" pairs) (last_value "--mime" Some None pairs) st
  /\ forall a,
       handle_upload o (path :: flag_pairs pairs ++ [a]) st
       = Done (show (PrintError ("Unknown argument: " ++ a)) st).
Proof.
  intros Hall Huser Hne. apply String.eqb_neq in Hne.
  destruct (upload_options_pairs pairs None "" None Hall) as [Hok Hodd].
  unfold handle_upload. rewrite Huser, Hne. split.
  - rewrite Hok. reflexivity.
  - intros a. change ((path :: flag_pairs pairs) ++ [a])%list
      with (path :: (flag_pairs pairs ++ [a]))%list.
    rewrite Hodd. reflexivity.
Qed.

(** X18. A request that timed out is withdrawn.  After the time-out
    branch of [handle_upload], [handle_dns_register] or [handle_report]
    has run, a proof-of-work challenge for that action (however late, and
    whatever it carries) makes the client send nothing; for a report, no
    row is inserted either. *)
Theorem timed_out_request_is_withdrawn (o : oracle) (data : pow_data) (st : client) :
  (pd_action_type data = Some "upload" ->
   effects (pow_challenge o data (upload_finish false st)) = effects st)
  /\ (pd_action_type data = Some "dns" ->
      effects (pow_challenge o data (dns_register_finish false st)) = effects st)
  /\ (pd_action_type data = Some "report" ->
      effects (pow_challenge o data (report_finish false st)) = effects st
      /\ cli_reports (store (pow_challenge o data (report_finish false st)))
         = cli_reports (store st)).
Proof.
  split; [|split]; intros Haction; [| |split];
    unfold pow_challenge, handle_ban; rewrite Haction;
    cbn [default from_option id]; decide_constants; all_cases; reflexivity.
Qed.

End OptionFacts.

Lemma upload_options_in_pairs_witness :
  let st := with_file "/tmp/a.txt" (Py.encode "hello") (logged_in "/h" "srv" "alice" 100) in
  Core.handle_upload (lib := concrete_library) calm
    ("/tmp/a.txt" :: flag_pairs [("--title", "A"); ("--mime", "--desc"); ("--title", "B")]) st
  = Core.upload_file (lib := concrete_library) calm "alice" "/tmp/a.txt" (Some "B") ""
      (Some "--desc") st
  /\ forall a,
       Core.handle_upload (lib := concrete_library) calm
         ("/tmp/a.txt"
          :: flag_pairs [("--title", "A"); ("--mime", "--desc"); ("--title", "B")] ++ [a]) st
       = Core.Done (Core.show (Core.PrintError ("Unknown argument: " ++ a)) st).
Proof.
  intros st.
  apply (upload_options_in_pairs (lib := concrete_library) calm "alice" "/tmp/a.txt"
           [("--title", "A"); ("--mime", "--desc"); ("--title", "B")] st).
  - repeat constructor.
  - reflexivity.
  - discriminate.
Defined.

Section PersistenceFacts.
Import Core.

(** Inserting a row per key: the rows of the keys are the new ones, the
    others stay. *)
Lemma fold_insert_out {V : Type} (f : string -> V) (keys : list string) :
  forall (m : gmap string V) (key : string),
  ~ In key keys ->
  List.fold_left (fun m k => <[k := f k]> m) keys m !! key = m !! key.
Proof.
  induction keys as [|k keys IH]; intros m key Hout; [reflexivity|].
  cbn [List.fold_left]. rewrite IH by (intros Hin; apply Hout; right; exact Hin).
  apply lookup_insert_ne. intros ->. apply Hout. left. reflexivity.
Qed.

Lemma fold_insert_in {V : Type} (f : string -> V) (keys : list string) :
  forall (m : gmap string V) (key : string),
  In key keys ->
  List.fold_left (fun m k => <[k := f k]> m) keys m !! key = Some (f key).
Proof.
  induction keys as [|k keys IH]; intros m key Hin; [destruct Hin|].
  cbn [List.fold_left].
  destruct (in_dec string_dec key keys) as [Hlater|Hout]; [apply IH; exact Hlater|].
  rewrite fold_insert_out by exact Hout.
  destruct Hin as [->|Hin]; [apply lookup_insert_eq|contradiction].
Qed.




(** X20. A server once saved stays known.  After [save_known_servers]
    the table yields, to [load_known_servers], the servers of the list
    that was saved and every server that was active in the table before:
    leaving a server out of the list does not remove it from the next
    run. *)
Theorem known_servers_accumulate (known_servers : list string)
    (table : gmap string server_row) (s : string) :
  In s (fst (load_known_servers (save_known_servers known_servers table)))
  <-> In s known_servers
      \/ exists row, table !! s = Some row /\ srv_is_active row = true.
Proof.
  unfold load_known_servers, save_known_servers. cbn [fst].
  rewrite in_map_iff. split.
  - intros ([s' row] & Hs & Hrow). cbn [fst] in Hs. subst s'.
    apply filter_In in Hrow as [Hrow Hactive]. cbn [snd] in Hactive.
    apply list_elem_of_In, elem_of_map_to_list in Hrow.
    destruct (in_dec string_dec s known_servers) as [Hin|Hout]; [left; exact Hin|].
    right. exists row. split; [|exact Hactive].
    rewrite <- Hrow. symmetry.
    apply (fold_insert_out
             (fun a => ServerRow 100 true (Py.startswith "https://" a))). exact Hout.
  - intros Hs.
    destruct (in_dec string_dec s known_servers) as [Hin|Hout].
    + exists (s, ServerRow 100 true (Py.startswith "https://" s)). split; [reflexivity|].
      apply filter_In. split; [|reflexivity].
      apply list_elem_of_In, elem_of_map_to_list.
      apply (fold_insert_in
               (fun a => ServerRow 100 true (Py.startswith "https://" a))). exact Hin.
    + destruct Hs as [Hin|(row & Hrow & Hactive)]; [contradiction|].
      exists (s, row). split; [reflexivity|].
      apply filter_In. split; [|exact Hactive].
      apply list_elem_of_In, elem_of_map_to_list.
      rewrite <- Hrow.
      apply (fold_insert_out
               (fun a => ServerRow 100 true (Py.startswith "https://" a))). exact Hout.
Qed.

End PersistenceFacts.


(** ** The local store over the life of the client *)

Section GrowthFacts.
Import Core.
Context `{lib : Library}.

Lemma never_shrinks_refl (st st' : client) : store st' = store st -> never_shrinks st st'.
Proof. intros Hs. unfold never_shrinks. rewrite Hs. repeat split; auto. Qed.

Lemma never_shrinks_trans (a b c : client) :
  never_shrinks a b -> never_shrinks b c -> never_shrinks a c.
Proof. intros (F1 & C1 & D1) (F2 & C2 & D2). repeat split; auto. Qed.

(** A state whose store is that of [st] with some entries written. *)
Ltac store_kept :=
  repeat (cbn; rewrite ?fold_show_store; innermost_scrutinee);
  cbn; rewrite ?fold_show_store;
  unfold never_shrinks; cbn; rewrite ?fold_show_store;
  repeat split; intros ? ?; rewrite ?lookup_insert_is_Some'; auto.

Lemma on_event_never_shrinks (e : event) (st : client) : never_shrinks st (on_event e st).
Proof.
  destruct e; unfold on_event.
  - unfold disconnect. store_kept.
  - unfold pow_challenge, handle_ban, send_authentication, _upload_file, _register_dns,
      _report_content. store_kept.
  - unfold content_response, save_content_to_storage, report_to_user,
      show_unless_controller. store_kept.
  - unfold publish_result, announce_result, report_to_user. store_kept.
  - unfold dns_result, announce_result, report_to_user. store_kept.
  - unfold report_result, announce_result, report_to_user. store_kept.
  - unfold dns_resolution, report_to_user. store_kept.
  - unfold search_results, report_to_user. store_kept.
  - unfold network_state. store_kept.
Qed.

Lemma start_never_shrinks (c : command) (st : client) :
  never_shrinks st (blocked_state (start c st)).
Proof.
  destruct c; unfold start, blocked_state.
  - unfold handle_logout, run_async, sio_disconnect, disconnect, report_to_user. store_kept.
  - unfold handle_upload, upload_file, save_content_to_storage, run_async,
      request_pow_challenge. store_kept.
  - unfold handle_download, handle_network, handle_dns_resolve, run_async,
      _request_content_by_hash, _get_network_state, _resolve_dns, show_unless_controller.
    store_kept.
  - unfold handle_dns_register, run_async, request_pow_challenge. store_kept.
  - unfold handle_dns_resolve, _resolve_dns. store_kept.
  - unfold handle_search, _search_content. store_kept.
  - unfold handle_network, _get_network_state, show_unless_controller. store_kept.
  - unfold handle_report, run_async, request_pow_challenge. store_kept.
Qed.

Lemma finish_never_shrinks (woke : bool) (st : client) :
  never_shrinks st (upload_finish woke st)
  /\ never_shrinks st (dns_register_finish woke st)
  /\ never_shrinks st (report_finish woke st)
  /\ never_shrinks st (dns_resolve_finish woke st)
  /\ never_shrinks st (search_finish woke st)
  /\ never_shrinks st (network_finish woke st)
  /\ forall p, never_shrinks st (download_finish p woke st).
Proof.
  split; [|split; [|split; [|split; [|split; [|split; [|intros p]]]]]];
    unfold upload_finish, dns_register_finish, report_finish, dns_resolve_finish,
      search_finish, network_finish, download_finish, report_to_user;
    store_kept.
Qed.

(** The ways in which a blocked handler goes on. *)
Lemma continuation_of_start (c : command) (st0 : client) (ev : event_name) (t : Z)
    (st1 : client) (k : bool -> client -> client) :
  start c st0 = Wait ev t st1 k ->
  k = upload_finish \/ k = dns_register_finish \/ k = report_finish
  \/ k = dns_resolve_finish \/ k = search_finish \/ k = network_finish
  \/ exists p, k = download_finish p.
Proof.
  assert (Hnet : forall s, handle_network s = Wait ev t st1 k -> k = network_finish).
  { intros s. unfold handle_network.
    destruct (negb _); [discriminate|]. destruct (negb _); [discriminate|].
    intros Heq. injection Heq as _ _ _ <-. reflexivity. }
  assert (Hres : forall a cs s,
            handle_dns_resolve a cs s = Wait ev t st1 k -> k = dns_resolve_finish).
  { intros a cs s. unfold handle_dns_resolve.
    destruct (_ && _); [discriminate|]. destruct a; [discriminate|].
    destruct (negb _); [discriminate|]. destruct (negb _); [discriminate|].
    intros Heq. injection Heq as _ _ _ <-. reflexivity. }
  destruct c; unfold start; intros Hstart.
  - discriminate Hstart.
  - left. apply handle_upload_blocks in Hstart as (u & p & ti & de & mi & _ & _ & Hup).
    apply upload_file_spec in Hup
      as (P & ctx & _ & _ & _ & _ & _ & _ & _ & _ & _ & Hk). exact Hk.
  - revert Hstart. unfold handle_download.
    destruct (negb _); [discriminate|]. destruct args as [|target options]; [discriminate|].
    destruct (download_options options None) as [output_path|a]; [|discriminate].
    destruct (Py.startswith "hps://" target).
    + destruct (String.eqb target "hps://rede"); [intros Heq; rewrite (Hnet _ Heq); tauto|].
      destruct (Py.startswith "hps://dns:" target);
        [intros Heq; rewrite (Hres _ _ _ Heq); tauto|].
      intros Heq. injection Heq as _ _ _ <-. do 6 right. eauto.
    + intros Heq. injection Heq as _ _ _ <-. do 6 right. eauto.
  - right. left. revert Hstart. unfold handle_dns_register.
    destruct (negb _); [discriminate|].
    destruct args as [|arg0 [|content_hash rest]]; try discriminate.
    destruct (negb _); [discriminate|].
    intros Heq. injection Heq as _ _ _ <-. reflexivity.
  - rewrite (Hres _ _ _ Hstart). tauto.
  - do 4 right. left. revert Hstart. unfold handle_search.
    destruct (negb _); [discriminate|]. destruct args as [|query options]; [discriminate|].
    destruct (search_options options "all" "reputation") as [[ct sb]|a]; [|discriminate].
    destruct (negb _); [discriminate|].
    intros Heq. injection Heq as _ _ _ <-. reflexivity.
  - rewrite (Hnet _ Hstart). tauto.
  - do 2 right. left.
    destruct (handle_report_cases args st0)
      as [[_ (h & u & rest & _ & Hwait)]|[_ (text & s & lines & Hdone & _)]];
      [|congruence].
    rewrite Hwait in Hstart. injection Hstart as _ _ _ <-. reflexivity.
Qed.

Lemma step_never_shrinks (st st' : client) : step st st' -> never_shrinks st st'.
Proof.
  intros [e s|c s|c s0 ev t s1 k woke s Hstart].
  - apply on_event_never_shrinks.
  - apply (start_never_shrinks c s).
  - destruct (finish_never_shrinks woke s) as (Hup & Hreg & Hrep & Hdns & Hsearch & Hnetw & Hdown).
    destruct (continuation_of_start _ _ _ _ _ _ Hstart)
      as [->|[->|[->|[->|[->|[->|[p ->]]]]]]]; auto.
Qed.

(** X21. The client never deletes from its local store.  Over any
    sequence of moves -- socket handlers, command handlers that start,
    blocked handlers that go on, in any order -- every file, every row of
    the content cache and every name record that was there is still
    there (possibly with new content), and no row of [cli_reports] is
    removed or changed. *)
Theorem store_never_shrinks (st st' : client) :
  rtc step st st' ->
  never_shrinks st st' /\ cli_reports (store st) `prefix_of` cli_reports (store st').
Proof.
  intros Hsteps. split; [|apply steps_keep_reports; exact Hsteps].
  induction Hsteps as [s|s1 s2 s3 Hstep _ IH]; [apply never_shrinks_refl; reflexivity|].
  eapply never_shrinks_trans; [apply step_never_shrinks; exact Hstep|exact IH].
Qed.

End GrowthFacts.

Lemma store_never_shrinks_witness :
  let st := logged_in "/h" "srv" "alice" 100 in
  let st' := Core.content_response (lib := concrete_library) calm forged_response st in
  never_shrinks st st'
  /\ Core.cli_reports (Core.store st) `prefix_of` Core.cli_reports (Core.store st').
Proof.
  intros st st'.
  apply (store_never_shrinks (lib := concrete_library) st st').
  apply rtc_once.
  exact (Core.step_event (lib := concrete_library)
           (Core.EvContentResponse calm forged_response) st).
Defined.

(** ** Domain names *)

Section DomainFacts.
Import Core.

Lemma valid_after_label (l : string) : forall (b : bool) (t : string),
  all_label_chars l = true ->
  valid_domain_from b (l ++ t) = valid_domain_from (b || negb (String.eqb l "")) t.
Proof.
  induction l as [|c l IH]; intros b t Hl.
  - change ("" ++ t) with t. change (String.eqb "" "") with true.
    rewrite orb_false_r. reflexivity.
  - cbn [all_label_chars] in Hl. apply andb_true_iff in Hl as [Hc Hl].
    rewrite append_cons. cbn [valid_domain_from]. rewrite Hc, (IH _ _ Hl).
    assert (Hne : String.eqb (String c l) "" = false) by (apply String.eqb_neq; discriminate).
    rewrite Hne, orb_true_r. reflexivity.
Qed.

Lemma valid_after_dots (rest : list string) (ending : string) :
  List.Forall (fun l => is_label l = true) rest ->
  ending = "" \/ ending = String "010" "" ->
  valid_domain_from true (dotted rest ++ ending) = true.
Proof.
  intros Hrest Hend. induction Hrest as [|l rest Hl _ IH].
  - change (dotted [] ++ ending) with ending.
    destruct Hend as [-> | ->]; reflexivity.
  - cbn [dotted]. rewrite !append_assoc.
    change ("." ++ l ++ dotted rest ++ ending)
      with (String "." (l ++ dotted rest ++ ending)).
    cbn [valid_domain_from]. change (is_label_char ".") with false.
    change (Ascii.eqb "." ".") with true. cbv iota. cbn [andb].
    unfold is_label in Hl. apply andb_true_iff in Hl as [Hne Hl].
    rewrite (valid_after_label _ _ _ Hl), Hne. exact IH.
Qed.

Lemma valid_domain_from_shape (s : string) : forall b,
  valid_domain_from b s = true ->
  exists l rest ending,
    all_label_chars l = true /\ (b = false -> l <> "")
    /\ List.Forall (fun l => is_label l = true) rest
    /\ (ending = "" \/ ending = String "010" "")
    /\ s = l ++ dotted rest ++ ending.
Proof.
  induction s as [|c s IH]; intros b Hvalid.
  - cbn [valid_domain_from] in Hvalid. subst b.
    exists "", [], "". repeat split; [discriminate|constructor|left; reflexivity].
  - cbn [valid_domain_from] in Hvalid.
    destruct (is_label_char c) eqn:Hc.
    { destruct (IH _ Hvalid) as (l & rest & ending & Hl & _ & Hrest & Hend & ->).
      exists (String c l), rest, ending. repeat split; try assumption.
      - cbn [all_label_chars]. rewrite Hc, Hl. reflexivity.
      - discriminate. }
    destruct (Ascii.eqb_spec c ".") as [->|_].
    { apply andb_true_iff in Hvalid as [-> Hvalid].
      destruct (IH _ Hvalid) as (l & rest & ending & Hl & Hne & Hrest & Hend & ->).
      exists "", (l :: rest), ending. repeat split; try assumption.
      - discriminate.
      - constructor; [|exact Hrest]. unfold is_label. rewrite Hl, andb_true_r.
        apply negb_true_iff, String.eqb_neq, Hne. reflexivity.
      - cbn [dotted]. rewrite !append_assoc. reflexivity. }
    destruct (Ascii.eqb_spec c "010") as [->|_]; [|discriminate].
    apply andb_true_iff in Hvalid as [-> Hvalid].
    apply String.eqb_eq in Hvalid. subst s.
    exists "", [], (String "010" ""). repeat split; [discriminate|constructor|right; reflexivity].
Qed.

(** X23. What [is_valid_domain] accepts: exactly the strings made of
    one or more labels separated by single dots, each label one or more
    characters of [a-z0-9-] -- and these strings followed by one line
    feed, which the end anchor of the pattern lets through.  Upper-case
    letters, empty labels and a leading or trailing dot are refused;
    a leading or trailing hyphen is not. *)
Theorem valid_domain_shape (domain : string) :
  is_valid_domain domain = true
  <-> exists first rest,
        is_label first = true
        /\ List.Forall (fun l => is_label l = true) rest
        /\ (domain = first ++ dotted rest
            \/ domain = first ++ dotted rest ++ String "010" "").
Proof.
  unfold is_valid_domain. split.
  - intros Hvalid.
    destruct (valid_domain_from_shape _ _ Hvalid)
      as (l & rest & ending & Hl & Hne & Hrest & Hend & ->).
    exists l, rest. split; [|split; [exact Hrest|]].
    + unfold is_label. rewrite Hl, andb_true_r.
      apply negb_true_iff, String.eqb_neq, Hne. reflexivity.
    + destruct Hend as [-> | ->]; [left; rewrite append_empty_r; reflexivity|right; reflexivity].
  - intros (first & rest & Hfirst & Hrest & Hshape).
    unfold is_label in Hfirst. apply andb_true_iff in Hfirst as [Hne Hfirst].
    assert (Hgen : forall ending, ending = "" \/ ending = String "010" "" ->
              valid_domain_from false (first ++ dotted rest ++ ending) = true).
    { intros ending Hend. rewrite (valid_after_label _ _ _ Hfirst), Hne.
      apply valid_after_dots; assumption. }
    destruct Hshape as [-> | ->].
    + rewrite <- (append_empty_r (dotted rest)). apply Hgen. left. reflexivity.
    + apply Hgen. right. reflexivity.
Qed.

End DomainFacts.
